(** * Runnable, Hook, Test and the suite DSL of the TypeScript port of Mocha

    A shallow embedding of [runnable.ts], [hook.ts], the test class, the
    functions common to the DSL interfaces, the error factories of
    [errors.ts] and the stats collector.

    JavaScript objects become records and assignments become record updates.
    The closure that one call of [Runnable.prototype.run] creates becomes an
    explicit environment, kept with the runnable and the clock in a [World].
    What the code hands to its collaborators is recorded in a trace: the call
    of the user's function, the call [fn(err)] of the completion callback, an
    ['error'] event.  The user's function is described by what it does to the
    runnable while it is called and by the events it causes afterwards.  A
    call that can throw returns the state it leaves together with what it
    returned or threw.

    Numbers are the integers and [NaN]: clock values and durations are
    integers, a threshold is whatever number [timeout(ms)] stored, and a slow
    threshold may in addition be [undefined].  Fractions and the infinities
    are not represented.  Live test objects that refer to each other are
    addresses in a store. *)

From stdpp Require Import base strings pretty list gmap.
From Stdlib Require Import ZArith Lia.

Local Open Scope Z_scope.
Local Open Scope string_scope.

(** ** JavaScript values *)

Module Js.

(** Which constructor built an error object ([global.Error] or
    [global.TypeError]). *)
Inductive ErrorClass := ClsError | ClsTypeError.

(** A number: an integer or [NaN]. *)
Inductive number := NaN | Num (z : Z).

(** The values that flow through the completion callback, are thrown, or are
    stored as errors.  [VError] stands for every value [err] with
    [err instanceof Error] or whose class string is ['[object Error]'];
    [VObject] for a value whose class string is ['[object Object]'] (it
    carries what [JSON.stringify] makes of it); [VFunction] for a function
    with its source text; [VOther] for any other object (it carries what
    string concatenation makes of it).  A conversion to text yields the text
    or raises an exception, as [JSON.stringify] does on a cyclic object and
    concatenation on a symbol.  The flag [fns] of an object says whether one
    of its properties holds a function. *)
Inductive value :=
| VUndefined
| VNull
| VBool (b : bool)
| VNum (n : Z)
| VNaN
| VStr (s : string)
| VSymbol (description : string)
| VFunction (src : string)
| VError (cls : ErrorClass) (message : string) (code : option string)
         (info : errinfo)
| VObject (json : conv) (fns : bool)
| VOther (str : conv) (fns : bool)
(** The further properties of an error object: those the error factories of
    [errors.ts] assign, or ([InfoCustom]) properties of the user's own. *)
with errinfo :=
| InfoNone
| InfoTimeout (timeout : number) (file : string)
| InfoValue (valueType : string) (value_ : value)
| InfoArgument (argument : string) (expected : option string) (actual : string)
| InfoCustom (fns : bool)
with conv :=
| Text (s : string)
| Raises (e : value).

(** [a === b], [a < b] and string concatenation on numbers. *)
Definition strictEq (a b : number) : bool :=
  match a, b with
  | Num x, Num y => (x =? y)%Z
  | _, _ => false
  end.

Definition ltb (a b : number) : bool :=
  match a, b with
  | Num x, Num y => (x <? y)%Z
  | _, _ => false
  end.

Definition numberToString (n : number) : string :=
  match n with NaN => "NaN" | Num z => pretty z end.

(** Truthiness, as [if (v)] and [!v] see it. *)
Definition truthy (v : value) : bool :=
  match v with
  | VUndefined | VNull | VNaN => false
  | VBool b => b
  | VNum n => negb (n =? 0)%Z
  | VStr s => negb (String.eqb s "")
  | VSymbol _ | VFunction _ | VError _ _ _ _ | VObject _ _ | VOther _ _ => true
  end.

(** [err instanceof Error || toString.call(err) === '[object Error]'] *)
Definition isErrorLike (v : value) : bool :=
  match v with VError _ _ _ _ => true | _ => false end.

(** [Object.prototype.toString.call(err) === '[object Object]'] *)
Definition isPlainObject (v : value) : bool :=
  match v with VObject _ _ => true | _ => false end.

(** The [typeof] operator. *)
Definition typeof (v : value) : string :=
  match v with
  | VUndefined => "undefined"
  | VNull => "object"
  | VBool _ => "boolean"
  | VNum _ | VNaN => "number"
  | VStr _ => "string"
  | VSymbol _ => "symbol"
  | VFunction _ => "function"
  | VError _ _ _ _ | VObject _ _ | VOther _ _ => "object"
  end.

Definition errorName (c : ErrorClass) : string :=
  match c with ClsError => "Error" | ClsTypeError => "TypeError" end.

(** [new Errors.Error(message)] and [new Errors.TypeError(message)]: plain
    wrappers around the global constructors, no [code] assigned. *)
Definition newError (msg : string) : value := VError ClsError msg None InfoNone.
Definition newTypeError (msg : string) : value :=
  VError ClsTypeError msg None InfoNone.

(** String coercion, as in ['text' + v]; a symbol cannot be coerced. *)
Definition toString (v : value) : conv :=
  match v with
  | VUndefined => Text "undefined"
  | VNull => Text "null"
  | VBool true => Text "true"
  | VBool false => Text "false"
  | VNum n => Text (pretty n)
  | VNaN => Text "NaN"
  | VStr s => Text s
  | VSymbol _ => Raises (newTypeError "Cannot convert a Symbol value to a string")
  | VFunction src => Text src
  | VError c m _ _ =>
      Text (if String.eqb m "" then errorName c else errorName c +:+ ": " +:+ m)
  | VObject _ _ => Text "[object Object]"
  | VOther s _ => s
  end.

(** [JSON.stringify(v)], used by the source only on [VObject] values. *)
Definition jsonStringify (v : value) : conv :=
  match v with
  | VObject j _ => j
  | _ => toString v
  end.

Definition message (v : value) : option string :=
  match v with VError _ m _ _ => Some m | _ => None end.

Definition code (v : value) : option string :=
  match v with VError _ _ c _ => c | _ => None end.

Definition info (v : value) : errinfo :=
  match v with VError _ _ _ i => i | _ => InfoNone end.

(** The value is an object or a function, not a primitive: a reference to
    it is a reference to a live object. *)
Definition isObject (v : value) : bool :=
  match v with
  | VFunction _ | VError _ _ _ _ | VObject _ _ | VOther _ _ => true
  | _ => false
  end.

(** The value is a function or has a property that holds one. *)
Fixpoint carriesFunction (v : value) : bool :=
  match v with
  | VFunction _ => true
  | VError _ _ _ i => infoCarriesFunction i
  | VObject _ f | VOther _ f => f
  | _ => false
  end
with infoCarriesFunction (i : errinfo) : bool :=
  match i with
  | InfoValue _ v => carriesFunction v
  | InfoCustom f => f
  | _ => false
  end.

End Js.

Import Js.

(** ** Suites

    Modelled from the spec: [suite.ts] is not under src/.  A suite has a
    title, a [pending] flag, a [root] flag (true only for the implicit
    top-level suite), an id and a weak back-reference to its parent; pending
    is inherited from an ancestor suite; the title path of a suite is the
    title path of its parent followed by its own title, the synthetic root
    contributing nothing. *)

Inductive Suite :=
| MkSuite (s_title : string) (s_pending s_root : bool) (s_id : string)
          (s_file : option string) (s_parent : SuiteParent)
with SuiteParent :=
| NoParent
| Parent (s : Suite).

Definition s_title (s : Suite) : string := let '(MkSuite t _ _ _ _ _) := s in t.
Definition s_pending (s : Suite) : bool := let '(MkSuite _ p _ _ _ _) := s in p.
Definition s_root (s : Suite) : bool := let '(MkSuite _ _ r _ _ _) := s in r.
Definition s_id (s : Suite) : string := let '(MkSuite _ _ _ i _ _) := s in i.
Definition s_file (s : Suite) : option string := let '(MkSuite _ _ _ _ f _) := s in f.
Definition s_parent (s : Suite) : SuiteParent := let '(MkSuite _ _ _ _ _ p) := s in p.

(** Modelled from the spec: [Suite.prototype.isPending] is not under src/;
    a suite is pending when its own flag is set or an ancestor is pending. *)
Fixpoint suite_isPending (s : Suite) : bool :=
  match s with
  | MkSuite _ p _ _ _ par =>
      p || match par with NoParent => false | Parent s' => suite_isPending s' end
  end.

(** Modelled from the spec: [Suite.prototype.titlePath] is not under src/. *)
Fixpoint suite_titlePath (s : Suite) : list string :=
  match s with
  | MkSuite t _ root _ _ par =>
      match par with NoParent => [] | Parent s' => suite_titlePath s' end
      ++ (if root then [] else [t])
  end.

(** [Array.prototype.join(' ')] *)
Fixpoint join_sp (l : list string) : string :=
  match l with
  | [] => ""
  | [x] => x
  | x :: l' => x +:+ " " +:+ join_sp l'
  end.

(** Modelled from the spec: [Suite.prototype.fullTitle] is not under src/. *)
Definition suite_fullTitle (s : Suite) : string := join_sp (suite_titlePath s).

(** The suites from [s] up to the top of its parent chain. *)
Fixpoint suite_chain (s : Suite) : list Suite :=
  s :: match s with
       | MkSuite _ _ _ _ _ NoParent => []
       | MkSuite _ _ _ _ _ (Parent s') => suite_chain s'
       end.

(** ** Runnable: the data model of [runnable.ts] *)

(** [Runnable.constants] *)
Inductive RunnableState := STATE_FAILED | STATE_PASSED | STATE_PENDING.

(** The argument of the overloaded accessors [timeout(ms)] and [slow(ms)],
    of declared type [number | string]; [MsUndefined] is the call without an
    argument. *)
Inductive msArg := MsUndefined | MsNum (n : number) | MsStr (s : string).

(** What a call of an overloaded accessor yields: [this], a value, or an
    exception. *)
Inductive answer (A : Type) :=
| This
| Value (a : A)
| Throws (e : value).
Arguments This {A}.
Arguments Value {A} a.
Arguments Throws {A} e.

(** What a thenable does with the two handlers it is given. *)
Inductive settle := Fulfil | Reject (reason : value).

(** What the user's function returns: a thenable, or anything else.  Of a
    thenable the model keeps what its [then] method does while it is called:
    the handlers it invokes at once, in order, and the exception it raises
    at the end, if any.  A promise invokes nothing at once and raises
    nothing. *)
Inductive retval :=
| RPlain (v : value)
| RThenable (sync : list settle) (raises : option value).

Definition promise : retval := RThenable [] None.

(** What the user's function does while it is being called: let time pass,
    invoke the completion callback it was handed (explicit async mode only)
    or call [this.timeout(ms)]; and how the call ends: it returns, throws, or
    calls [this.skip()] (which throws the [Pending] marker).  The function
    has no handler of its own: an exception raised by one of its calls ends
    it there. *)
Inductive action := ATick (dt : Z) | ADone (v : value) | ATimeout (ms : msArg).
Inductive ending := EReturn (res : retval) | EThrow (v : value) | ESkip.
Record Body := mkBody { acts : list action; fin : ending }.

(** The [fn] field: absent, a truthy value without a [call] method, or a
    function with its source text, its declared arity [fn.length] and its
    behaviour. *)
Inductive Fn :=
| FnAbsent
| FnNotCallable (str : string) (len : option nat)
| FnFunction (src : string) (len : nat) (beh : Body).

(** [this.timer]: never set, holding an armed timeout whose callback captured
    [ms], or holding a handle that was cleared or has fired. *)
Inductive Timer := NoTimer | Armed (ms : number) | Stale.

(** The part of the execution context the source reads: [ctx.currentTest]
    (title and id) and whether [ctx.runnable] exists. *)
Record Context := mkContext {
  currentTest : option (string * string);
  hasRunnable : bool
}.

Record Runnable := mkRunnable {
  title : string;
  fn : Fn;
  body : string;
  async : option nat;
  sync : bool;
  _timeout : number;
  _slow : option number;
  _retries : Z;
  _currentRetry : Z;
  _allowedGlobals : option (list string);
  id : string;
  type_ : option string;
  timedOut : bool;
  pending : bool;
  parent : option Suite;
  duration : option Z;
  file : option string;
  callback : bool;
  timer : Timer;
  ctx : option Context;
  allowUncaught : bool;
  asyncOnly : bool;
  state : option RunnableState;
  err : option value
}.

(** Field assignments [this.f = x]. *)
Definition with_timeout (x : number) (r : Runnable) : Runnable :=
  mkRunnable (title r) (fn r) (body r) (async r) (sync r) x (_slow r)
    (_retries r) (_currentRetry r) (_allowedGlobals r) (id r) (type_ r)
    (timedOut r) (pending r) (parent r) (duration r) (file r) (callback r)
    (timer r) (ctx r) (allowUncaught r) (asyncOnly r) (state r) (err r).

Definition with_slow (x : option number) (r : Runnable) : Runnable :=
  mkRunnable (title r) (fn r) (body r) (async r) (sync r) (_timeout r) x
    (_retries r) (_currentRetry r) (_allowedGlobals r) (id r) (type_ r)
    (timedOut r) (pending r) (parent r) (duration r) (file r) (callback r)
    (timer r) (ctx r) (allowUncaught r) (asyncOnly r) (state r) (err r).

Definition with_retries (x : Z) (r : Runnable) : Runnable :=
  mkRunnable (title r) (fn r) (body r) (async r) (sync r) (_timeout r)
    (_slow r) x (_currentRetry r) (_allowedGlobals r) (id r) (type_ r)
    (timedOut r) (pending r) (parent r) (duration r) (file r) (callback r)
    (timer r) (ctx r) (allowUncaught r) (asyncOnly r) (state r) (err r).

Definition with_currentRetry (x : Z) (r : Runnable) : Runnable :=
  mkRunnable (title r) (fn r) (body r) (async r) (sync r) (_timeout r)
    (_slow r) (_retries r) x (_allowedGlobals r) (id r) (type_ r) (timedOut
    r) (pending r) (parent r) (duration r) (file r) (callback r) (timer r)
    (ctx r) (allowUncaught r) (asyncOnly r) (state r) (err r).

Definition with_allowedGlobals (x : option (list string)) (r : Runnable) : Runnable :=
  mkRunnable (title r) (fn r) (body r) (async r) (sync r) (_timeout r)
    (_slow r) (_retries r) (_currentRetry r) x (id r) (type_ r) (timedOut r)
    (pending r) (parent r) (duration r) (file r) (callback r) (timer r) (ctx
    r) (allowUncaught r) (asyncOnly r) (state r) (err r).

Definition with_timedOut (x : bool) (r : Runnable) : Runnable :=
  mkRunnable (title r) (fn r) (body r) (async r) (sync r) (_timeout r)
    (_slow r) (_retries r) (_currentRetry r) (_allowedGlobals r) (id r)
    (type_ r) x (pending r) (parent r) (duration r) (file r) (callback r)
    (timer r) (ctx r) (allowUncaught r) (asyncOnly r) (state r) (err r).

Definition with_pending (x : bool) (r : Runnable) : Runnable :=
  mkRunnable (title r) (fn r) (body r) (async r) (sync r) (_timeout r)
    (_slow r) (_retries r) (_currentRetry r) (_allowedGlobals r) (id r)
    (type_ r) (timedOut r) x (parent r) (duration r) (file r) (callback r)
    (timer r) (ctx r) (allowUncaught r) (asyncOnly r) (state r) (err r).

Definition with_parent (x : option Suite) (r : Runnable) : Runnable :=
  mkRunnable (title r) (fn r) (body r) (async r) (sync r) (_timeout r)
    (_slow r) (_retries r) (_currentRetry r) (_allowedGlobals r) (id r)
    (type_ r) (timedOut r) (pending r) x (duration r) (file r) (callback r)
    (timer r) (ctx r) (allowUncaught r) (asyncOnly r) (state r) (err r).

Definition with_duration (x : option Z) (r : Runnable) : Runnable :=
  mkRunnable (title r) (fn r) (body r) (async r) (sync r) (_timeout r)
    (_slow r) (_retries r) (_currentRetry r) (_allowedGlobals r) (id r)
    (type_ r) (timedOut r) (pending r) (parent r) x (file r) (callback r)
    (timer r) (ctx r) (allowUncaught r) (asyncOnly r) (state r) (err r).

Definition with_file (x : option string) (r : Runnable) : Runnable :=
  mkRunnable (title r) (fn r) (body r) (async r) (sync r) (_timeout r)
    (_slow r) (_retries r) (_currentRetry r) (_allowedGlobals r) (id r)
    (type_ r) (timedOut r) (pending r) (parent r) (duration r) x (callback
    r) (timer r) (ctx r) (allowUncaught r) (asyncOnly r) (state r) (err r).

Definition with_callback (x : bool) (r : Runnable) : Runnable :=
  mkRunnable (title r) (fn r) (body r) (async r) (sync r) (_timeout r)
    (_slow r) (_retries r) (_currentRetry r) (_allowedGlobals r) (id r)
    (type_ r) (timedOut r) (pending r) (parent r) (duration r) (file r) x
    (timer r) (ctx r) (allowUncaught r) (asyncOnly r) (state r) (err r).

Definition with_timer (x : Timer) (r : Runnable) : Runnable :=
  mkRunnable (title r) (fn r) (body r) (async r) (sync r) (_timeout r)
    (_slow r) (_retries r) (_currentRetry r) (_allowedGlobals r) (id r)
    (type_ r) (timedOut r) (pending r) (parent r) (duration r) (file r)
    (callback r) x (ctx r) (allowUncaught r) (asyncOnly r) (state r) (err r).

Definition with_ctx (x : option Context) (r : Runnable) : Runnable :=
  mkRunnable (title r) (fn r) (body r) (async r) (sync r) (_timeout r)
    (_slow r) (_retries r) (_currentRetry r) (_allowedGlobals r) (id r)
    (type_ r) (timedOut r) (pending r) (parent r) (duration r) (file r)
    (callback r) (timer r) x (allowUncaught r) (asyncOnly r) (state r) (err
    r).

Definition with_state (x : option RunnableState) (r : Runnable) : Runnable :=
  mkRunnable (title r) (fn r) (body r) (async r) (sync r) (_timeout r)
    (_slow r) (_retries r) (_currentRetry r) (_allowedGlobals r) (id r)
    (type_ r) (timedOut r) (pending r) (parent r) (duration r) (file r)
    (callback r) (timer r) (ctx r) (allowUncaught r) (asyncOnly r) x (err r).

Definition with_err (x : option value) (r : Runnable) : Runnable :=
  mkRunnable (title r) (fn r) (body r) (async r) (sync r) (_timeout r)
    (_slow r) (_retries r) (_currentRetry r) (_allowedGlobals r) (id r)
    (type_ r) (timedOut r) (pending r) (parent r) (duration r) (file r)
    (callback r) (timer r) (ctx r) (allowUncaught r) (asyncOnly r) (state r)
    x.

(** The double-quote character, for the messages that contain it. *)
Definition dq : string := String (Ascii.Ascii false true false false false true false false) "".

(** ** Error codes and factories of [errors.ts] *)

Definition INVALID_ARG_TYPE : string := "ERR_MOCHA_INVALID_ARG_TYPE".
Definition INVALID_EXCEPTION : string := "ERR_MOCHA_INVALID_EXCEPTION".
Definition MULTIPLE_DONE : string := "ERR_MOCHA_MULTIPLE_DONE".
Definition UNSUPPORTED : string := "ERR_MOCHA_UNSUPPORTED".
Definition TIMEOUT : string := "ERR_MOCHA_TIMEOUT".

Definition createTimeoutError (msg : string) (timeout : number) (file : string) : value :=
  VError ClsError msg (Some TIMEOUT) (InfoTimeout timeout file).

Definition createInvalidExceptionError (msg : string) (v : value) : value :=
  VError ClsError msg (Some INVALID_EXCEPTION) (InfoValue (typeof v) v).

Definition createInvalidArgumentTypeError
    (msg argument : string) (expected : option string) : value :=
  VError ClsTypeError msg (Some INVALID_ARG_TYPE)
         (InfoArgument argument expected (typeof (VStr argument))).

Definition createMissingArgumentError (msg argument expected : string) : value :=
  createInvalidArgumentTypeError msg argument (Some expected).

Definition createUnsupportedError (msg : string) : value :=
  VError ClsError msg (Some UNSUPPORTED) InfoNone.

(** ** Runnable: accessors *)

(** A [file] that passes [if (this.file)]. *)
Definition truthyFile (f : option string) : option string :=
  match f with
  | Some s => if String.eqb s "" then None else Some s
  | None => None
  end.

Definition fromOption (o : option string) : string :=
  match o with Some s => s | None => "" end.

(** [(this.parent?.titlePath() || []).concat([this.title])] *)
Definition titlePath (r : Runnable) : list string :=
  match parent r with
  | Some p => suite_titlePath p
  | None => []
  end ++ [title r].

Definition fullTitle (r : Runnable) : string := join_sp (titlePath r).

(** [this.pending || Boolean(this.parent && this.parent.isPending())] *)
Definition isPending (r : Runnable) : bool :=
  pending r || match parent r with
               | Some p => suite_isPending p
               | None => false
               end.

Definition isFailed (r : Runnable) : bool :=
  negb (isPending r) && match state r with Some STATE_FAILED => true | _ => false end.

Definition isPassed (r : Runnable) : bool :=
  negb (isPending r) && match state r with Some STATE_PASSED => true | _ => false end.

(** [Runnable.prototype.reset] *)
Definition reset (r : Runnable) : Runnable :=
  with_err None (with_state None (with_pending false
    (with_currentRetry 0 (with_timedOut false r)))).

Definition fn_toString (f : Fn) : string :=
  match f with
  | FnAbsent => ""
  | FnNotCallable s _ => s
  | FnFunction src _ _ => src
  end.

(** [!!fn && fn.length]; [None] stands for [false] and [undefined]. *)
Definition fn_async (f : Fn) : option nat :=
  match f with
  | FnAbsent => None
  | FnNotCallable _ len => len
  | FnFunction _ len _ => Some len
  end.

Definition asyncTruthy (a : option nat) : bool :=
  match a with
  | Some (S _) => true
  | _ => false
  end.

(** The assignments of the constructor that precede its [this.reset()].
    [newid] is the id [utils.assignNewMochaID] assigns ([utils.ts] is not
    under src/). *)
Definition rawRunnable (newid title : string) (f : Fn) : Runnable :=
  {| title := title; fn := f; body := fn_toString f;
     async := fn_async f; sync := negb (asyncTruthy (fn_async f));
     _timeout := Num 2000; _slow := Some (Num 75); _retries := -1;
     _currentRetry := 0;
     _allowedGlobals := None; id := newid; type_ := None;
     timedOut := false; pending := false; parent := None; duration := None;
     file := None; callback := false; timer := NoTimer; ctx := None;
     allowUncaught := false; asyncOnly := false; state := None; err := None |}.

(** The constructor of a plain [Runnable]. *)
Definition new_Runnable (newid title : string) (f : Fn) : Runnable :=
  reset (rawRunnable newid title f).

(** [clearTimeout(this.timer)] *)
Definition clearTimeout (r : Runnable) : Runnable :=
  match timer r with
  | Armed _ => with_timer Stale r
  | _ => r
  end.

(** [Runnable.prototype.resetTimeout]: the new timer's callback captures the
    threshold read here. *)
Definition resetTimeout (r : Runnable) : Runnable :=
  let ms := _timeout r in
  if strictEq ms (Num 0) then r
  else with_timer (Armed ms) (clearTimeout r).

Definition INT_MAX : Z := 2 ^ 31 - 1.

(** Modelled from the spec: [utils.clamp] is not under src/; the value is
    clamped to the range, as [Math.min(Math.max(value, range[0]), range[1])]
    does it: [NaN], and [undefined] (here [None]), which [Math.max] converts
    to [NaN], give [NaN]. *)
Definition clamp (v : option number) (range : Z * Z) : number :=
  match v with
  | Some (Num z) => Num (Z.min (Z.max z (fst range)) (snd range))
  | Some NaN | None => NaN
  end.

(** What the [ms] package makes of a string: it throws, or returns a number
    or [undefined]. *)
Inductive converted :=
| ConvThrows (e : value)
| ConvValue (v : option number).

Section Mocha.

(** The [ms] package, applied to a string. *)
Variable milliseconds : string -> converted.

(** [if (typeof ms === 'string') { ms = milliseconds(ms); }], for an argument
    that is not [undefined]. *)
Definition toMs (ms : msArg) : converted :=
  match ms with
  | MsUndefined => ConvValue None
  | MsNum n => ConvValue (Some n)
  | MsStr s => milliseconds s
  end.

(** [Runnable.prototype.timeout]; the second component is what the call
    yields: the threshold in the getter form, [this] in the setter form, or
    the exception of the [ms] package, which leaves the runnable as it was. *)
Definition timeout (ms : msArg) (r : Runnable) : Runnable * answer number :=
  match ms with
  | MsUndefined => (r, Value (_timeout r))
  | _ =>
      match toMs ms with
      | ConvThrows e => (r, Throws e)
      | ConvValue v =>
          let range := (0, INT_MAX) in
          let c := clamp v range in
          let r1 := if strictEq c (Num (fst range)) || strictEq c (Num (snd range))
                    then with_timeout (Num 0) r else with_timeout c r in
          let r2 := match timer r1 with
                    | NoTimer => r1
                    | _ => resetTimeout r1
                    end in
          (r2, This)
      end
  end.

(** [Runnable.prototype.slow]: it stores what the conversion gave, a number
    or [undefined]. *)
Definition slow (ms : msArg) (r : Runnable) : Runnable * answer (option number) :=
  match ms with
  | MsUndefined => (r, Value (_slow r))
  | _ =>
      match toMs ms with
      | ConvThrows e => (r, Throws e)
      | ConvValue v => (with_slow v r, This)
      end
  end.

(** [Runnable.prototype.retries]; the setter form returns [undefined]. *)
Definition retries (n : option Z) (r : Runnable) : Runnable * option Z :=
  match n with
  | None => (r, Some (_retries r))
  | Some n => (with_retries n r, None)
  end.

(** [Runnable.prototype.currentRetry]; the setter form returns [undefined]. *)
Definition currentRetry (n : option Z) (r : Runnable) : Runnable * option Z :=
  match n with
  | None => (r, Some (_currentRetry r))
  | Some n => (with_currentRetry n r, None)
  end.

(** [Runnable.prototype.globals] *)
Definition globals (g : option (list string)) (r : Runnable)
  : Runnable * option (list string) :=
  match g with
  | None => (r, _allowedGlobals r)
  | Some g => (with_allowedGlobals (Some g) r, None)
  end.

(** [Runnable.prototype._timeoutError] *)
Definition _timeoutError (ms : number) (r : Runnable) : value :=
  let msg := "Timeout of " +:+ numberToString ms +:+
             "ms exceeded. For async tests and hooks, ensure " +:+ dq +:+ "done()" +:+ dq
             +:+ " is called; if returning a Promise, ensure it resolves." in
  let msg := match truthyFile (file r) with
             | Some f => msg +:+ " (" +:+ f +:+ ")"
             | None => msg
             end in
  createTimeoutError msg ms (fromOption (truthyFile (file r))).

(** [Runnable.toValueOrError] *)
Definition toValueOrError (v : value) : value :=
  if truthy v then v
  else createInvalidExceptionError
         "Runnable failed with falsy or undefined exception. Please throw an Error instead." v.

(** [util.format]'s rendering of a value under [%s] (Node's own; for a string
    it is the string itself, which is how the titles below are spliced). *)
Variable formatS : value -> string.

(** [createMultipleDoneError] of [errors.ts].  [fullTitle] cannot throw in
    this model, so the [catch] branch of the source is not reached. *)
Definition createMultipleDoneError (r : Runnable) (originalErr : value) : value :=
  let title := "<" +:+ fullTitle r +:+ ">" in
  let title := match parent r with
               | Some p => if s_root p then title +:+ " (of root suite)" else title
               | None => title
               end in
  let message := "done() called multiple times in " +:+
                 match type_ r with Some t => t | None => "unknown runnable" end
                 +:+ " " +:+ title in
  let message := match truthyFile (file r) with
                 | Some f => message +:+ " of file " +:+ f
                 | None => message
                 end in
  let message := if truthy originalErr
                 then message +:+ "; in addition, done() received error: "
                              +:+ formatS originalErr
                 else message in
  VError ClsError message (Some MULTIPLE_DONE)
         (InfoValue (typeof originalErr) originalErr).

(** ** Runnable.prototype.run

    What [run] hands to the outside: the call [ctx.runnable(this)], the call of
    the user's function, the call [fn(err)] of the completion callback (with
    [VUndefined] for [fn()]), an ['error'] event, and an exception that leaves
    [run] because [allowUncaught] is set. *)
Inductive Out :=
| OCtxRunnable
| OBody
| OCompletion (err : value)
| OError (e : value)
| ORethrow (v : value).

(** The runnable, the clock, and the variables of the closure that one call of
    [run] creates: [start], [finished], [errorWasHandled], the [result] of
    [callFnAsync] (unassigned until the user's function has returned),
    whether the user holds the completion callback, whether [callFn]
    registered its handlers on a returned thenable, and whether
    [this.callback] is the [done] of this call (a runnable that was run before
    still holds the [done] of the earlier call until [run] replaces it). *)
Record World := mkWorld {
  self : Runnable;
  now : Z;
  start : Z;
  finished : bool;
  errorWasHandled : bool;
  result : option retval;
  doneGiven : bool;
  thenRegistered : bool;
  callbackIsDone : bool;
  trace : list Out
}.

Definition set_self (x : Runnable) (w : World) : World :=
  mkWorld x (now w) (start w) (finished w) (errorWasHandled w) (result w)
    (doneGiven w) (thenRegistered w) (callbackIsDone w) (trace w).

Definition set_now (x : Z) (w : World) : World :=
  mkWorld (self w) x (start w) (finished w) (errorWasHandled w) (result w)
    (doneGiven w) (thenRegistered w) (callbackIsDone w) (trace w).

Definition set_finished (x : bool) (w : World) : World :=
  mkWorld (self w) (now w) (start w) x (errorWasHandled w) (result w)
    (doneGiven w) (thenRegistered w) (callbackIsDone w) (trace w).

Definition set_errorWasHandled (x : bool) (w : World) : World :=
  mkWorld (self w) (now w) (start w) (finished w) x (result w) (doneGiven w)
    (thenRegistered w) (callbackIsDone w) (trace w).

Definition set_result (x : option retval) (w : World) : World :=
  mkWorld (self w) (now w) (start w) (finished w) (errorWasHandled w) x
    (doneGiven w) (thenRegistered w) (callbackIsDone w) (trace w).

Definition set_doneGiven (x : bool) (w : World) : World :=
  mkWorld (self w) (now w) (start w) (finished w) (errorWasHandled w)
    (result w) x (thenRegistered w) (callbackIsDone w) (trace w).

Definition set_thenRegistered (x : bool) (w : World) : World :=
  mkWorld (self w) (now w) (start w) (finished w) (errorWasHandled w)
    (result w) (doneGiven w) x (callbackIsDone w) (trace w).

Definition set_callbackIsDone (x : bool) (w : World) : World :=
  mkWorld (self w) (now w) (start w) (finished w) (errorWasHandled w)
    (result w) (doneGiven w) (thenRegistered w) x (trace w).

Definition set_trace (x : list Out) (w : World) : World :=
  mkWorld (self w) (now w) (start w) (finished w) (errorWasHandled w)
    (result w) (doneGiven w) (thenRegistered w) (callbackIsDone w) x.

Definition upd_self (f : Runnable -> Runnable) (w : World) : World :=
  set_self (f (self w)) w.

Definition emit (o : Out) (w : World) : World := set_trace (trace w ++ [o]) w.

(** The state in which [run] is entered at clock value [t]. *)
Definition initWorld (r : Runnable) (t : Z) : World :=
  {| self := r; now := t; start := t; finished := false;
     errorWasHandled := false; result := None; doneGiven := false;
     thenRegistered := false; callbackIsDone := false; trace := [] |}.

(** [multiple(err)] *)
Definition multiple (err : value) (w : World) : World :=
  if errorWasHandled w then w
  else emit (OError (createMultipleDoneError (self w) err))
            (set_errorWasHandled true w).

(** [done(err)] *)
Definition done (err : value) (w : World) : World :=
  let ms := _timeout (self w) in
  if timedOut (self w) then w
  else if finished w then multiple err w
  else
    let w := upd_self clearTimeout w in
    let d := now w - start w in
    let w := upd_self (with_duration (Some d)) w in
    let w := set_finished true w in
    let err := if negb (truthy err) && ltb ms (Num d) && ltb (Num 0) ms
               then _timeoutError ms (self w) else err in
    emit (OCompletion err) w.

(** The callback of the timer armed by [resetTimeout], when it fires. *)
Definition timerFires (w : World) : World :=
  match timer (self w) with
  | Armed ms =>
      let w := upd_self (with_timer Stale) w in
      if strictEq (_timeout (self w)) (Num 0) then w
      else
        let w := if callback (self w) && callbackIsDone w
                 then done (_timeoutError ms (self w)) w else w in
        upd_self (with_timedOut true) w
  | _ => w
  end.

(** Modelled from the spec: [utils.isPromise] is not under src/; the spec
    speaks of the user returning a thenable. *)
Definition isPromise (res : retval) : bool :=
  match res with RThenable _ _ => true | RPlain _ => false end.

(** The completion function that [callFnAsync] passes to the user.  It
    returns the world it leaves and the exception it raises into its caller,
    if any: the conversion of a value that is not an error to text can throw,
    and then nothing else has happened. *)
Definition userDone (err : value) (w : World) : World * option value :=
  if isErrorLike err then (done err w, None)
  else if truthy err then
    if isPlainObject err
    then match jsonStringify err with
         | Text s => (done (newError ("done() invoked with non-Error: " +:+ s)) w, None)
         | Raises e => (w, Some e)
         end
    else match toString err with
         | Text s => (done (newError ("done() invoked with non-Error: " +:+ s)) w, None)
         | Raises e => (w, Some e)
         end
  else if match result w with Some res => isPromise res | None => false end
  then (done (newError
    "Resolution method is overspecified. Specify a callback *or* return a Promise; not both.") w,
        None)
  else (done VUndefined w, None).

(** The two handlers that [callFn] passes to [result.then]. *)
Definition settled (s : settle) (w : World) : World :=
  match s with
  | Fulfil => done VUndefined w
  | Reject reason =>
      done (if truthy reason then reason
            else newError "Promise rejected with no or falsy reason") w
  end.

Definition tick (dt : Z) (w : World) : World := set_now (now w + dt) w.

(** The [catch] clause of both [try] blocks, for a thrown value that is not
    the [Pending] marker. *)
Definition caught (v : value) (w : World) : World :=
  let w := set_errorWasHandled true w in
  if allowUncaught (self w) then emit (ORethrow v) w
  else done (toValueOrError v) w.

(** What [fn.call(ctx)] throws when [fn] is [undefined]: a [TypeError], with
    the message that V8 gives it. *)
Definition callOfUndefined : value :=
  newTypeError "Cannot read properties of undefined (reading 'call')".

(** The exception of a call that threw. *)
Definition exceptionOf {A : Type} (a : answer A) : option value :=
  match a with Throws e => Some e | _ => None end.

(** One action of a function that was handed no callback, and of a function
    that holds the completion callback: the world it leaves, and the
    exception it raises into the function. *)
Definition syncAct (a : action) (w : World) : World * option value :=
  match a with
  | ATick dt => (tick dt w, None)
  | ADone _ => (w, None)
  | ATimeout ms =>
      (upd_self (fun r => fst (timeout ms r)) w, exceptionOf (snd (timeout ms (self w))))
  end.

Definition asyncAct (a : action) (w : World) : World * option value :=
  match a with
  | ATick dt => (tick dt w, None)
  | ADone v => userDone v w
  | ATimeout ms =>
      (upd_self (fun r => fst (timeout ms r)) w, exceptionOf (snd (timeout ms (self w))))
  end.

(** The actions in order, up to the first that raises an exception. *)
Fixpoint perform (act : action -> World -> World * option value)
    (l : list action) (w : World) : World * option value :=
  match l with
  | [] => (w, None)
  | a :: l' =>
      match act a w with
      | (w', Some e) => (w', Some e)
      | (w', None) => perform act l' w'
      end
  end.

Definition syncActs : list action -> World -> World * option value := perform syncAct.
Definition asyncActs : list action -> World -> World * option value := perform asyncAct.

(** How the call of the function ends: by the exception that one of its
    actions raised, or the way the function itself ends. *)
Definition ended (exn : option value) (e : ending) : ending :=
  match exn with
  | Some x => EThrow x
  | None => e
  end.

(** [callFnAsync(fn)] inside its [try] block; [this.skip] is [asyncSkip]. *)
Definition callFnAsync (b : Body) (w : World) : World :=
  let w := set_doneGiven true (emit OBody w) in
  let p := asyncActs (acts b) w in
  let w := fst p in
  match ended (snd p) (fin b) with
  | EReturn res => set_result (Some res) w
  | EThrow v => caught v w
  | ESkip =>
      let w := upd_self (with_pending true) w in
      let w := done VUndefined w in
      set_errorWasHandled true w
  end.

(** [self.resetTimeout(); result.then(...)] of [callFn]: the handlers that
    the thenable invokes at once run here, before [run] returns. *)
Definition thenCalled (sync : list settle) (raises : option value) (w : World) : World :=
  let w := set_thenRegistered true (upd_self resetTimeout w) in
  let w := fold_left (fun w s => settled s w) sync w in
  match raises with
  | Some e => caught e w
  | None => w
  end.

(** [callFn(fn)] inside its [try] block; the function is handed no callback,
    and [this.skip] is [Runnable.prototype.skip]. *)
Definition callFn (b : Body) (w : World) : World :=
  let w := emit OBody w in
  let p := syncActs (acts b) w in
  let w := fst p in
  match ended (snd p) (fin b) with
  | EReturn (RThenable sync raises) => thenCalled sync raises w
  | EReturn (RPlain _) =>
      if asyncOnly (self w)
      then done (newError
        "--async-only option in use without declaring `done()` or returning a promise") w
      else done VUndefined w
  | EThrow v => caught v w
  | ESkip =>
      let w := upd_self (with_pending true) w in
      let w := set_errorWasHandled true w in
      done VUndefined w
  end.

(** [Runnable.prototype.run], entered in [initWorld r t].  Without a
    function, [fn.call] throws inside the [try] block before anything is
    called. *)
Definition run (w : World) : World :=
  if isPending (self w) then emit (OCompletion VUndefined) w
  else
    let w := match ctx (self w) with
             | Some c => if hasRunnable c then emit OCtxRunnable w else w
             | None => w
             end in
    let w := set_callbackIsDone true (upd_self (with_callback true) w) in
    match fn (self w) with
    | FnNotCallable _ _ =>
        done (newTypeError
          "A runnable must be passed a function as its second argument.") w
    | FnAbsent =>
        if asyncTruthy (async (self w))
        then caught callOfUndefined (upd_self resetTimeout w)
        else caught callOfUndefined w
    | FnFunction _ _ b =>
        if asyncTruthy (async (self w))
        then callFnAsync b (upd_self resetTimeout w)
        else callFn b w
    end.

(** What can happen after [run] has returned: time passes, the user invokes
    the completion callback, the returned thenable is fulfilled or rejected,
    the timer fires, or someone calls [timeout(ms)] on the runnable. *)
Inductive event :=
| EvTick (dt : Z)
| EvDone (v : value)
| EvResolve
| EvReject (reason : value)
| EvTimer
| EvTimeout (ms : msArg).

(** The world after the event.  An exception that the completion function or
    [timeout(ms)] raises goes to the caller of that function, which is
    outside [run]; [raised] tells it. *)
Definition step (w : World) (e : event) : World :=
  match e with
  | EvTick dt => tick dt w
  | EvDone v => if doneGiven w then fst (userDone v w) else w
  | EvResolve => if thenRegistered w then settled Fulfil w else w
  | EvReject reason => if thenRegistered w then settled (Reject reason) w else w
  | EvTimer => timerFires w
  | EvTimeout ms => upd_self (fun r => fst (timeout ms r)) w
  end.

Definition raised (w : World) (e : event) : option value :=
  match e with
  | EvDone v => if doneGiven w then snd (userDone v w) else None
  | EvTimeout ms => exceptionOf (snd (timeout ms (self w)))
  | _ => None
  end.

Definition exec (w : World) (es : list event) : World := fold_left step es w.

(** One execution attempt: [r.run(fn)] at clock value [t], then the events. *)
Definition attempt (r : Runnable) (t : Z) (es : list event) : World :=
  exec (run (initWorld r t)) es.

(** How often the completion callback [fn] was invoked, and the errors sent
    on the error channel. *)
Definition completions (w : World) : list value :=
  omap (fun o => match o with OCompletion v => Some v | _ => None end) (trace w).

Definition errors (w : World) : list value :=
  omap (fun o => match o with OError e => Some e | _ => None end) (trace w).

(** ** Hook ([hook.ts]) *)

(** A hook is a runnable with [type = 'hook'] and the retained error slot
    [_error], which holds [undefined] (never set, or deleted), [null] or the
    error that was stored. *)
Record Hook := mkHook { h_base : Runnable; _error : value }.

Definition with_type (x : option string) (r : Runnable) : Runnable :=
  mkRunnable (title r) (fn r) (body r) (async r) (sync r) (_timeout r)
    (_slow r) (_retries r) (_currentRetry r) (_allowedGlobals r) (id r) x
    (timedOut r) (pending r) (parent r) (duration r) (file r) (callback r)
    (timer r) (ctx r) (allowUncaught r) (asyncOnly r) (state r) (err r).

(** [Hook.prototype.reset] *)
Definition hook_reset (h : Hook) : Hook :=
  {| h_base := reset (h_base h); _error := VUndefined |}.

(** The constructor: [Runnable.call(this, title, fn)], whose [this.reset()]
    is [Hook.prototype.reset], then [this.type = 'hook']. *)
Definition new_Hook (newid title : string) (f : Fn) : Hook :=
  let h := hook_reset {| h_base := rawRunnable newid title f; _error := VUndefined |} in
  {| h_base := with_type (Some "hook") (h_base h); _error := _error h |}.

(** [Hook.prototype.error]: [None] is the call without arguments; the second
    component is the value returned. *)
Definition hook_error (arg : option value) (h : Hook) : Hook * value :=
  match arg with
  | None => ({| h_base := h_base h; _error := VNull |}, _error h)
  | Some e => ({| h_base := h_base h; _error := e |}, VUndefined)
  end.

(** The operations a hook offers: its own [error] and [reset], and the
    inherited ones, which act on the runnable part only. *)
Inductive HookOp :=
| OpError (arg : option value)
| OpReset
| OpInherited (f : Runnable -> Runnable).

Definition hook_apply (op : HookOp) (h : Hook) : Hook :=
  match op with
  | OpError arg => fst (hook_error arg h)
  | OpReset => hook_reset h
  | OpInherited f => {| h_base := f (h_base h); _error := _error h |}
  end.

(** The slot holds an error. *)
Definition slotFull (h : Hook) : bool := isErrorLike (_error h).

(** The minimal parent reference of both snapshots:
    [{$$fullTitle: this.parent?.fullTitle(), [MOCHA_ID_PROP_NAME]: this.parent?.id}]. *)
Record ParentRef := mkParentRef {
  p_fullTitle : option string;
  p_id : option string
}.

Definition parentRef (r : Runnable) : ParentRef :=
  {| p_fullTitle := suite_fullTitle <$> parent r; p_id := s_id <$> parent r |}.

(** The object literal of [Hook.prototype.serialize]; [hs_ctx] is
    [Some (title, id)] for [{currentTest: {title, id}}] and [None] for [{}]. *)
Record HookSnapshot := mkHookSnapshot {
  hs_currentRetry : Z;
  hs_fullTitle : string;
  hs_isPending : bool;
  hs_titlePath : list string;
  hs_ctx : option (string * string);
  hs_duration : option Z;
  hs_file : option string;
  hs_parent : ParentRef;
  hs_state : option RunnableState;
  hs_title : string;
  hs_type : option string;
  hs_id : string
}.

Definition hook_serialize (h : Hook) : HookSnapshot :=
  let r := h_base h in
  {| hs_currentRetry := _currentRetry r;
     hs_fullTitle := fullTitle r;
     hs_isPending := isPending r;
     hs_titlePath := titlePath r;
     hs_ctx := match ctx r with Some c => currentTest c | None => None end;
     hs_duration := duration r;
     hs_file := file r;
     hs_parent := parentRef r;
     hs_state := state r;
     hs_title := title r;
     hs_type := type_ r;
     hs_id := id r |}.

(** ** Test ([test.ts]) *)

(** Live objects are referred to by their address in a store. *)
Definition loc := nat.

(** A test is a runnable with [type = 'test'], the reference [_retriedTest]
    to the test it was retried from, and the [speed] reporters assign. *)
Record Test := mkTest {
  t_base : Runnable;
  _retriedTest : option loc;
  speed : option string
}.

Definition upd_base (f : Runnable -> Runnable) (t : Test) : Test :=
  {| t_base := f (t_base t); _retriedTest := _retriedTest t; speed := speed t |}.

Definition fnFalsy (f : Fn) : bool :=
  match f with FnAbsent => true | _ => false end.

(** [Test.prototype.reset] *)
Definition test_reset (t : Test) : Test :=
  upd_base (fun r => let r := reset r in
                     with_state None (with_pending (fnFalsy (fn r)) r)) t.

(** The constructor: [this.type = 'test'], then [Runnable.call], whose
    [this.reset()] is [Test.prototype.reset], then [this.reset()] again. *)
Definition new_Test (newid title : string) (f : Fn) : Test :=
  test_reset (test_reset
    {| t_base := with_type (Some "test") (rawRunnable newid title f);
       _retriedTest := None; speed := None |}).

(** [Test.prototype.retriedTest] *)
Definition retriedTest (arg : option loc) (t : Test) : Test * option loc :=
  match arg with
  | None => (t, _retriedTest t)
  | Some l => ({| t_base := t_base t; _retriedTest := Some l; speed := speed t |}, None)
  end.

(** A value of type [number | undefined] as the argument of an accessor. *)
Definition argOf (v : option number) : msArg :=
  match v with
  | Some n => MsNum n
  | None => MsUndefined
  end.

(** [Test.prototype.clone], called on the test stored at [this]; the clone
    is allocated at a fresh address and receives the id [newid].  Each
    threshold is copied by handing what the getter returns to the setter. *)
Definition clone (newid : string) (this : loc) (h : gmap loc Test)
  : option (gmap loc Test * loc) :=
  match h !! this with
  | None => None
  | Some t =>
      let r := t_base t in
      let test := new_Test newid (title r) (fn r) in
      let test := upd_base (fun b => fst (timeout (MsNum (_timeout r)) b)) test in
      let test := upd_base (fun b => fst (slow (argOf (_slow r)) b)) test in
      let test := upd_base (fun b => fst (retries (Some (_retries r)) b)) test in
      let test := upd_base (fun b => fst (currentRetry (Some (_currentRetry r)) b)) test in
      let test := fst (retriedTest
                         (Some (match _retriedTest t with Some l => l | None => this end))
                         test) in
      let test := upd_base (fun b => fst (globals (_allowedGlobals r) b)) test in
      let test := upd_base (with_parent (parent r)) test in
      let test := upd_base (with_file (file r)) test in
      let test := upd_base (with_ctx (ctx r)) test in
      let l := fresh (dom h) in
      Some (<[l := test]> h, l)
  end.

(** The object literal of [Test.prototype.serialize].  [ts_retriedTest] is
    [this._retriedTest || null]: the live test object itself, not a copy. *)
Record TestSnapshot := mkTestSnapshot {
  ts_currentRetry : Z;
  ts_fullTitle : string;
  ts_isPending : bool;
  ts_retriedTest : option loc;
  ts_slow : option number;
  ts_titlePath : list string;
  ts_body : string;
  ts_duration : option Z;
  ts_err : option value;
  ts_parent : ParentRef;
  ts_speed : option string;
  ts_state : option RunnableState;
  ts_title : string;
  ts_type : option string;
  ts_file : option string;
  ts_id : string
}.

Definition test_serialize (t : Test) : TestSnapshot :=
  let r := t_base t in
  {| ts_currentRetry := _currentRetry r;
     ts_fullTitle := fullTitle r;
     ts_isPending := pending r;
     ts_retriedTest := _retriedTest t;
     ts_slow := _slow r;
     ts_titlePath := titlePath r;
     ts_body := body r;
     ts_duration := duration r;
     ts_err := err r;
     ts_parent := parentRef r;
     ts_speed := speed t;
     ts_state := state r;
     ts_title := title r;
     ts_type := type_ r;
     ts_file := file r;
     ts_id := id r |}.

(** A reference to a live object: a test in the store, or an object that is
    a value. *)
Inductive LiveRef :=
| RefTest (l : loc)
| RefValue (v : value).

(** The live objects a test snapshot refers to: the test in [$$retriedTest]
    and the error object in [err].  Every other field of the literal is a
    number, a string, a boolean, [undefined], an array of strings or the
    two-string parent reference. *)
Definition liveRefs (s : TestSnapshot) : list LiveRef :=
  match ts_retriedTest s with Some l => [RefTest l] | None => [] end ++
  match ts_err s with
  | Some v => if isObject v then [RefValue v] else []
  | None => []
  end.

(** A function value is reachable from the snapshot: it refers to a live test
    whose own property [fn] is a function, or to an object that carries
    one. *)
Definition holdsFunction (h : gmap loc Test) (s : TestSnapshot) : Prop :=
  exists ref, ref ∈ liveRefs s /\
    match ref with
    | RefTest l =>
        exists t src len b, h !! l = Some t /\ fn (t_base t) = FnFunction src len b
    | RefValue v => carriesFunction v = true
    end.

(** ** The suite DSL ([interfaces/common.ts]) *)

(** The options of the Mocha instance that [create] reads; [grep] is the test
    of the configured regular expression. *)
Record MochaOptions := mkMochaOptions {
  forbidPending : bool;
  forbidOnly : bool;
  grep : option (string -> bool);
  invert : bool
}.

(** What the DSL closes over: the stack [suites] (its head is the suite under
    construction) and the ids of the suites marked exclusive. *)
Record Dsl := mkDsl {
  suites : list Suite;
  onlySuites : list string
}.

(** [opts.fn]: [undefined], [false], or a function; the function may declare
    nested suites and tests, and may throw. *)
Inductive SuiteFn :=
| SfUndefined
| SfFalse
| SfFunction (f : Dsl -> Dsl * option value).

Record CommonOptions := mkCommonOptions {
  o_title : string;
  o_fn : SuiteFn;
  o_pending : option bool;
  o_file : option string;
  o_isOnly : option bool
}.

Inductive Outcome :=
| Returned (s : Suite)
| Thrown (v : value).

(** [Boolean(x)] of an optional boolean. *)
Definition toBoolean (o : option bool) : bool :=
  match o with Some b => b | None => false end.

(** [shouldBeTested(suite)] *)
Definition shouldBeTested (m : MochaOptions) (s : Suite) : bool :=
  match grep m with
  | None => true
  | Some test => test (suite_fullTitle s) && negb (invert m)
  end.

(** Modelled from the spec: [Suite.create] is not under src/; it builds a
    suite titled [title] whose parent is [parent].  The id is the one
    [utils.assignNewMochaID] assigns. *)
Definition Suite_create (newid : string) (parent : Suite) (title : string) : Suite :=
  MkSuite title false false newid None (Parent parent).

Definition missingCallbackMessage (s : Suite) : string :=
  "Suite " +:+ dq +:+ suite_fullTitle s +:+ dq +:+
  " was defined but no callback was supplied. " +:+
  "Supply a callback or explicitly skip the suite.".

(** [suite.create(opts)].  With an empty stack [suites[0]] is [undefined] and
    the source fails inside [Suite.create]; the stack always holds the root
    suite, and the model returns that failure as a thrown [TypeError]. *)
Definition create (m : MochaOptions) (newid : string) (opts : CommonOptions)
    (d : Dsl) : Outcome * Dsl :=
  match suites d with
  | [] => (Thrown (newTypeError "Cannot read properties of undefined"), d)
  | top :: _ =>
      let suite := Suite_create newid top (o_title opts) in
      let suite := MkSuite (s_title suite) (toBoolean (o_pending opts))
                     (s_root suite) (s_id suite) (o_file opts) (s_parent suite) in
      let d := {| suites := suite :: suites d; onlySuites := onlySuites d |} in
      let d := if toBoolean (o_isOnly opts)
               then {| suites := suites d; onlySuites := onlySuites d ++ [s_id suite] |}
               else d in
      if s_pending suite && forbidPending m && shouldBeTested m suite
      then (Thrown (createUnsupportedError "Pending test forbidden"), d)
      else
        match o_fn opts with
        | SfFunction f =>
            match f d with
            | (d', Some v) => (Thrown v, d')
            | (d', None) =>
                (Returned suite, {| suites := tail (suites d'); onlySuites := onlySuites d' |})
            end
        | SfUndefined =>
            if negb (s_pending suite)
            then (Thrown (createMissingArgumentError (missingCallbackMessage suite)
                            "callback" "function"), d)
            else (Returned suite, {| suites := tail (suites d); onlySuites := onlySuites d |})
        | SfFalse =>
            if s_pending suite
            then (Returned suite, {| suites := tail (suites d); onlySuites := onlySuites d |})
            else (Returned suite, d)
        end
  end.

(** [suite.skip(opts)]: [opts.pending = true], then [create]. *)
Definition skip (m : MochaOptions) (newid : string) (opts : CommonOptions)
    (d : Dsl) : Outcome * Dsl :=
  create m newid
    {| o_title := o_title opts; o_fn := o_fn opts; o_pending := Some true;
       o_file := o_file opts; o_isOnly := o_isOnly opts |} d.

(** [s] occurs in [t]. *)
Definition contains (s t : string) : Prop := exists a b, t = a +:+ s +:+ b.


(** ** Concrete suites, runnables and bodies used in the examples below *)

(** A stand-in for the [ms] package: it throws on the empty string, reads a
    decimal number with an optional unit [ms] or [s], and returns [undefined]
    for every other string. *)
Definition digit (c : Ascii.ascii) : option Z :=
  let n := Z.of_nat (Ascii.nat_of_ascii c) in
  if (48 <=? n)%Z && (n <=? 57)%Z then Some (n - 48) else None.

Fixpoint readNumber (acc : Z) (s : string) : Z * string :=
  match s with
  | String c s' =>
      match digit c with
      | Some d => readNumber (10 * acc + d) s'
      | None => (acc, s)
      end
  | EmptyString => (acc, s)
  end.

Definition parseMs (s : string) : converted :=
  match s with
  | EmptyString =>
      ConvThrows (newError
        ("val is not a non-empty string or a valid number. val=" +:+ dq +:+ dq))
  | String c _ =>
      match digit c with
      | None => ConvValue None
      | Some _ =>
          let '(n, unit_) := readNumber 0 s in
          if String.eqb unit_ "" || String.eqb unit_ "ms" then ConvValue (Some (Num n))
          else if String.eqb unit_ "s" then ConvValue (Some (Num (n * 1000)))
          else ConvValue None
      end
  end.

(** A stand-in for [util.format]'s rendering under [%s]. *)
Definition formatText (v : value) : string :=
  match v with
  | VSymbol d => "Symbol(" +:+ d +:+ ")"
  | _ => match toString v with Text s => s | Raises _ => "" end
  end.

Definition rootSuite : Suite := MkSuite "" false true "s0" None NoParent.

Definition mathSuite : Suite :=
  MkSuite "math" false false "s1" (Some "test/math.spec.js") (Parent rootSuite).

Definition legacySuite : Suite :=
  MkSuite "legacy" true false "s2" (Some "test/math.spec.js") (Parent rootSuite).

(** A test titled [adds] of the suite [math], with the function [f]. *)
Definition mathTest (f : Fn) : Test :=
  upd_base (fun r => with_file (Some "test/math.spec.js")
                       (with_parent (Some mathSuite) r))
           (new_Test "t1" "adds" f).

(** [function (done) { setTimeout(done, 10); throw new Error('boom'); }] *)
Definition throwingBody : Body :=
  {| acts := []; fin := EThrow (newError "boom") |}.

(** [function (done) { done(); return Promise.resolve(); }] *)
Definition doneThenPromiseBody : Body :=
  {| acts := [ADone VUndefined]; fin := EReturn promise |}.

(** [function (done) { }]: the callback is kept but not called. *)
Definition silentBody : Body :=
  {| acts := []; fin := EReturn (RPlain VUndefined) |}.

(** [function () { busyFor(3000); }] *)
Definition slowSyncBody : Body :=
  {| acts := [ATick 3000]; fin := EReturn (RPlain VUndefined) |}.

Definition throwingTest : Runnable :=
  t_base (mathTest (FnFunction "function (done) { ... }" 1 throwingBody)).

Definition overspecifiedTest : Runnable :=
  t_base (mathTest (FnFunction "function (done) { ... }" 1 doneThenPromiseBody)).

Definition silentTest : Runnable :=
  with_timeout (Num 50) (t_base (mathTest (FnFunction "function (done) { }" 1 silentBody))).

Definition slowSyncTest : Runnable :=
  t_base (mathTest (FnFunction "function () { ... }" 0 slowSyncBody)).

(** A hook declared inside the skipped suite [legacy]. *)
Definition legacyHook : Hook :=
  let h := new_Hook "h1" "before each hook" (FnFunction "function () { }" 0 silentBody) in
  {| h_base := with_parent (Some legacySuite) (h_base h); _error := _error h |}.

(** After the early return of a pending runnable nothing holds a [done] of
    this call, so no later event reaches the completion callback. *)
Definition closed (w : World) : Prop :=
  doneGiven w = false /\ thenRegistered w = false /\ callbackIsDone w = false.

(** The error that a first completion hands to the callback. *)
Definition outcome (v : value) (w : World) : value :=
  let ms := _timeout (self w) in
  if negb (truthy v) && ltb ms (Num (now w - start w)) && ltb (Num 0) ms
  then _timeoutError ms (self w) else v.

(** The explicit-async test whose function never calls back: just after
    [run], after a first [done()], and after its 50 ms timer has fired. *)
Definition waitingWorld : World := attempt silentTest 0 [].

Definition finishedWorld : World := attempt silentTest 0 [EvDone VUndefined].

Definition timedOutWorld : World := attempt silentTest 0 [EvTick 50; EvTimer].

(** The test whose function threw after handing its callback to a timer. *)
Definition thrownWorld : World := attempt throwingTest 0 [].

(** The synchronous test, 3000 ms into its body, about to signal [done()]. *)
Definition overrunWorld : World := tick 3000 (initWorld slowSyncTest 0).

(** A store holding a test with a function, and the test that the runner
    made of it for a retry. *)
Definition originalTest : Test :=
  mathTest (FnFunction "function (done) { }" 1 silentBody).

Definition retryStore : gmap loc Test := {[ 0%nat := originalTest ]}.

Definition retryTest : Test := fst (retriedTest (Some 0%nat) originalTest).

(** A hook that holds the error of its last failure. *)
Definition failedHook : Hook :=
  fst (hook_error (Some (newError "setup failed")) (new_Hook "h2" "before all hook" FnAbsent)).

(** [describe.skip('legacy')] and [describe('legacy')] without a callback, at
    the top level of a file, and a Mocha run with [--forbid-pending]. *)
Definition skipWithoutCallback : CommonOptions :=
  {| o_title := "legacy"; o_fn := SfUndefined; o_pending := Some true;
     o_file := Some "test/math.spec.js"; o_isOnly := None |}.

Definition describeWithoutCallback : CommonOptions :=
  {| o_title := "legacy"; o_fn := SfUndefined; o_pending := None;
     o_file := Some "test/math.spec.js"; o_isOnly := None |}.

Definition forbidPendingOptions : MochaOptions :=
  {| forbidPending := true; forbidOnly := false; grep := None; invert := false |}.

Definition defaultOptions : MochaOptions :=
  {| forbidPending := false; forbidOnly := false; grep := None; invert := false |}.

Definition topLevel : Dsl := {| suites := [rootSuite]; onlySuites := [] |}.

(** The events that carry a completion attempt of the user's code. *)
Definition isCompletionAttempt (e : event) : Prop :=
  match e with
  | EvDone _ | EvResolve | EvReject _ => True
  | _ => False
  end.

(** What one execution attempt maintains: the completion callback has been
    invoked exactly when [finished] is set, and then once; an error was sent
    on the error channel at most once, and then [errorWasHandled] is set. *)
Definition Inv (w : World) : Prop :=
  ((completions w = [] /\ finished w = false) \/
   (exists v, completions w = [v] /\ finished w = true)) /\
  (errors w = [] \/ (exists e, errors w = [e] /\ errorWasHandled w = true)).

(** The name by which [createMultipleDoneError] refers to the runnable. *)
Definition typeName (r : Runnable) : string :=
  match type_ r with Some t => t | None => "unknown runnable" end.

(** ** Further code of [runnable.ts]: the class seen through its operations *)

(** The fields that the suite, the runner, the reporters and [clone] assign
    directly. *)
Inductive Assignment :=
| SetParent (p : option Suite)
| SetFile (f : option string)
| SetCtx (c : option Context)
| SetState (s : option RunnableState)
| SetErr (e : option value)
| SetDuration (d : option Z)
| SetTimedOut (b : bool)
| SetPending (b : bool)
| SetAllowUncaught (b : bool)
| SetAsyncOnly (b : bool).

Definition with_allowUncaught (x : bool) (r : Runnable) : Runnable :=
  mkRunnable (title r) (fn r) (body r) (async r) (sync r) (_timeout r)
    (_slow r) (_retries r) (_currentRetry r) (_allowedGlobals r) (id r)
    (type_ r) (timedOut r) (pending r) (parent r) (duration r) (file r)
    (callback r) (timer r) (ctx r) x (asyncOnly r) (state r) (err r).

Definition with_asyncOnly (x : bool) (r : Runnable) : Runnable :=
  mkRunnable (title r) (fn r) (body r) (async r) (sync r) (_timeout r)
    (_slow r) (_retries r) (_currentRetry r) (_allowedGlobals r) (id r)
    (type_ r) (timedOut r) (pending r) (parent r) (duration r) (file r)
    (callback r) (timer r) (ctx r) (allowUncaught r) x (state r) (err r).

Definition assign (a : Assignment) (r : Runnable) : Runnable :=
  match a with
  | SetParent p => with_parent p r
  | SetFile f => with_file f r
  | SetCtx c => with_ctx c r
  | SetState s => with_state s r
  | SetErr e => with_err e r
  | SetDuration d => with_duration d r
  | SetTimedOut b => with_timedOut b r
  | SetPending b => with_pending b r
  | SetAllowUncaught b => with_allowUncaught b r
  | SetAsyncOnly b => with_asyncOnly b r
  end.

(** What happens to a runnable during its life: the accessors in their
    setter and getter forms, [reset], [resetTimeout] and [clearTimeout],
    [skip] (which sets the flag before it throws), an assignment to one of
    its public fields, and an execution attempt. *)
Inductive RunnableOp :=
| RoTimeout (ms : msArg)
| RoSlow (ms : msArg)
| RoRetries (n : option Z)
| RoCurrentRetry (n : option Z)
| RoGlobals (g : option (list string))
| RoReset
| RoResetTimeout
| RoClearTimeout
| RoSkip
| RoAssign (a : Assignment)
| RoRun (t : Z) (es : list event).

Definition applyOp (r : Runnable) (op : RunnableOp) : Runnable :=
  match op with
  | RoTimeout ms => fst (timeout ms r)
  | RoSlow ms => fst (slow ms r)
  | RoRetries n => fst (retries n r)
  | RoCurrentRetry n => fst (currentRetry n r)
  | RoGlobals g => fst (globals g r)
  | RoReset => reset r
  | RoResetTimeout => resetTimeout r
  | RoClearTimeout => clearTimeout r
  | RoSkip => with_pending true r
  | RoAssign a => assign a r
  | RoRun t es => self (attempt r t es)
  end.

Definition applyOps (ops : list RunnableOp) (r : Runnable) : Runnable :=
  fold_left applyOp ops r.

(** The same for a test: the operations of a runnable, the test's own
    [reset] and [retriedTest], and the [speed] that a reporter assigns. *)
Inductive TestOp :=
| ToRunnable (op : RunnableOp)
| ToReset
| ToRetriedTest (l : loc)
| ToSpeed (s : option string).

Definition applyTestOp (t : Test) (op : TestOp) : Test :=
  match op with
  | ToRunnable op => upd_base (fun r => applyOp r op) t
  | ToReset => test_reset t
  | ToRetriedTest l => fst (retriedTest (Some l) t)
  | ToSpeed s => {| t_base := t_base t; _retriedTest := _retriedTest t; speed := s |}
  end.

Definition applyTestOps (ops : list TestOp) (t : Test) : Test :=
  fold_left applyTestOp ops t.

(** Every argument that reaches [timeout(ms)] satisfies [ok]: in the
    actions of a function, in the events after [run], in the operations. *)
Definition okAction (ok : msArg -> Prop) (a : action) : Prop :=
  match a with
  | ATimeout ms => ok ms
  | _ => True
  end.

Definition okFn (ok : msArg -> Prop) (f : Fn) : Prop :=
  match f with
  | FnFunction _ _ b => Forall (okAction ok) (acts b)
  | _ => True
  end.

Definition okEvent (ok : msArg -> Prop) (e : event) : Prop :=
  match e with
  | EvTimeout ms => ok ms
  | _ => True
  end.

Definition okOp (ok : msArg -> Prop) (op : RunnableOp) : Prop :=
  match op with
  | RoTimeout ms => ok ms
  | RoRun _ es => Forall (okEvent ok) es
  | _ => True
  end.

(** The argument cannot make [timeout(ms)] store [NaN]: it is absent, makes
    the [ms] package throw, or is numeric. *)
Definition clean (ms : msArg) : Prop :=
  ms = MsUndefined \/ (exists e, toMs ms = ConvThrows e) \/
  exists z, toMs ms = ConvValue (Some (Num z)).

(** A threshold that [timeout(ms)] stores: a number in [0, 2^31-1), or
    [NaN]. *)
Definition storable (n : number) : Prop :=
  match n with
  | NaN => True
  | Num z => 0 <= z < INT_MAX
  end.

(** A threshold in the range that the documentation of [timeout(ms)]
    promises. *)
Definition inRange (n : number) : Prop :=
  match n with
  | NaN => False
  | Num z => 0 <= z < INT_MAX
  end.

Definition thresholdOk (r : Runnable) : Prop := storable (_timeout r).

(** The threshold that [timeout(ms)] stores for the converted argument
    [v]. *)
Definition thresholdFor (v : option number) : number :=
  match clamp v (0, INT_MAX) with
  | NaN => NaN
  | Num c => if decide (c = 0 \/ c = INT_MAX) then Num 0 else Num c
  end.

(** The world in which [run] calls the user's function: the context was told
    about the runnable and [this.callback] is the [done] of this call. *)
Definition entered (r : Runnable) (t : Z) : World :=
  let w := initWorld r t in
  let w := match ctx r with
           | Some c => if hasRunnable c then emit OCtxRunnable w else w
           | None => w
           end in
  set_callbackIsDone true (upd_self (with_callback true) w).

(** What an execution attempt does to the runnable besides the flags it sets
    on purpose: it may store a threshold, replace the timer and record the
    duration. *)
Definition evolves (r r' : Runnable) : Prop :=
  exists T tm d, r' = with_duration d (with_timer tm (with_timeout T r)).

(** What the setter form of [timeout(ms)] makes of the runnable once its
    argument is converted to [v]. *)
Definition stores (v : option number) (r : Runnable) : Runnable :=
  let r1 := with_timeout (thresholdFor v) r in
  match timer r1 with
  | NoTimer => r1
  | _ => resetTimeout r1
  end.

(** The text that the completion function makes of a value that is not an
    error: [JSON.stringify] for a plain object, concatenation otherwise. *)
Definition textOf (v : value) : conv :=
  if isPlainObject v then jsonStringify v else toString v.

(** The error of an overspecified resolution. *)
Definition overspecified : value :=
  newError
    "Resolution method is overspecified. Specify a callback *or* return a Promise; not both.".

(** What an execution attempt leaves alone: every field but the threshold,
    the timer, the duration and the flags [timedOut], [pending] and
    [callback]. *)
Definition untouched (r r' : Runnable) : Prop :=
  title r' = title r /\ fn r' = fn r /\ body r' = body r /\ async r' = async r /\
  sync r' = sync r /\ _slow r' = _slow r /\ _retries r' = _retries r /\
  _currentRetry r' = _currentRetry r /\ _allowedGlobals r' = _allowedGlobals r /\
  id r' = id r /\ type_ r' = type_ r /\ parent r' = parent r /\ file r' = file r /\
  ctx r' = ctx r /\ allowUncaught r' = allowUncaught r /\ asyncOnly r' = asyncOnly r /\
  state r' = state r /\ err r' = err r.

(** The exception that the first throwing call of [timeout(ms)] among the
    actions raises. *)
Fixpoint firstThrow (l : list action) : option value :=
  match l with
  | [] => None
  | ATimeout ms :: l' =>
      match toMs ms with
      | ConvThrows e => Some e
      | ConvValue _ => firstThrow l'
      end
  | _ :: l' => firstThrow l'
  end.

(** The time that the actions let pass. *)
Fixpoint ticks (l : list action) : Z :=
  match l with
  | [] => 0
  | ATick dt :: l' => dt + ticks l'
  | _ :: l' => ticks l'
  end.

(** [duration > ms && ms > 0]: the measured duration [d] exceeds the
    positive threshold [ms]. *)
Definition exceeds (d : Z) (ms : number) : bool := ltb ms (Num d) && ltb (Num 0) ms.

(** What a completion without error becomes after [d] milliseconds under the
    threshold [ms]. *)
Definition verdict (d : Z) (ms : number) (r : Runnable) : value :=
  if exceeds d ms then _timeoutError ms r else VUndefined.

(** The attempt is over for good: the completion callback was invoked and an
    error was handled, so that every further completion attempt is
    dropped. *)
Definition sealed (w : World) : Prop :=
  finished w = true /\ errorWasHandled w = true.

(** The action is not a call of the completion callback. *)
Definition notDone (a : action) : Prop :=
  match a with ADone _ => False | _ => True end.

(** The runnable holds a timer handle, armed with the current threshold
    unless the threshold is zero. *)
Definition timerLive (r : Runnable) : Prop :=
  timer r <> NoTimer /\ (_timeout r <> Num 0 -> timer r = Armed (_timeout r)).

(** The world in which the user's function starts to execute: in explicit
    async mode the timer was reset first and the function holds the
    completion callback. *)
Definition bodyStart (r : Runnable) (t : Z) : World :=
  if asyncTruthy (async r)
  then set_doneGiven true (emit OBody (upd_self resetTimeout (entered r t)))
  else emit OBody (entered r t).

(** ** Further code of [errors.ts] *)

Definition FORBIDDEN_EXCLUSIVITY : string := "ERR_MOCHA_FORBIDDEN_EXCLUSIVITY".




(** [createForbiddenExclusivityError(mocha)]; it reads [mocha.isWorker]. *)
Definition createForbiddenExclusivityError (isWorker : bool) : value :=
  VError ClsError
    (if isWorker then "`.only` is not supported in parallel mode"
     else "`.only` forbidden by --forbid-only")
    (Some FORBIDDEN_EXCLUSIVITY) InfoNone.

(** What [deprecate] and [warn] work on: the own keys of [deprecate.cache]
    and the warnings handed to [emitWarning], each with its type. *)
Record Warnings := mkWarnings {
  cache : gset string;
  emitted : list (string * string)
}.

(** The keys that the object literal [{}] behind [deprecate.cache] inherits
    from [Object.prototype]: a lookup of one of them is truthy from the
    start. *)
Variable inherited : string -> bool.

(** [emitWarning(msg, type)]: through [process.emitWarning] or, without it,
    [console.warn] on the next tick; one warning either way. *)
Definition emitWarning (msg type : string) (s : Warnings) : Warnings :=
  {| cache := cache s; emitted := emitted s ++ [(type, msg)] |}.

(** [deprecate(msg)] *)
Definition deprecate (msg : string) (s : Warnings) : Warnings :=
  if negb (String.eqb msg "") &&
     negb (inherited msg || bool_decide (msg ∈ cache s))
  then emitWarning msg "DeprecationWarning"
         {| cache := {[ msg ]} ∪ cache s; emitted := emitted s |}
  else s.

(** [warn(msg)] *)
Definition warn (msg : string) (s : Warnings) : Warnings :=
  if negb (String.eqb msg "") then emitWarning msg "Warning" s else s.

Definition noWarnings : Warnings := {| cache := ∅; emitted := [] |}.

(** ** Further code of the DSL interfaces *)

(** [suite.only(opts)]; [isWorker] is [mocha.isWorker]. *)
Definition only (m : MochaOptions) (isWorker : bool) (newid : string)
    (opts : CommonOptions) (d : Dsl) : Outcome * Dsl :=
  if forbidOnly m
  then (Thrown (createForbiddenExclusivityError isWorker), d)
  else create m newid
         {| o_title := o_title opts; o_fn := o_fn opts; o_pending := o_pending opts;
            o_file := o_file opts; o_isOnly := Some true |} d.

(** [context.it(title, fn)] of the BDD interface and [context.test(title, fn)]
    of the TDD interface, up to the test that is handed to [suite.addTest]
    ([suite.ts] is not under src/); [None] when the stack is empty and
    [suites[0].isPending()] fails. *)
Definition declareTest (newid title : string) (f : Fn) (file_ : string) (d : Dsl)
  : option Test :=
  match suites d with
  | [] => None
  | suite :: _ =>
      let test := if suite_isPending suite
                  then new_Test newid title FnAbsent
                  else new_Test newid title f in
      Some (upd_base (with_file (Some file_)) test)
  end.

(** ** The stats collector ([stats-collector.ts]) *)

(** The runner events the collector listens to, with what it reads of their
    payload. *)
Inductive RunnerEvent :=
| EVENT_RUN_BEGIN
| EVENT_SUITE_BEGIN (suite : Suite)
| EVENT_TEST_PASS
| EVENT_TEST_FAIL
| EVENT_TEST_PENDING
| EVENT_TEST_END
| EVENT_RUN_END
| EVENT_OTHER.

Record Stats := mkStats {
  st_suites : nat;
  st_tests : nat;
  st_passes : nat;
  st_pending : nat;
  st_failures : nat;
  st_start : option Z;
  st_end : option Z;
  st_duration : option number
}.

(** The stats with the two [once] listeners, which are removed when they
    have run. *)
Record Collector := mkCollector {
  stats : Stats;
  onRunBegin : bool;
  onRunEnd : bool
}.

(** [createStatsCollector(runner)]; [stats.end - stats.start] is [NaN] when
    [start] was never set. *)
Definition createStatsCollector : Collector :=
  {| stats := {| st_suites := 0; st_tests := 0; st_passes := 0; st_pending := 0;
                 st_failures := 0; st_start := None; st_end := None;
                 st_duration := None |};
     onRunBegin := true; onRunEnd := true |}.

(** The runner emits [ev] at clock value [t]. *)
Definition collect (c : Collector) (tev : Z * RunnerEvent) : Collector :=
  let s := stats c in
  let with_stats s' := {| stats := s'; onRunBegin := onRunBegin c; onRunEnd := onRunEnd c |} in
  match snd tev with
  | EVENT_RUN_BEGIN =>
      if onRunBegin c
      then {| stats := mkStats (st_suites s) (st_tests s) (st_passes s) (st_pending s)
                         (st_failures s) (Some (fst tev)) (st_end s) (st_duration s);
              onRunBegin := false; onRunEnd := onRunEnd c |}
      else c
  | EVENT_SUITE_BEGIN suite =>
      if s_root suite then c
      else with_stats (mkStats (S (st_suites s)) (st_tests s) (st_passes s) (st_pending s)
                         (st_failures s) (st_start s) (st_end s) (st_duration s))
  | EVENT_TEST_PASS =>
      with_stats (mkStats (st_suites s) (st_tests s) (S (st_passes s)) (st_pending s)
                    (st_failures s) (st_start s) (st_end s) (st_duration s))
  | EVENT_TEST_FAIL =>
      with_stats (mkStats (st_suites s) (st_tests s) (st_passes s) (st_pending s)
                    (S (st_failures s)) (st_start s) (st_end s) (st_duration s))
  | EVENT_TEST_PENDING =>
      with_stats (mkStats (st_suites s) (st_tests s) (st_passes s) (S (st_pending s))
                    (st_failures s) (st_start s) (st_end s) (st_duration s))
  | EVENT_TEST_END =>
      with_stats (mkStats (st_suites s) (S (st_tests s)) (st_passes s) (st_pending s)
                    (st_failures s) (st_start s) (st_end s) (st_duration s))
  | EVENT_RUN_END =>
      if onRunEnd c
      then {| stats := mkStats (st_suites s) (st_tests s) (st_passes s) (st_pending s)
                         (st_failures s) (st_start s) (Some (fst tev))
                         (Some (match st_start s with
                                | Some t0 => Num (fst tev - t0)
                                | None => NaN
                                end));
              onRunBegin := onRunBegin c; onRunEnd := false |}
      else c
  | EVENT_OTHER => c
  end.

Definition collectAll (evs : list (Z * RunnerEvent)) (c : Collector) : Collector :=
  fold_left collect evs c.

(** How many events of the list satisfy [p]. *)
Definition countEvents (p : RunnerEvent -> bool) (evs : list (Z * RunnerEvent)) : nat :=
  length (List.filter (fun tev => p (snd tev)) evs).

Definition isRunBegin (e : RunnerEvent) : bool :=
  match e with EVENT_RUN_BEGIN => true | _ => false end.
Definition isRunEnd (e : RunnerEvent) : bool :=
  match e with EVENT_RUN_END => true | _ => false end.
Definition isSuiteBegin (e : RunnerEvent) : bool :=
  match e with EVENT_SUITE_BEGIN s => negb (s_root s) | _ => false end.
Definition isTestPass (e : RunnerEvent) : bool :=
  match e with EVENT_TEST_PASS => true | _ => false end.
Definition isTestFail (e : RunnerEvent) : bool :=
  match e with EVENT_TEST_FAIL => true | _ => false end.
Definition isTestPending (e : RunnerEvent) : bool :=
  match e with EVENT_TEST_PENDING => true | _ => false end.
Definition isTestEnd (e : RunnerEvent) : bool :=
  match e with EVENT_TEST_END => true | _ => false end.

(** ** Further concrete runnables and inputs *)

(** [function () { work(5); throw undefined; }] *)
Definition falsyThrowTest : Runnable :=
  t_base (mathTest (FnFunction "function () { ... }" 0
                      {| acts := [ATick 5]; fin := EThrow VUndefined |})).

(** The same test in a run with [--allow-uncaught]. *)
Definition uncaughtTest : Runnable := with_allowUncaught true falsyThrowTest.

(** [function () { this.skip(); }] *)
Definition skippingTest : Runnable :=
  t_base (mathTest (FnFunction "function () { this.skip(); }" 0
                      {| acts := []; fin := ESkip |})).

(** [function () { return fetchSomething(); }] *)
Definition promiseTest : Runnable :=
  t_base (mathTest (FnFunction "function () { return ... }" 0
                      {| acts := [ATick 1]; fin := EReturn promise |})).

(** A test that was given the number 42 instead of a function. *)
Definition notAFunctionTest : Runnable :=
  t_base (mathTest (FnNotCallable "42" None)).

(** A run of one suite with one passing test, between two stray events. *)
Definition smallRun : list (Z * RunnerEvent) :=
  [(0, EVENT_OTHER); (10, EVENT_RUN_BEGIN); (11, EVENT_SUITE_BEGIN rootSuite);
   (12, EVENT_SUITE_BEGIN mathSuite); (15, EVENT_TEST_PASS); (15, EVENT_TEST_END);
   (17, EVENT_RUN_END); (20, EVENT_RUN_END)].

(** [describe('legacy', function () { })] *)
Definition describeWithCallback : CommonOptions :=
  {| o_title := "legacy"; o_fn := SfFunction (fun d => (d, None)); o_pending := None;
     o_file := Some "test/math.spec.js"; o_isOnly := None |}.

(** The stack inside [describe.skip('legacy', ...)]. *)
Definition insideLegacy : Dsl := {| suites := [legacySuite; rootSuite]; onlySuites := [] |}.

(** [function (done) { this.timeout('abc'); }], and the same test at the
    moment [run] has returned. *)
Definition unparsableTimeoutTest : Runnable :=
  t_base (mathTest (FnFunction "function (done) { this.timeout('abc'); }" 1
                      {| acts := [ATimeout (MsStr "abc")];
                         fin := EReturn (RPlain VUndefined) |})).

Definition unparsableTimeoutWorld : World := attempt unparsableTimeoutTest 0 [].

(** A test whose slow threshold was given as a string that the [ms] package
    does not understand, [t.slow('abc')], and a store that holds it. *)
Definition unparsedSlowTest : Test :=
  applyTestOps [ToRunnable (RoSlow (MsStr "abc"))]
    (new_Test "t1" "adds" (FnFunction "function (done) { }" 1 silentBody)).

Definition unparsedSlowStore : gmap loc Test := {[ 0%nat := unparsedSlowTest ]}.

(** A failed test: its [err] is the assertion error, an object with methods
    of its own. *)
Definition failedTest : Test :=
  upd_base (fun r => with_state (Some STATE_FAILED)
                       (with_err (Some (VError ClsError "expected 1 to equal 2" None
                                          (InfoCustom true))) r))
           originalTest.

(** [function (done) { done(Symbol('x')); }] *)
Definition symbolDoneTest : Runnable :=
  t_base (mathTest (FnFunction "function (done) { done(Symbol('x')); }" 1
                      {| acts := [ADone (VSymbol "x")];
                         fin := EReturn (RPlain VUndefined) |})).

(** [function () { return { then: function (ok) { ok(); } }; }] *)
Definition eagerThenableTest : Runnable :=
  t_base (mathTest (FnFunction "function () { return { then: ... }; }" 0
                      {| acts := [ATick 3];
                         fin := EReturn (RThenable [Fulfil] None) |})).

(** A hook that was constructed without a function. *)
Definition emptyHook : Runnable := h_base (new_Hook "h3" "after each hook" FnAbsent).

(** [function (done) { this.timeout(100); }] in a test whose threshold was
    zero when [run] was entered. *)
Definition untimedTest : Runnable :=
  with_timeout (Num 0)
    (t_base (mathTest (FnFunction "function (done) { this.timeout(100); }" 1
                         {| acts := [ATimeout (MsNum (Num 100))];
                            fin := EReturn (RPlain VUndefined) |}))).

(** [describe.skip('legacy', function () { })] *)
Definition skipWithCallback : CommonOptions :=
  {| o_title := "legacy"; o_fn := SfFunction (fun d => (d, None)); o_pending := Some true;
     o_file := Some "test/math.spec.js"; o_isOnly := None |}.
(** ** Basic facts *)

Ltac unfold_world :=
  unfold emit, upd_self, tick, set_self, set_now, set_finished,
    set_errorWasHandled, set_result, set_doneGiven, set_thenRegistered,
    set_callbackIsDone, set_trace in *.

Lemma strictEq_spec (a : number) (z : Z) : strictEq a (Num z) = true <-> a = Num z.
Proof.
  destruct a as [|x]; cbn; [split; discriminate|].
  rewrite Z.eqb_eq. split; [intros ->; reflexivity|intros [= ->]; reflexivity].
Qed.

Lemma strictEq_zero (a : number) : strictEq a (Num 0) = false <-> a <> Num 0.
Proof.
  rewrite <- strictEq_spec. destruct (strictEq a (Num 0)); split; congruence.
Qed.

Lemma clamp_range (z : Z) :
  exists c, clamp (Some (Num z)) (0, INT_MAX) = Num c /\ 0 <= c <= INT_MAX.
Proof. eexists. split; [reflexivity|]. unfold INT_MAX; simpl; lia. Qed.

Lemma clamp_inside (z : Z) :
  0 <= z <= INT_MAX -> clamp (Some (Num z)) (0, INT_MAX) = Num z.
Proof. intros H. unfold clamp, INT_MAX in *; simpl in *. f_equal. lia. Qed.

Lemma clamp_below (z : Z) : z < 0 -> clamp (Some (Num z)) (0, INT_MAX) = Num 0.
Proof. intros H. unfold clamp, INT_MAX in *; simpl in *. f_equal. lia. Qed.

Lemma clamp_above (z : Z) :
  INT_MAX < z -> clamp (Some (Num z)) (0, INT_MAX) = Num INT_MAX.
Proof. intros H. unfold clamp, INT_MAX in *; simpl in *. f_equal. lia. Qed.

Lemma resetTimeout_timeout (r : Runnable) : _timeout (resetTimeout r) = _timeout r.
Proof.
  unfold resetTimeout, clearTimeout.
  destruct (strictEq (_timeout r) (Num 0)); [reflexivity|].
  destruct (timer r); reflexivity.
Qed.

(** A threshold that [timeout(ms)] computes is [NaN] or lies in
    [0, 2^31-1), and a threshold of that kind is stored as it is. *)
Lemma thresholdFor_storable (v : option number) : storable (thresholdFor v).
Proof.
  unfold thresholdFor. destruct v as [[|z]|]; cbn [clamp storable]; try exact I.
  destruct (decide _) as [_|Hn]; cbn [storable]; unfold INT_MAX in *; simpl in *; lia.
Qed.

Lemma thresholdFor_fixpoint (n : number) : storable n -> thresholdFor (Some n) = n.
Proof.
  destruct n as [|z]; [reflexivity|]. cbn [storable]. intros H.
  unfold thresholdFor. rewrite clamp_inside by lia.
  destruct (decide (z = 0 \/ z = INT_MAX)) as [[->| ->]|_]; [reflexivity|lia|reflexivity].
Qed.

Lemma thresholdFor_numeric (z : Z) : inRange (thresholdFor (Some (Num z))).
Proof.
  pose proof (thresholdFor_storable (Some (Num z))) as H.
  unfold thresholdFor in *. cbn [clamp] in *.
  destruct (decide _); exact H.
Qed.

(** The three ways a call of [timeout(ms)] goes. *)
Lemma timeout_cases (ms : msArg) (r : Runnable) :
  (ms = MsUndefined /\ timeout ms r = (r, Value (_timeout r))) \/
  (exists e, ms <> MsUndefined /\ toMs ms = ConvThrows e /\ timeout ms r = (r, Throws e)) \/
  (exists v, ms <> MsUndefined /\ toMs ms = ConvValue v /\ timeout ms r = (stores v r, This)).
Proof.
  assert (G : forall v,
            (let range := (0, INT_MAX) in
             let c := clamp v range in
             let r1 := if strictEq c (Num (fst range)) || strictEq c (Num (snd range))
                       then with_timeout (Num 0) r else with_timeout c r in
             match timer r1 with NoTimer => r1 | _ => resetTimeout r1 end) = stores v r).
  { intros v. cbv zeta. unfold stores, thresholdFor. cbn [fst snd].
    destruct (clamp v (0, INT_MAX)) as [|c]; [reflexivity|]. cbn [strictEq].
    destruct (Z.eqb_spec c 0) as [E0|E0]; cbn [orb].
    - rewrite decide_True by auto. reflexivity.
    - destruct (Z.eqb_spec c INT_MAX) as [E1|E1].
      + rewrite decide_True by auto. reflexivity.
      + rewrite decide_False by tauto. reflexivity. }
  destruct ms as [|n|s].
  - left. split; reflexivity.
  - right. right. exists (Some n). split; [discriminate|]. split; [reflexivity|].
    unfold timeout. cbn [toMs]. rewrite <- G. reflexivity.
  - right. unfold timeout. cbn [toMs]. destruct (milliseconds s) as [e|v].
    + left. exists e. split; [discriminate|]. split; reflexivity.
    + right. exists v. split; [discriminate|]. split; [reflexivity|].
      rewrite <- G. reflexivity.
Qed.

Lemma stores_timeout (v : option number) (r : Runnable) :
  _timeout (stores v r) = thresholdFor v.
Proof.
  unfold stores. cbv zeta.
  destruct (timer (with_timeout (thresholdFor v) r)); rewrite ?resetTimeout_timeout; reflexivity.
Qed.

(** The threshold that [timeout(ms)] stores for an argument that converts to
    [v]. *)
Lemma timeout_stores (ms : msArg) (v : option number) (r : Runnable) :
  ms <> MsUndefined -> toMs ms = ConvValue v ->
  timeout ms r = (stores v r, This) /\
  _timeout (fst (timeout ms r)) = thresholdFor v.
Proof.
  intros Hms Hv.
  destruct (timeout_cases ms r) as [[E _]|[(e & _ & E & _)|(v' & _ & E & H)]];
    [contradiction|congruence|].
  assert (v' = v) as -> by congruence.
  rewrite H. split; [reflexivity|apply stores_timeout].
Qed.

Lemma timeout_throws (ms : msArg) (e : value) (r : Runnable) :
  ms <> MsUndefined -> toMs ms = ConvThrows e -> timeout ms r = (r, Throws e).
Proof.
  intros Hms He.
  destruct (timeout_cases ms r) as [[E _]|[(e' & _ & E & H)|(v' & _ & E & _)]];
    [contradiction| |congruence].
  assert (e' = e) as -> by congruence. exact H.
Qed.


(** C3: [timeout(ms)] does not bring every argument into the range.  For
    [NaN], and for a string of which the [ms] package makes [undefined] or
    [NaN], the call returns [this] and the stored threshold is [NaN], which
    is outside [0, 2^31-1] and is not 0 either: timeouts are not disabled,
    and a runnable that holds a timer handle gets a timer armed with
    [NaN]. *)
Theorem timeout_of_unparsable_argument_stores_NaN (ms : msArg) (r : Runnable) :
  ms <> MsUndefined ->
  toMs ms = ConvValue None \/ toMs ms = ConvValue (Some NaN) ->
  let r' := fst (timeout ms r) in
  snd (timeout ms r) = This /\
  _timeout r' = NaN /\
  ~ inRange (_timeout r') /\
  _timeout r' <> Num 0 /\
  (timer r = NoTimer -> timer r' = NoTimer) /\
  (timer r <> NoTimer -> timer r' = Armed NaN).
Proof.
  intros Hms Hv r'.
  assert (E : exists v, toMs ms = ConvValue v /\ thresholdFor v = NaN).
  { destruct Hv as [Hv|Hv]; eexists; (split; [exact Hv|reflexivity]). }
  destruct E as (v & E & T).
  destruct (timeout_stores ms v r Hms E) as [H1 H2].
  subst r'. rewrite H2, T. rewrite H1. cbn [fst snd].
  split; [reflexivity|]. split; [reflexivity|]. split; [intros []|].
  split; [discriminate|].
  unfold stores. rewrite T. cbv zeta. cbn [timer with_timeout].
  unfold resetTimeout, clearTimeout. cbn [_timeout with_timeout strictEq].
  destruct r as [? ? ? ? ? ? ? ? ? ? ? ? ? ? ? ? ? ? tm ? ? ? ? ?]. cbn.
  destruct tm; split; intros; try congruence; reflexivity.
Qed.

(** X27: for a number other than [NaN], and for a string of which the [ms]
    package makes one, [timeout(ms)] clamps the number to [0, 2^31-1],
    stores 0 when the clamped value is one of the two endpoints and the
    clamped value otherwise, and returns [this]; the call without an
    argument returns the stored threshold and changes nothing; a call whose
    string makes the [ms] package throw throws the same exception and
    changes nothing. *)
Theorem timeout_clamps_numeric_arguments (ms : msArg) (r : Runnable) :
  timeout MsUndefined r = (r, Value (_timeout r)) /\
  (forall z, toMs ms = ConvValue (Some (Num z)) ->
     let c := Z.min (Z.max z 0) INT_MAX in
     INT_MAX = 2147483647 /\
     clamp (Some (Num z)) (0, INT_MAX) = Num c /\
     0 <= c <= INT_MAX /\
     (0 <= z <= INT_MAX -> c = z) /\ (z < 0 -> c = 0) /\ (INT_MAX < z -> c = INT_MAX) /\
     (c = 0 \/ c = INT_MAX -> _timeout (fst (timeout ms r)) = Num 0) /\
     (c <> 0 -> c <> INT_MAX -> _timeout (fst (timeout ms r)) = Num c) /\
     inRange (_timeout (fst (timeout ms r))) /\
     snd (timeout ms r) = This) /\
  (forall e, ms <> MsUndefined -> toMs ms = ConvThrows e ->
     timeout ms r = (r, Throws e)).
Proof.
  split; [reflexivity|]. split.
  - intros z Hz c.
    assert (Hms : ms <> MsUndefined) by (intros ->; discriminate Hz).
    destruct (timeout_stores ms _ r Hms Hz) as [H1 H2].
    rewrite H2, H1. cbn [snd]. unfold thresholdFor. cbn [clamp fst snd]. fold c.
    assert (Hc : 0 <= c <= INT_MAX) by (subst c; unfold INT_MAX; lia).
    split; [reflexivity|]. split; [reflexivity|]. split; [exact Hc|].
    split; [subst c; unfold INT_MAX; lia|]. split; [subst c; unfold INT_MAX; lia|].
    split; [subst c; unfold INT_MAX; lia|].
    split; [intros H; rewrite decide_True by exact H; reflexivity|].
    split; [intros H0 H1'; rewrite decide_False by tauto; reflexivity|].
    split; [|reflexivity].
    destruct (decide _) as [_|Hn]; cbn [inRange]; unfold INT_MAX in *; lia.
  - intros e Hms He. apply timeout_throws; assumption.
Qed.

(** [isPending] is the runnable's own flag or the flag of a suite on the
    parent chain. *)
Lemma suite_isPending_chain (s : Suite) :
  suite_isPending s = true <-> exists a, In a (suite_chain s) /\ s_pending a = true.
Proof.
  revert s.
  fix IH 1. intros [t p root i f par].
  destruct par as [|s'].
  - simpl. rewrite orb_false_r. split.
    + intros ->. eexists; split; [left; reflexivity|reflexivity].
    + intros [a [[<-|[]] Ha]]. exact Ha.
  - specialize (IH s'). simpl. rewrite orb_true_iff, IH. split.
    + intros [->|[a [Ha Hp]]].
      * eexists; split; [left; reflexivity|reflexivity].
      * exists a; split; [right; exact Ha|exact Hp].
    + intros [a [[<-|Ha] Hp]].
      * left; exact Hp.
      * right; exists a; split; assumption.
Qed.

Lemma isPending_iff (r : Runnable) :
  isPending r = true <->
  pending r = true \/
  exists p a, parent r = Some p /\ In a (suite_chain p) /\ s_pending a = true.
Proof.
  unfold isPending. rewrite orb_true_iff. destruct (parent r) as [p|].
  - rewrite suite_isPending_chain. split.
    + intros [H|[a [Ha Hp]]]; [left; exact H|right; exists p, a; auto].
    + intros [H|[p' [a [Hp' [Ha Hp]]]]]; [left; exact H|].
      right. injection Hp' as <-. exists a; auto.
  - split.
    + intros [H|H]; [left; exact H|discriminate].
    + intros [H|[p' [a [Hp' _]]]]; [left; exact H|discriminate].
Qed.

Lemma step_closed (w : World) (e : event) :
  closed w -> closed (step w e) /\ trace (step w e) = trace w.
Proof.
  intros (Hd & Ht & Hc). unfold closed.
  destruct e; simpl; rewrite ?Hd, ?Ht; unfold_world; simpl; auto.
  unfold timerFires. destruct (timer (self w)); auto.
  unfold_world; simpl. rewrite Hc, andb_false_r.
  destruct (strictEq _ _); simpl; auto.
Qed.

Lemma exec_closed (es : list event) (w : World) :
  closed w -> trace (exec w es) = trace w.
Proof.
  revert w. induction es as [|e es IH]; intros w Hw; [reflexivity|].
  destruct (step_closed w e Hw) as [Hc Ht].
  change (exec w (e :: es)) with (exec (step w e) es).
  rewrite IH by exact Hc. exact Ht.
Qed.

(** C4: a runnable that is pending, by its own flag or through a suite on
    its parent chain, is not run: [run] calls the completion callback at
    once, without an error, and does nothing else; the user's function is
    not called, no timer is armed and the runnable is left as it was, also
    under every later event. *)
Theorem pending_runnable_is_not_executed (r : Runnable) (t : Z) :
  (pending r = true \/
   exists p a, parent r = Some p /\ In a (suite_chain p) /\ s_pending a = true) ->
  isPending r = true /\
  run (initWorld r t) = emit (OCompletion VUndefined) (initWorld r t) /\
  trace (run (initWorld r t)) = [OCompletion VUndefined] /\
  self (run (initWorld r t)) = r /\
  forall es, trace (exec (run (initWorld r t)) es) = [OCompletion VUndefined].
Proof.
  intros H. apply isPending_iff in H.
  assert (E : run (initWorld r t) = emit (OCompletion VUndefined) (initWorld r t)).
  { unfold run. simpl. rewrite H. reflexivity. }
  repeat split; try assumption; rewrite E; try reflexivity.
  intros es. rewrite exec_closed; [reflexivity|].
  repeat split; reflexivity.
Qed.

(** ** Strings *)

Lemma append_assoc (a b c : string) : (a +:+ b) +:+ c = a +:+ b +:+ c.
Proof.
  induction a as [|x a IH]; [reflexivity|].
  change (String x ((a +:+ b) +:+ c) = String x (a +:+ b +:+ c)).
  f_equal. exact IH.
Qed.

Lemma append_empty_r (a : string) : a +:+ "" = a.
Proof.
  induction a as [|x a IH]; [reflexivity|].
  change (String x (a +:+ "") = String x a). f_equal. exact IH.
Qed.

(** ** The completion signal [done] *)

Lemma timeoutError_file (ms : number) (r r' : Runnable) :
  file r = file r' -> _timeoutError ms r = _timeoutError ms r'.
Proof. unfold _timeoutError. intros ->. reflexivity. Qed.

Lemma done_timedOut (v : value) (w : World) :
  timedOut (self w) = true -> done v w = w.
Proof. intros H. unfold done. rewrite H. reflexivity. Qed.

Lemma done_again (v : value) (w : World) :
  timedOut (self w) = false -> finished w = true -> done v w = multiple v w.
Proof. intros H1 H2. unfold done. rewrite H1, H2. reflexivity. Qed.

Lemma done_first (v : value) (w : World) :
  timedOut (self w) = false -> finished w = false ->
  done v w =
    emit (OCompletion (outcome v w))
      (set_finished true
         (upd_self (with_duration (Some (now w - start w)))
            (upd_self clearTimeout w))).
Proof.
  intros H1 H2. unfold done, outcome. rewrite H1, H2. cbv zeta.
  unfold_world. cbn [self now start].
  assert (E : forall ms, _timeoutError ms (with_duration (Some (now w - start w)) (clearTimeout (self w)))
              = _timeoutError ms (self w)).
  { intros ms. apply timeoutError_file. unfold clearTimeout.
    destruct (timer (self w)); reflexivity. }
  assert (T : _timeout (clearTimeout (self w)) = _timeout (self w)).
  { unfold clearTimeout. destruct (timer (self w)); reflexivity. }
  rewrite E. reflexivity.
Qed.

Lemma timeoutError_shape (ms : number) (r : Runnable) :
  code (_timeoutError ms r) = Some "ERR_MOCHA_TIMEOUT" /\
  truthy (_timeoutError ms r) = true /\
  info (_timeoutError ms r) = InfoTimeout ms (fromOption (truthyFile (file r))) /\
  exists msg rest,
    message (_timeoutError ms r) = Some msg /\
    msg = "Timeout of " +:+ numberToString ms +:+ "ms exceeded." +:+ rest /\
    forall f, truthyFile (file r) = Some f ->
      exists mid, rest = mid +:+ " (" +:+ f +:+ ")".
Proof.
  unfold _timeoutError, createTimeoutError. cbn [code truthy info message].
  repeat split.
  set (tl := " For async tests and hooks, ensure " +:+ dq +:+ "done()" +:+ dq
             +:+ " is called; if returning a Promise, ensure it resolves.").
  destruct (truthyFile (file r)) as [f|].
  - eexists. exists (tl +:+ " (" +:+ f +:+ ")"). split; [reflexivity|]. split.
    + rewrite !append_assoc. reflexivity.
    + intros f' [= <-]. exists tl. reflexivity.
  - eexists. exists tl. split; [reflexivity|]. split.
    + reflexivity.
    + intros f' [=].
Qed.

(** C10: a completion signalled without an error before the timer has fired,
    on a runnable whose measured duration exceeds its positive threshold, is
    handed to the completion callback as a timeout error (code
    ERR_MOCHA_TIMEOUT, the message holding the threshold and, when there is
    one, the file), not as a success; the timer has not fired. *)
Theorem late_success_becomes_timeout (err : value) (w : World) (ms : Z) :
  timedOut (self w) = false ->
  finished w = false ->
  truthy err = false ->
  _timeout (self w) = Num ms ->
  0 < ms ->
  ms < now w - start w ->
  let e := _timeoutError (Num ms) (self w) in
  trace (done err w) = (trace w ++ [OCompletion e])%list /\
  duration (self (done err w)) = Some (now w - start w) /\
  timedOut (self (done err w)) = false /\
  truthy e = true /\
  code e = Some "ERR_MOCHA_TIMEOUT" /\
  info e = InfoTimeout (Num ms) (fromOption (truthyFile (file (self w)))) /\
  exists msg rest,
    message e = Some msg /\
    msg = "Timeout of " +:+ pretty ms +:+ "ms exceeded." +:+ rest /\
    forall f, truthyFile (file (self w)) = Some f ->
      exists mid, rest = mid +:+ " (" +:+ f +:+ ")".
Proof.
  intros HT HF Herr Hms Hpos Hlate e.
  rewrite done_first by assumption.
  assert (O : outcome err w = e).
  { unfold outcome. rewrite Herr, Hms. cbn [negb andb ltb].
    destruct (Z.ltb_spec ms (now w - start w)); [|lia].
    destruct (Z.ltb_spec 0 ms); [|lia]. reflexivity. }
  rewrite O.
  destruct (timeoutError_shape (Num ms) (self w)) as (Hc & Ht & Hi & Hm).
  split; [reflexivity|]. split; [reflexivity|].
  split.
  { unfold_world. cbn [self]. unfold clearTimeout.
    destruct (timer (self w)); exact HT. }
  auto.
Qed.

(** The timer that fires on a runnable with a non-zero threshold marks it as
    timed out. *)
Lemma timer_firing_times_out (w : World) (ms : number) :
  timer (self w) = Armed ms -> _timeout (self w) <> Num 0 ->
  timedOut (self (timerFires w)) = true.
Proof.
  intros Ha Hn. unfold timerFires. rewrite Ha.
  unfold_world. cbn [self _timeout with_timer].
  apply strictEq_zero in Hn. rewrite Hn. reflexivity.
Qed.

(** Whatever the value, the completion function hands something to [done]
    or raises an exception and leaves the world as it was. *)
Lemma userDone_cases (v : value) (w : World) :
  (exists x, userDone v w = (done x w, None)) \/
  (exists e, userDone v w = (w, Some e)).
Proof.
  unfold userDone.
  destruct (isErrorLike v); [left; eexists; reflexivity|].
  destruct (truthy v).
  - destruct (isPlainObject v).
    + destruct (jsonStringify v); [left|right]; eexists; reflexivity.
    + destruct (toString v); [left|right]; eexists; reflexivity.
  - destruct (match result w with Some res => isPromise res | None => false end);
      left; eexists; reflexivity.
Qed.

(** C2 (as the code has it): once the timer has fired and set [timedOut],
    a later completion attempt, from the user's callback or from the settled
    thenable, is dropped without any effect: no report on the error channel,
    no second outcome, no second call of the completion callback. *)
Theorem completion_after_timeout_is_dropped (v : value) (w : World) :
  timedOut (self w) = true ->
  done v w = w /\
  step w (EvDone v) = w /\
  step w EvResolve = w /\
  step w (EvReject v) = w /\
  errors (step w (EvDone v)) = errors w /\
  completions (step w (EvDone v)) = completions w /\
  forall es, Forall isCompletionAttempt es -> exec w es = w.
Proof.
  intros H.
  assert (D : forall x, done x w = w) by (intros x; apply done_timedOut; exact H).
  assert (U : forall x, step w (EvDone x) = w).
  { intros x. simpl. destruct (doneGiven w); [|reflexivity].
    destruct (userDone_cases x w) as [[y ->]|[e ->]]; [apply D|reflexivity]. }
  repeat split.
  - apply D.
  - apply U.
  - simpl. destruct (thenRegistered w); [apply D|reflexivity].
  - simpl. destruct (thenRegistered w); [apply D|reflexivity].
  - rewrite U. reflexivity.
  - rewrite U. reflexivity.
  - intros es Hes. induction Hes as [|e es He _ IH]; [reflexivity|].
    change (exec w (e :: es)) with (exec (step w e) es).
    assert (S : step w e = w).
    { destruct e as [dt|x| |x| |ms]; try contradiction.
      - apply U.
      - simpl. destruct (thenRegistered w); [apply D|reflexivity].
      - simpl. destruct (thenRegistered w); [apply D|reflexivity]. }
    rewrite S. exact IH.
Qed.

Lemma outcome_truthy (v : value) (w : World) : truthy v = true -> outcome v w = v.
Proof. intros H. unfold outcome. rewrite H. reflexivity. Qed.

Lemma done_first_trace (v : value) (w : World) :
  timedOut (self w) = false -> finished w = false ->
  trace (done v w) = (trace w ++ [OCompletion (outcome v w)])%list.
Proof. intros H1 H2. rewrite done_first by assumption. reflexivity. Qed.

(** C5 (as the code has it): in explicit async mode, on the first completion
    of a runnable that has not timed out, a truthy value that is not an
    error and that converts to text completes the runnable with an error
    whose message is [done() invoked with non-Error: ] followed by that
    text; an error completes it with exactly that error; a falsy value
    completes it with the overspecified-resolution error when the user's
    function has already returned a thenable, and is judged without the
    return value while that function is still running. *)
Theorem explicit_async_completion (v : value) (w : World) :
  timedOut (self w) = false ->
  finished w = false ->
  (isErrorLike v = true ->
     userDone v w = (done v w, None) /\
     trace (done v w) = (trace w ++ [OCompletion v])%list) /\
  (isErrorLike v = false -> truthy v = true ->
     forall text, textOf v = Text text ->
       let e := newError ("done() invoked with non-Error: " +:+ text) in
       userDone v w = (done e w, None) /\
       trace (done e w) = (trace w ++ [OCompletion e])%list /\
       isErrorLike e = true /\
       message e = Some ("done() invoked with non-Error" +:+ ": " +:+ text)) /\
  (truthy v = false ->
     forall sync raises, result w = Some (RThenable sync raises) ->
       userDone v w = (done overspecified w, None) /\
       trace (done overspecified w) = (trace w ++ [OCompletion overspecified])%list) /\
  (truthy v = false ->
     result w = None \/ (exists x, result w = Some (RPlain x)) ->
     userDone v w = (done VUndefined w, None)).
Proof.
  intros HT HF. repeat split.
  - unfold userDone. rewrite H. reflexivity.
  - rewrite done_first_trace by assumption.
    rewrite outcome_truthy; [reflexivity|]. destruct v; try discriminate; reflexivity.
  - unfold userDone. rewrite H, H0. unfold textOf in H1.
    destruct (isPlainObject v); rewrite H1; reflexivity.
  - rewrite done_first_trace by assumption.
    rewrite outcome_truthy by reflexivity. reflexivity.
  - unfold userDone. rewrite H, H0.
    assert (HE : isErrorLike v = false) by (destruct v; try reflexivity; discriminate).
    rewrite HE. reflexivity.
  - rewrite done_first_trace by assumption.
    rewrite outcome_truthy by reflexivity. reflexivity.
  - intros Hv HR. unfold userDone. rewrite Hv.
    assert (HE : isErrorLike v = false) by (destruct v; try reflexivity; discriminate).
    rewrite HE. destruct HR as [-> | [x ->]]; reflexivity.
Qed.

(** ** One execution attempt completes at most once *)

Lemma completions_emit (o : Out) (w : World) :
  completions (emit o w) =
    (completions w ++ match o with OCompletion v => [v] | _ => [] end)%list.
Proof.
  unfold completions, emit. cbn [trace set_trace]. rewrite omap_app.
  destruct o; reflexivity.
Qed.

Lemma errors_emit (o : Out) (w : World) :
  errors (emit o w) =
    (errors w ++ match o with OError e => [e] | _ => [] end)%list.
Proof.
  unfold errors, emit. cbn [trace set_trace]. rewrite omap_app.
  destruct o; reflexivity.
Qed.

(** [Inv] looks at the trace, at [finished] and at [errorWasHandled] only, and
    raising [errorWasHandled] does not break it. *)
Lemma Inv_same (w w' : World) :
  trace w' = trace w -> finished w' = finished w ->
  (errorWasHandled w = true -> errorWasHandled w' = true) ->
  Inv w -> Inv w'.
Proof.
  intros Ht Hf He [Hc Hr]. unfold Inv, completions, errors in *.
  rewrite Ht, Hf. split; [exact Hc|].
  destruct Hr as [Hr|[e [Hr Hh]]]; [left; exact Hr|].
  right. exists e. auto.
Qed.

Lemma Inv_upd_self (f : Runnable -> Runnable) (w : World) : Inv w -> Inv (upd_self f w).
Proof. apply Inv_same; auto. Qed.

Lemma Inv_tick (dt : Z) (w : World) : Inv w -> Inv (tick dt w).
Proof. apply Inv_same; auto. Qed.

Lemma Inv_handled (w : World) : Inv w -> Inv (set_errorWasHandled true w).
Proof. apply Inv_same; auto. Qed.

Lemma Inv_multiple (v : value) (w : World) : Inv w -> Inv (multiple v w).
Proof.
  intros HI. unfold multiple.
  destruct (errorWasHandled w) eqn:E; [exact HI|].
  destruct HI as [Hc Hr]. split.
  - unfold Inv in *. rewrite completions_emit, app_nil_r. exact Hc.
  - right. eexists. rewrite errors_emit. split; [|reflexivity].
    destruct Hr as [Hr|[e [_ Hh]]].
    + change (errors (set_errorWasHandled true w)) with (errors w).
      rewrite Hr. reflexivity.
    + congruence.
Qed.

Lemma Inv_done (v : value) (w : World) : Inv w -> Inv (done v w).
Proof.
  intros HI.
  destruct (timedOut (self w)) eqn:HT.
  { rewrite done_timedOut by exact HT. exact HI. }
  destruct (finished w) eqn:HF.
  { rewrite done_again by assumption. apply Inv_multiple, HI. }
  rewrite done_first by assumption.
  destruct HI as [Hc Hr]. split.
  - right. eexists. rewrite completions_emit. split; [|reflexivity].
    destruct Hc as [[Hc _]|[x [_ Hx]]]; [|congruence].
    change (completions (set_finished _ _)) with (completions w).
    rewrite Hc. reflexivity.
  - rewrite errors_emit, app_nil_r. exact Hr.
Qed.

Lemma Inv_userDone (v : value) (w : World) : Inv w -> Inv (fst (userDone v w)).
Proof.
  intros HI. destruct (userDone_cases v w) as [[x ->]|[e ->]]; cbn [fst];
    [apply Inv_done|]; exact HI.
Qed.

Lemma Inv_settled (s : settle) (w : World) : Inv w -> Inv (settled s w).
Proof. intros HI. destruct s; apply Inv_done, HI. Qed.

Lemma Inv_timerFires (w : World) : Inv w -> Inv (timerFires w).
Proof.
  intros HI. unfold timerFires.
  destruct (timer (self w)); try exact HI.
  set (w1 := upd_self (with_timer Stale) w).
  assert (H1 : Inv w1) by (apply Inv_upd_self, HI).
  destruct (strictEq (_timeout (self w1)) (Num 0)); [exact H1|].
  apply Inv_upd_self.
  destruct (callback (self w1) && callbackIsDone w1); [apply Inv_done|]; exact H1.
Qed.

Lemma Inv_fold {A : Type} (f : World -> A -> World) (l : list A) (w : World) :
  (forall w a, Inv w -> Inv (f w a)) -> Inv w -> Inv (fold_left f l w).
Proof.
  intros Hf. revert w. induction l as [|a l IH]; intros w HI; [exact HI|].
  simpl. apply IH, Hf, HI.
Qed.

(** A property that every action keeps holds after the actions. *)
Lemma perform_keeps (P : World -> Prop) (C : action -> Prop)
    (act : action -> World -> World * option value) (l : list action) (w : World) :
  (forall a w, C a -> P w -> P (fst (act a w))) ->
  Forall C l -> P w -> P (fst (perform act l w)).
Proof.
  intros Hact HC. revert w. induction HC as [|a l Ha _ IH]; intros w HP; [exact HP|].
  cbn [perform]. specialize (Hact a w Ha HP).
  destruct (act a w) as [w' [e|]]; [exact Hact|apply IH, Hact].
Qed.

Lemma Forall_trivial (l : list action) : Forall (fun _ => True) l.
Proof. apply Forall_true. intros _. exact I. Qed.

Lemma Inv_syncAct (a : action) (w : World) : Inv w -> Inv (fst (syncAct a w)).
Proof.
  intros H. destruct a as [dt|v|ms]; cbn [syncAct fst];
    [apply Inv_tick|idtac|apply Inv_upd_self]; exact H.
Qed.

Lemma Inv_asyncAct (a : action) (w : World) : Inv w -> Inv (fst (asyncAct a w)).
Proof.
  intros H. destruct a as [dt|v|ms]; cbn [asyncAct fst];
    [apply Inv_tick|apply Inv_userDone|apply Inv_upd_self]; exact H.
Qed.

Lemma Inv_emit (o : Out) (w : World) :
  match o with OCompletion _ | OError _ => False | _ => True end ->
  Inv w -> Inv (emit o w).
Proof.
  intros Ho [Hc Hr]. split.
  - unfold Inv. rewrite completions_emit. destruct o; try contradiction;
      rewrite app_nil_r; exact Hc.
  - rewrite errors_emit. destruct o; try contradiction;
      rewrite app_nil_r; exact Hr.
Qed.

Lemma Inv_body_emitted (w : World) : Inv w -> Inv (emit OBody w).
Proof. apply Inv_emit. exact I. Qed.

Lemma Inv_caught (v : value) (w : World) : Inv w -> Inv (caught v w).
Proof.
  intros HI. unfold caught.
  set (w1 := set_errorWasHandled true w).
  assert (H1 : Inv w1) by (apply Inv_handled, HI).
  destruct (allowUncaught (self w1)); [|apply Inv_done, H1].
  apply Inv_emit; [exact I|exact H1].
Qed.

Lemma Inv_callFnAsync (b : Body) (w : World) : Inv w -> Inv (callFnAsync b w).
Proof.
  intros HI. unfold callFnAsync. cbv zeta.
  set (p := asyncActs (acts b) (set_doneGiven true (emit OBody w))).
  assert (H1 : Inv (fst p)).
  { subst p. unfold asyncActs.
    apply (perform_keeps Inv (fun _ => True));
      [intros a w' _; apply Inv_asyncAct|apply Forall_trivial|].
    apply (Inv_same (emit OBody w)); auto. apply Inv_body_emitted, HI. }
  destruct (ended (snd p) (fin b)) as [res|v|].
  - revert H1. apply Inv_same; auto.
  - apply Inv_caught, H1.
  - apply Inv_handled, Inv_done, Inv_upd_self, H1.
Qed.

Lemma Inv_callFn (b : Body) (w : World) : Inv w -> Inv (callFn b w).
Proof.
  intros HI. unfold callFn. cbv zeta.
  set (p := syncActs (acts b) (emit OBody w)).
  assert (H1 : Inv (fst p)).
  { subst p. unfold syncActs.
    apply (perform_keeps Inv (fun _ => True));
      [intros a w' _; apply Inv_syncAct|apply Forall_trivial|].
    apply Inv_body_emitted, HI. }
  destruct (ended (snd p) (fin b)) as [[x|sync raises]|v|].
  - destruct (asyncOnly (self (fst p))); apply Inv_done, H1.
  - unfold thenCalled. cbv zeta.
    assert (H2 : Inv (fold_left (fun w s => settled s w) sync
                        (set_thenRegistered true (upd_self resetTimeout (fst p))))).
    { apply Inv_fold; [intros w' s; apply Inv_settled|].
      revert H1. apply Inv_same; auto. }
    destruct raises; [apply Inv_caught|]; exact H2.
  - apply Inv_caught, H1.
  - apply Inv_done, Inv_handled, Inv_upd_self, H1.
Qed.

Lemma Inv_init (r : Runnable) (t : Z) : Inv (initWorld r t).
Proof. split; left; split; reflexivity. Qed.

Lemma Inv_run (w : World) : isPending (self w) = false -> Inv w -> Inv (run w).
Proof.
  intros HP HI. unfold run. rewrite HP.
  match goal with |- context [set_callbackIsDone true ?w0] =>
    set (w1 := set_callbackIsDone true w0) end.
  assert (H1 : Inv w1).
  { subst w1.
    match goal with |- Inv (set_callbackIsDone true (upd_self _ ?w0)) =>
      apply (Inv_same w0); auto end.
    destruct (ctx (self w)) as [c|]; [destruct (hasRunnable c)|]; try exact HI.
    apply Inv_emit; [exact I|exact HI]. }
  destruct (fn (self w1)).
  - destruct (asyncTruthy _); [apply Inv_caught, Inv_upd_self|apply Inv_caught]; exact H1.
  - apply Inv_done, H1.
  - destruct (asyncTruthy _); [apply Inv_callFnAsync, Inv_upd_self|apply Inv_callFn]; exact H1.
Qed.

Lemma Inv_step (w : World) (e : event) : Inv w -> Inv (step w e).
Proof.
  intros HI. destruct e as [dt|v| |reason| |ms]; simpl.
  - apply Inv_tick, HI.
  - destruct (doneGiven w); [apply Inv_userDone|]; exact HI.
  - destruct (thenRegistered w); [apply Inv_done|]; exact HI.
  - destruct (thenRegistered w); [apply Inv_done|]; exact HI.
  - apply Inv_timerFires, HI.
  - apply Inv_upd_self, HI.
Qed.

Lemma Inv_exec (es : list event) (w : World) : Inv w -> Inv (exec w es).
Proof. apply Inv_fold. intros w' e. apply Inv_step. Qed.

(** Whatever the runnable, the clock and the later events: one call of [run]
    invokes the completion callback at most once and sends at most one error
    on the error channel. *)
Lemma attempt_at_most_once (r : Runnable) (t : Z) (es : list event) :
  (length (completions (attempt r t es)) <= 1)%nat /\
  (length (errors (attempt r t es)) <= 1)%nat.
Proof.
  unfold attempt. destruct (isPending r) eqn:HP.
  - unfold completions, errors. rewrite exec_closed.
    + unfold run. cbn [self initWorld]. rewrite HP. simpl. lia.
    + unfold run. cbn [self initWorld]. rewrite HP. repeat split; reflexivity.
  - assert (HI : Inv (exec (run (initWorld r t)) es)).
    { apply Inv_exec, Inv_run; [exact HP|apply Inv_init]. }
    destruct HI as [[[Hc _]|[v [Hc _]]] [He|[e [He _]]]];
      rewrite Hc, He; simpl; lia.
Qed.

Lemma multipleDone_shape (r : Runnable) (v : value) :
  code (createMultipleDoneError r v) = Some "ERR_MOCHA_MULTIPLE_DONE" /\
  info (createMultipleDoneError r v) = InfoValue (typeof v) v /\
  exists rest,
    message (createMultipleDoneError r v) =
      Some ("done() called multiple times in " +:+ typeName r +:+ " <" +:+
            fullTitle r +:+ ">" +:+ rest).
Proof.
  unfold createMultipleDoneError, typeName. cbn [code info message].
  repeat split.
  set (root := match parent r with
               | Some p => if s_root p then " (of root suite)" else ""
               | None => ""
               end).
  set (fl := match truthyFile (file r) with
             | Some f => " of file " +:+ f
             | None => ""
             end).
  set (ad := if truthy v
             then "; in addition, done() received error: " +:+ formatS v
             else "").
  exists (root +:+ fl +:+ ad). f_equal.
  subst root fl ad.
  destruct (parent r) as [p|]; [destruct (s_root p)|];
    destruct (truthyFile (file r)); destruct (truthy v);
    rewrite ?append_assoc, ?append_empty_r; reflexivity.
Qed.

(** C1 (as the code has it): one call of [run] invokes the completion
    callback at most once and sends at most one error on the error channel,
    whatever happens afterwards.  A further [done] on a runnable that has
    finished and has not timed out never reaches the callback again; it sends
    the multiple-done error (code ERR_MOCHA_MULTIPLE_DONE, the message naming
    the type and the full title of the runnable) when no error was handled
    before in this call, after which every further [done] is silent; and it
    is silent when an error was handled before (the user's function threw,
    or the multiple-done error was already sent). *)
Theorem second_done_is_reported_once
    (r : Runnable) (t : Z) (es : list event) (v : value) (w : World) :
  (length (completions (attempt r t es)) <= 1)%nat /\
  (length (errors (attempt r t es)) <= 1)%nat /\
  (finished w = true -> timedOut (self w) = false ->
     completions (done v w) = completions w /\
     (errorWasHandled w = false ->
        let e := createMultipleDoneError (self w) v in
        trace (done v w) = (trace w ++ [OError e])%list /\
        code e = Some "ERR_MOCHA_MULTIPLE_DONE" /\
        (exists rest,
           message e =
             Some ("done() called multiple times in " +:+ typeName (self w)
                   +:+ " <" +:+ fullTitle (self w) +:+ ">" +:+ rest)) /\
        forall v', done v' (done v w) = done v w) /\
     (errorWasHandled w = true -> done v w = w)).
Proof.
  destruct (attempt_at_most_once r t es) as [H1 H2].
  split; [exact H1|]. split; [exact H2|].
  intros HF HT. rewrite done_again by assumption. unfold multiple.
  destruct (errorWasHandled w) eqn:HE.
  - split; [reflexivity|]. split; [discriminate|reflexivity].
  - split; [rewrite completions_emit, app_nil_r; reflexivity|].
    split; [|discriminate]. intros _. cbv zeta.
    destruct (multipleDone_shape (self w) v) as (Hc & _ & Hm).
    split; [reflexivity|]. split; [exact Hc|]. split; [exact Hm|].
    intros v'. rewrite done_again by assumption. reflexivity.
Qed.

(** ** Hook: the retained error slot *)

(** C7 (as the code has it): [error(e)] stores [e]; the next call without an
    argument returns [e] and leaves [null] in the slot, so that the call
    after it returns [null].  A slot that holds an error loses it only
    through such a read, through [reset()], or through [error(x)] with an
    [x] that is not an error (such as [null], which the declared signature
    allows). *)
Theorem hook_error_slot (h : Hook) (e : value) (op : HookOp) :
  let h1 := fst (hook_error (Some e) h) in
  let h2 := fst (hook_error None h1) in
  _error h1 = e /\
  snd (hook_error None h1) = e /\
  _error h2 = VNull /\
  snd (hook_error None h2) = VNull /\
  _error (hook_reset h1) = VUndefined /\
  (slotFull h = true -> slotFull (hook_apply op h) = false ->
     op = OpError None \/ op = OpReset \/
     exists x, op = OpError (Some x) /\ isErrorLike x = false).
Proof.
  cbn zeta. repeat split.
  intros Hfull Hempty. destruct op as [[x|]| |f].
  - right. right. exists x. split; [reflexivity|exact Hempty].
  - left. reflexivity.
  - right. left. reflexivity.
  - unfold slotFull in *. simpl in Hempty. congruence.
Qed.

(** ** Serialization *)

(** C9 (as the code has it): the summary fields of the snapshot of a test
    equal what the live test answers, and the parent field holds the
    parent's full title and id only.  Two fields of the snapshot hold live
    objects: [$$retriedTest] is the live predecessor itself when the test
    was retried, and [err] is the live error object when the test holds one;
    the snapshot refers to no live object, hence to no function, exactly
    when the test has neither.  The snapshot of a hook answers the same way,
    its [$$isPending] being [isPending()], which also looks at the parent
    chain. *)
Theorem serialize_summary (t : Test) (k : Hook) (h : gmap loc Test) :
  let s := test_serialize t in
  let r := t_base t in
  let hs := hook_serialize k in
  let b := h_base k in
  (ts_title s = title r /\
   ts_duration s = duration r /\
   ts_state s = state r /\
   ts_fullTitle s = fullTitle r /\
   ts_isPending s = pending r /\
   Some (ts_currentRetry s) = snd (currentRetry None r) /\
   ts_parent s = {| p_fullTitle := suite_fullTitle <$> parent r;
                    p_id := s_id <$> parent r |}) /\
  (ts_retriedTest s = _retriedTest t /\
   ts_err s = err r /\
   (forall l, _retriedTest t = Some l -> RefTest l ∈ liveRefs s) /\
   (forall v, err r = Some v -> isObject v = true -> RefValue v ∈ liveRefs s) /\
   (liveRefs s = [] <->
      _retriedTest t = None /\ forall v, err r = Some v -> isObject v = false) /\
   (liveRefs s = [] -> ~ holdsFunction h s)) /\
  (hs_title hs = title b /\
   hs_duration hs = duration b /\
   hs_state hs = state b /\
   hs_fullTitle hs = fullTitle b /\
   hs_isPending hs = isPending b /\
   Some (hs_currentRetry hs) = snd (currentRetry None b) /\
   hs_parent hs = {| p_fullTitle := suite_fullTitle <$> parent b;
                     p_id := s_id <$> parent b |}).
Proof.
  cbn zeta.
  split; [repeat split|]. split; [|repeat split].
  split; [reflexivity|]. split; [reflexivity|].
  unfold liveRefs. cbn [ts_retriedTest ts_err test_serialize].
  split; [|split; [|split]].
  - intros l ->. apply elem_of_app. left. apply list_elem_of_singleton. reflexivity.
  - intros v -> Hv. rewrite Hv. apply elem_of_app. right.
    apply list_elem_of_singleton. reflexivity.
  - destruct (_retriedTest t) as [l|]; destruct (err (t_base t)) as [v|];
      try destruct (isObject v) eqn:Hv; cbn; split;
      try discriminate; try (intros [H _]; discriminate H).
    + intros [_ H]. specialize (H v eq_refl). congruence.
    + intros _. split; [reflexivity|]. intros v' [= <-]. exact Hv.
    + intros _. reflexivity.
    + intros _. split; [reflexivity|]. intros v' [=].
    + intros _. reflexivity.
  - intros Hnil (ref & Hin & _). unfold liveRefs in Hin.
    cbn [ts_retriedTest ts_err test_serialize] in Hin.
    rewrite Hnil in Hin. inversion Hin.
Qed.

(** ** The suite DSL *)

(** C8 (as the code has it): [create] without a function and without the
    pending flag throws the missing-argument error (a [TypeError] with code
    ERR_MOCHA_INVALID_ARG_TYPE whose message quotes the suite's full title)
    at once; with the pending flag set and no function it returns the suite,
    created pending, provided pending suites are not forbidden for it
    ([forbidPending] off, or the suite filtered out by [grep]). *)
Theorem create_without_callback
    (m : MochaOptions) (newid : string) (opts : CommonOptions) (d : Dsl)
    (top : Suite) (rest : list Suite) :
  suites d = top :: rest ->
  o_fn opts = SfUndefined ->
  let suite := MkSuite (o_title opts) (toBoolean (o_pending opts)) false newid
                 (o_file opts) (Parent top) in
  (toBoolean (o_pending opts) = false ->
     exists e,
       fst (create m newid opts d) = Thrown e /\
       e = VError ClsTypeError
             ("Suite " +:+ dq +:+ suite_fullTitle suite +:+ dq +:+
              " was defined but no callback was supplied. " +:+
              "Supply a callback or explicitly skip the suite.")
             (Some "ERR_MOCHA_INVALID_ARG_TYPE")
             (InfoArgument "callback" (Some "function") "string") /\
       contains (suite_fullTitle suite) (fromOption (message e))) /\
  (toBoolean (o_pending opts) = true ->
     forbidPending m && shouldBeTested m suite = false ->
     fst (create m newid opts d) = Returned suite /\
     s_pending suite = true /\
     suite_isPending suite = true /\
     suites (snd (create m newid opts d)) = suites d).
Proof.
  intros Hs Hf suite. unfold create. rewrite Hs, Hf.
  unfold Suite_create. cbn [s_title s_root s_id s_parent s_pending].
  fold suite. split.
  - intros Hp. subst suite. rewrite Hp. cbn [andb negb s_pending].
    destruct (toBoolean (o_isOnly opts)); cbn [fst];
      (eexists; split; [reflexivity|]; split; [reflexivity|]);
      exists ("Suite " +:+ dq),
        (dq +:+ " was defined but no callback was supplied. " +:+
         "Supply a callback or explicitly skip the suite.");
      rewrite append_assoc; reflexivity.
  - intros Hp Hforbid. subst suite. rewrite Hp in *. cbn [andb negb s_pending].
    rewrite Hforbid.
    destruct (toBoolean (o_isOnly opts)); cbn [fst snd suites tail];
      (split; [reflexivity|]); (split; [reflexivity|]);
      (split; [reflexivity|]); reflexivity.
Qed.

(** ** The accessors of a runnable *)

Lemma with_timer_timeout_eta (r : Runnable) :
  r = with_timer (timer r) (with_timeout (_timeout r) r).
Proof. destruct r; reflexivity. Qed.

(** The setter form of [timeout(ms)] stores the threshold and, where a timer
    handle exists and the threshold is not zero, arms a new timer. *)
Lemma stores_eq (v : option number) (r : Runnable) :
  stores v r =
    with_timer (match timer r with
                | NoTimer => NoTimer
                | tm => if strictEq (thresholdFor v) (Num 0) then tm
                        else Armed (thresholdFor v)
                end) (with_timeout (thresholdFor v) r).
Proof.
  unfold stores, resetTimeout, clearTimeout. destruct r; cbn.
  destruct timer0; cbn; try reflexivity; destruct (strictEq _ _); reflexivity.
Qed.

(** What [timeout(ms)] returns is the runnable with a new threshold and a new
    timer field, and nothing else changed. *)
Lemma timeout_shape (ms : msArg) (r : Runnable) :
  exists T tm, fst (timeout ms r) = with_timer tm (with_timeout T r).
Proof.
  destruct (timeout_cases ms r) as [[_ E]|[(e & _ & _ & E)|(v & _ & _ & E)]];
    rewrite E; cbn [fst].
  - exists (_timeout r), (timer r). apply with_timer_timeout_eta.
  - exists (_timeout r), (timer r). apply with_timer_timeout_eta.
  - rewrite stores_eq. eexists _, _. reflexivity.
Qed.

Lemma timeout_storable (ms : msArg) (r : Runnable) :
  thresholdOk r -> thresholdOk (fst (timeout ms r)).
Proof.
  intros H. unfold thresholdOk.
  destruct (timeout_cases ms r) as [[_ E]|[(e & _ & _ & E)|(v & _ & _ & E)]];
    rewrite E; cbn [fst]; try exact H.
  rewrite stores_timeout. apply thresholdFor_storable.
Qed.

Lemma timeout_inRange (ms : msArg) (r : Runnable) :
  clean ms -> inRange (_timeout r) -> inRange (_timeout (fst (timeout ms r))).
Proof.
  intros Hc H.
  destruct (timeout_cases ms r) as [[_ E]|[(e & _ & _ & E)|(v & Hms & Hv & E)]];
    rewrite E; cbn [fst]; try exact H.
  rewrite stores_timeout.
  destruct Hc as [Hc|[[e He]|[z Hz]]]; [contradiction|congruence|].
  assert (v = Some (Num z)) as -> by congruence. apply thresholdFor_numeric.
Qed.

Lemma timeout_set_range (ms : msArg) (r : Runnable) :
  snd (timeout ms r) = This -> thresholdOk (fst (timeout ms r)).
Proof.
  intros Hs. unfold thresholdOk.
  destruct (timeout_cases ms r) as [[_ E]|[(e & _ & _ & E)|(v & _ & _ & E)]];
    rewrite E in *; cbn [fst snd] in *; try discriminate Hs.
  rewrite stores_timeout. apply thresholdFor_storable.
Qed.

(** ** What an execution attempt keeps

    [Q] is a property of the runnable that survives a call of [timeout(ms)]
    with an argument that satisfies [ok], and the assignments that [run] and
    its callbacks make. *)
Section Frame.

Variable Q : Runnable -> Prop.
Variable ok : msArg -> Prop.
Hypothesis Q_timeout : forall ms r, ok ms -> Q r -> Q (fst (timeout ms r)).
Hypothesis Q_timer : forall tm r, Q r -> Q (with_timer tm r).
Hypothesis Q_duration : forall d r, Q r -> Q (with_duration d r).
Hypothesis Q_timedOut : forall b r, Q r -> Q (with_timedOut b r).
Hypothesis Q_pending : forall b r, Q r -> Q (with_pending b r).
Hypothesis Q_callback : forall b r, Q r -> Q (with_callback b r).

Lemma frame_clearTimeout (r : Runnable) : Q r -> Q (clearTimeout r).
Proof. intros H. unfold clearTimeout. destruct (timer r); auto. Qed.

Lemma frame_resetTimeout (r : Runnable) : Q r -> Q (resetTimeout r).
Proof.
  intros H. unfold resetTimeout. destruct (strictEq _ _); [exact H|].
  apply Q_timer, frame_clearTimeout, H.
Qed.

Lemma frame_done (v : value) (w : World) : Q (self w) -> Q (self (done v w)).
Proof.
  intros H. destruct (timedOut (self w)) eqn:HT.
  { rewrite done_timedOut by exact HT. exact H. }
  destruct (finished w) eqn:HF.
  { rewrite done_again by assumption. unfold multiple.
    destruct (errorWasHandled w); exact H. }
  rewrite done_first by assumption.
  cbn [self emit set_trace set_finished upd_self set_self].
  apply Q_duration, frame_clearTimeout, H.
Qed.

Lemma frame_userDone (v : value) (w : World) :
  Q (self w) -> Q (self (fst (userDone v w))).
Proof.
  intros H. destruct (userDone_cases v w) as [[x ->]|[e ->]]; cbn [fst];
    [apply frame_done|]; exact H.
Qed.

Lemma frame_settled (s : settle) (w : World) : Q (self w) -> Q (self (settled s w)).
Proof. intros H. destruct s; apply frame_done, H. Qed.

Lemma frame_timerFires (w : World) : Q (self w) -> Q (self (timerFires w)).
Proof.
  intros H. unfold timerFires. destruct (timer (self w)); try exact H.
  set (w1 := upd_self (with_timer Stale) w).
  assert (H1 : Q (self w1)) by (apply Q_timer, H).
  destruct (strictEq _ _); [exact H1|].
  cbn [self upd_self set_self]. apply Q_timedOut.
  destruct (callback (self w1) && callbackIsDone w1); [apply frame_done|]; exact H1.
Qed.

Lemma frame_caught (v : value) (w : World) : Q (self w) -> Q (self (caught v w)).
Proof.
  intros H. unfold caught. cbn [self set_errorWasHandled].
  destruct (allowUncaught (self w)); [exact H|].
  apply (frame_done (toValueOrError v) (set_errorWasHandled true w)), H.
Qed.

Lemma frame_syncAct (a : action) (w : World) :
  okAction ok a -> Q (self w) -> Q (self (fst (syncAct a w))).
Proof.
  intros Ha H. destruct a as [dt|v|ms]; cbn [syncAct fst]; try exact H.
  apply Q_timeout; assumption.
Qed.

Lemma frame_asyncAct (a : action) (w : World) :
  okAction ok a -> Q (self w) -> Q (self (fst (asyncAct a w))).
Proof.
  intros Ha H. destruct a as [dt|v|ms]; cbn [asyncAct fst]; try exact H.
  - apply frame_userDone, H.
  - apply Q_timeout; assumption.
Qed.

Lemma frame_callFnAsync (b : Body) (w : World) :
  Forall (okAction ok) (acts b) -> Q (self w) -> Q (self (callFnAsync b w)).
Proof.
  intros Hb H. unfold callFnAsync. cbv zeta.
  set (p := asyncActs (acts b) (set_doneGiven true (emit OBody w))).
  assert (H1 : Q (self (fst p))).
  { subst p. unfold asyncActs.
    apply (perform_keeps (fun w => Q (self w)) (okAction ok));
      [apply frame_asyncAct|exact Hb|exact H]. }
  destruct (ended (snd p) (fin b)) as [res|v|].
  - exact H1.
  - apply frame_caught, H1.
  - cbn [self set_errorWasHandled]. apply frame_done.
    cbn [self upd_self set_self]. apply Q_pending, H1.
Qed.

Lemma frame_callFn (b : Body) (w : World) :
  Forall (okAction ok) (acts b) -> Q (self w) -> Q (self (callFn b w)).
Proof.
  intros Hb H. unfold callFn. cbv zeta.
  set (p := syncActs (acts b) (emit OBody w)).
  assert (H1 : Q (self (fst p))).
  { subst p. unfold syncActs.
    apply (perform_keeps (fun w => Q (self w)) (okAction ok));
      [apply frame_syncAct|exact Hb|exact H]. }
  destruct (ended (snd p) (fin b)) as [[x|sync raises]|v|].
  - destruct (asyncOnly (self (fst p))); apply frame_done, H1.
  - unfold thenCalled. cbv zeta.
    set (w0 := set_thenRegistered true (upd_self resetTimeout (fst p))).
    assert (H0 : Q (self w0)) by (apply frame_resetTimeout, H1).
    assert (H2 : Q (self (fold_left (fun w s => settled s w) sync w0))).
    { clearbody w0. revert w0 H0. induction sync as [|s sync IH]; intros w0 H0; [exact H0|].
      cbn [fold_left]. apply IH, frame_settled, H0. }
    destruct raises; [apply frame_caught|]; exact H2.
  - apply frame_caught, H1.
  - apply frame_done. cbn [self set_errorWasHandled upd_self set_self].
    apply Q_pending, H1.
Qed.

Lemma frame_run (w : World) :
  okFn ok (fn (self w)) -> Q (self w) -> Q (self (run w)).
Proof.
  intros Hf H. unfold run. destruct (isPending (self w)); [exact H|].
  match goal with |- context [set_callbackIsDone true ?w0] =>
    set (w1 := set_callbackIsDone true w0) end.
  assert (H1 : Q (self w1) /\ fn (self w1) = fn (self w)).
  { subst w1. cbn [self set_callbackIsDone upd_self set_self].
    destruct (ctx (self w)) as [c|]; [destruct (hasRunnable c)|];
      cbn [self emit set_trace]; (split; [apply Q_callback, H|destruct (self w); reflexivity]). }
  destruct H1 as [H1 Hfn]. rewrite <- Hfn in Hf.
  destruct (fn (self w1)) as [|s len|src len b].
  - destruct (asyncTruthy _); apply frame_caught; [apply frame_resetTimeout|]; exact H1.
  - apply frame_done, H1.
  - cbn [okFn] in Hf.
    destruct (asyncTruthy _);
      [apply frame_callFnAsync; [exact Hf|apply frame_resetTimeout, H1]
      |apply frame_callFn; [exact Hf|exact H1]].
Qed.

Lemma frame_step (w : World) (e : event) :
  okEvent ok e -> Q (self w) -> Q (self (step w e)).
Proof.
  intros He H. destruct e as [dt|v| |reason| |ms]; cbn [step].
  - exact H.
  - destruct (doneGiven w); [apply frame_userDone|]; exact H.
  - destruct (thenRegistered w); [apply frame_settled|]; exact H.
  - destruct (thenRegistered w); [apply frame_settled|]; exact H.
  - apply frame_timerFires, H.
  - cbn [self upd_self set_self]. apply Q_timeout; assumption.
Qed.

Lemma frame_exec (es : list event) (w : World) :
  Forall (okEvent ok) es -> Q (self w) -> Q (self (exec w es)).
Proof.
  intros Hes. revert w. induction Hes as [|e es He _ IH]; intros w H; [exact H|].
  change (exec w (e :: es)) with (exec (step w e) es).
  apply IH, frame_step; assumption.
Qed.

Lemma frame_attempt (r : Runnable) (t : Z) (es : list event) :
  okFn ok (fn r) -> Forall (okEvent ok) es -> Q r -> Q (self (attempt r t es)).
Proof.
  intros Hf Hes H. unfold attempt. apply frame_exec; [exact Hes|].
  apply frame_run; assumption.
Qed.

End Frame.

Lemma okFn_trivial (f : Fn) : okFn (fun _ => True) f.
Proof.
  destruct f as [| |src len b]; cbn; try exact I. apply Forall_true. intros a.
  destruct a; exact I.
Qed.

Lemma okEvents_trivial (es : list event) : Forall (okEvent (fun _ => True)) es.
Proof. apply Forall_true. intros e. destruct e; exact I. Qed.

(** An execution attempt keeps the threshold storable, whatever the function
    and the events do. *)
Lemma attempt_storable (r : Runnable) (t : Z) (es : list event) :
  thresholdOk r -> thresholdOk (self (attempt r t es)).
Proof.
  apply (frame_attempt thresholdOk (fun _ => True));
    try (intros ? [] H; exact H);
    [intros ms r' _; apply timeout_storable|apply okFn_trivial|apply okEvents_trivial].
Qed.

(** It keeps the threshold in range when no call of [timeout(ms)] receives
    an argument that converts to [NaN] or [undefined]. *)
Lemma attempt_inRange (r : Runnable) (t : Z) (es : list event) :
  okFn clean (fn r) -> Forall (okEvent clean) es ->
  inRange (_timeout r) -> inRange (_timeout (self (attempt r t es))).
Proof.
  apply (frame_attempt (fun r => inRange (_timeout r)) clean);
    try (intros ? [] H; exact H).
  apply timeout_inRange.
Qed.

Lemma untouched_refl (r : Runnable) : untouched r r.
Proof. repeat split. Qed.

(** And it leaves every field alone that is not the threshold, the timer,
    the duration or one of the flags [timedOut], [pending], [callback]. *)
Lemma attempt_untouched (r : Runnable) (t : Z) (es : list event) :
  untouched r (self (attempt r t es)).
Proof.
  apply (frame_attempt (untouched r) (fun _ => True));
    try (intros ? [] H; exact H);
    [|apply okFn_trivial|apply okEvents_trivial|apply untouched_refl].
  intros ms r' _ H. destruct (timeout_shape ms r') as (T & tm & ->).
  destruct r'; exact H.
Qed.

(** ** The threshold over the life of a runnable *)

Lemma slow_shape (ms : msArg) (r : Runnable) :
  exists v, fst (slow ms r) = with_slow v r.
Proof.
  destruct ms as [|n|s]; unfold slow; cbn [toMs].
  - exists (_slow r). destruct r; reflexivity.
  - eexists. reflexivity.
  - destruct (milliseconds s); [exists (_slow r); destruct r|eexists]; reflexivity.
Qed.

Lemma applyOp_fn (r : Runnable) (op : RunnableOp) : fn (applyOp r op) = fn r.
Proof.
  destruct op as [ms|ms|n|n|g| | | | |a|t es]; cbn [applyOp].
  - destruct (timeout_shape ms r) as (T & tm & ->). destruct r; reflexivity.
  - destruct (slow_shape ms r) as (v & ->). destruct r; reflexivity.
  - destruct n; destruct r; reflexivity.
  - destruct n; destruct r; reflexivity.
  - destruct g; destruct r; reflexivity.
  - destruct r; reflexivity.
  - unfold resetTimeout, clearTimeout. destruct (strictEq _ _); [reflexivity|].
    destruct r as [? ? ? ? ? ? ? ? ? ? ? ? ? ? ? ? ? ? tm ? ? ? ? ?]. destruct tm; reflexivity.
  - unfold clearTimeout. destruct r as [? ? ? ? ? ? ? ? ? ? ? ? ? ? ? ? ? ? tm ? ? ? ? ?].
    destruct tm; reflexivity.
  - destruct r; reflexivity.
  - destruct a; destruct r; reflexivity.
  - apply (attempt_untouched r t es).
Qed.

(** Every operation keeps a threshold that satisfies [P], provided
    [timeout(ms)] does for the arguments that satisfy [ok]. *)
Lemma applyOp_keeps (P : number -> Prop) (ok : msArg -> Prop)
    (r : Runnable) (op : RunnableOp) :
  (forall ms r, ok ms -> P (_timeout r) -> P (_timeout (fst (timeout ms r)))) ->
  okFn ok (fn r) -> okOp ok op ->
  P (_timeout r) -> P (_timeout (applyOp r op)).
Proof.
  intros HP Hf Hop H.
  destruct op as [ms|ms|n|n|g| | | | |a|t es]; cbn [applyOp okOp] in *.
  - apply HP; assumption.
  - destruct (slow_shape ms r) as (v & ->). destruct r; exact H.
  - destruct n; destruct r; exact H.
  - destruct n; destruct r; exact H.
  - destruct g; destruct r; exact H.
  - destruct r; exact H.
  - rewrite resetTimeout_timeout. exact H.
  - unfold clearTimeout. destruct r as [? ? ? ? ? ? ? ? ? ? ? ? ? ? ? ? ? ? tm ? ? ? ? ?].
    destruct tm; exact H.
  - destruct r; exact H.
  - destruct a; destruct r; exact H.
  - apply (frame_attempt (fun r => P (_timeout r)) ok);
      try (intros ? [] H'; exact H'); assumption.
Qed.

Lemma applyOps_keeps (P : number -> Prop) (ok : msArg -> Prop)
    (ops : list RunnableOp) (r : Runnable) :
  (forall ms r, ok ms -> P (_timeout r) -> P (_timeout (fst (timeout ms r)))) ->
  okFn ok (fn r) -> Forall (okOp ok) ops ->
  P (_timeout r) -> P (_timeout (applyOps ops r)).
Proof.
  intros HP Hf Hops. revert r Hf. unfold applyOps.
  induction Hops as [|op ops Hop _ IH]; intros r Hf H; [exact H|].
  cbn [fold_left]. apply IH.
  - rewrite applyOp_fn. exact Hf.
  - apply (applyOp_keeps P ok); assumption.
Qed.

Lemma okOps_trivial (ops : list RunnableOp) : Forall (okOp (fun _ => True)) ops.
Proof.
  apply Forall_true. intros op. destruct op; cbn; try exact I. apply okEvents_trivial.
Qed.

Lemma applyOps_storable (ops : list RunnableOp) (r : Runnable) :
  thresholdOk r -> thresholdOk (applyOps ops r).
Proof.
  apply (applyOps_keeps storable (fun _ => True));
    [intros ms r' _; apply timeout_storable|apply okFn_trivial|apply okOps_trivial].
Qed.

Lemma applyOps_inRange (ops : list RunnableOp) (r : Runnable) :
  okFn clean (fn r) -> Forall (okOp clean) ops ->
  inRange (_timeout r) -> inRange (_timeout (applyOps ops r)).
Proof. apply (applyOps_keeps inRange clean). apply timeout_inRange. Qed.

Lemma constructor_threshold (newid title_ : string) (f : Fn) :
  inRange (_timeout (new_Runnable newid title_ f)) /\
  inRange (_timeout (t_base (new_Test newid title_ f))) /\
  inRange (_timeout (h_base (new_Hook newid title_ f))).
Proof.
  split; [|split]; vm_compute; (split; [discriminate|reflexivity]).
Qed.

Lemma inRange_storable (n : number) : inRange n -> storable n.
Proof. destruct n; [intros []|intros H; exact H]. Qed.

(** X1: whatever is done to a newly constructed runnable, test or hook
    (accessor calls, resets, skips, assignments to its public fields,
    execution attempts), its threshold is a number in [0, 2^31-1) or [NaN];
    and it is in [0, 2^31-1) when no call of [timeout(ms)], among the
    operations, in the function or after a run, receives an argument that
    converts to [NaN] or [undefined]. *)
Theorem threshold_stays_storable
    (newid title_ : string) (f : Fn) (ops : list RunnableOp) :
  let r := applyOps ops (new_Runnable newid title_ f) in
  let t := applyOps ops (t_base (new_Test newid title_ f)) in
  let k := applyOps ops (h_base (new_Hook newid title_ f)) in
  (thresholdOk r /\ thresholdOk t /\ thresholdOk k) /\
  (okFn clean f -> Forall (okOp clean) ops ->
   inRange (_timeout r) /\ inRange (_timeout t) /\ inRange (_timeout k)).
Proof.
  destruct (constructor_threshold newid title_ f) as (H1 & H2 & H3).
  cbv zeta. split.
  - split; [|split]; apply applyOps_storable, inRange_storable; assumption.
  - intros Hf Hops.
    split; [|split]; apply applyOps_inRange; try assumption; destruct f; exact Hf.
Qed.

(** X2: storing a threshold again changes nothing: after a call
    [timeout(ms)] that returned [this], [timeout(this.timeout())] leaves the
    threshold as it is. *)
Theorem timeout_is_idempotent (ms : msArg) (r : Runnable) :
  snd (timeout ms r) = This ->
  let r' := fst (timeout ms r) in
  _timeout (fst (timeout (MsNum (_timeout r')) r')) = _timeout r'.
Proof.
  intros Hs r'.
  destruct (timeout_stores (MsNum (_timeout r')) (Some (_timeout r')) r') as [_ E];
    [discriminate|reflexivity|].
  rewrite E. apply thresholdFor_fixpoint. apply (timeout_set_range ms r Hs).
Qed.

(** X3: [timeout(ms)] changes the threshold and the timer of the runnable and
    nothing else.  It never creates a timer where there was none; where
    there was one, armed or not, a call that stores a non-zero threshold
    arms a timer with that threshold, and a zero threshold leaves the old
    timer as it was; a call that throws changes nothing. *)
Theorem timeout_touches_threshold_and_timer_only (ms : msArg) (r : Runnable) :
  ms <> MsUndefined ->
  let r' := fst (timeout ms r) in
  r' = with_timer (timer r') (with_timeout (_timeout r') r) /\
  (timer r = NoTimer -> timer r' = NoTimer) /\
  (snd (timeout ms r) = This -> timer r <> NoTimer -> _timeout r' <> Num 0 ->
     timer r' = Armed (_timeout r')) /\
  (_timeout r' = Num 0 -> timer r' = timer r) /\
  (forall e, snd (timeout ms r) = Throws e -> r' = r).
Proof.
  intros Hms r'.
  assert (E : r' = with_timer (timer r') (with_timeout (_timeout r') r)).
  { destruct (timeout_shape ms r) as (T & tm & HE). subst r'. rewrite HE.
    destruct r; reflexivity. }
  split; [exact E|]. clear E. subst r'.
  destruct (timeout_cases ms r) as [[E _]|[(e & _ & _ & E)|(v & _ & _ & E)]];
    [contradiction| |]; rewrite E; cbn [fst snd].
  - split; [auto|]. split; [discriminate|]. split; [reflexivity|]. reflexivity.
  - rewrite stores_eq.
    destruct r as [? ? ? ? ? ? ? ? ? ? ? ? ? ? ? ? ? ? tm ? ? ? ? ?]. cbn.
    split; [intros ->; reflexivity|]. split; [|split; [|discriminate]].
    + intros _ Htm Hn. apply strictEq_zero in Hn. destruct tm; rewrite ?Hn; congruence.
    + intros Hz. apply strictEq_spec in Hz. destruct tm; rewrite ?Hz; reflexivity.
Qed.

(** ** Test: cloning *)

Lemma timeout_untimed (n : number) (r : Runnable) :
  timer r = NoTimer ->
  fst (timeout (MsNum n) r) = with_timeout (thresholdFor (Some n)) r.
Proof.
  intros HT.
  destruct (timeout_stores (MsNum n) (Some n) r) as [E _]; [discriminate|reflexivity|].
  rewrite E. cbn [fst]. unfold stores. cbv zeta. cbn [timer with_timeout].
  rewrite HT. reflexivity.
Qed.

(** Every threshold that a test holds during its life is one that
    [timeout(ms)] stores as it is: the copy that [clone] makes through
    [timeout(ms)] is exact. *)
Lemma applyTestOps_storable (ops : list TestOp) (t : Test) :
  thresholdOk (t_base t) -> thresholdOk (t_base (applyTestOps ops t)).
Proof.
  revert t. unfold applyTestOps.
  induction ops as [|op ops IH]; intros t H; [exact H|].
  cbn [fold_left]. apply IH.
  destruct op as [op| |l|s]; cbn [applyTestOp upd_base t_base retriedTest fst].
  - exact (applyOps_storable [op] (t_base t) H).
  - unfold test_reset, upd_base, reset. cbn [t_base]. destruct (t_base t). exact H.
  - exact H.
  - exact H.
Qed.

Lemma new_Test_threshold (newid title_ : string) (f : Fn) :
  thresholdOk (t_base (new_Test newid title_ f)).
Proof.
  apply inRange_storable.
  destruct (constructor_threshold newid title_ f) as (_ & H & _). exact H.
Qed.

(** C6 (as the code has it): [clone] allocates a new test and leaves the
    store otherwise as it was; the clone has the title, function, timeout
    threshold, retry budget and counter, globals, parent, file and context
    of the original, points to the original's [retriedTest] if there is one
    and to the original otherwise, and starts with fresh execution state.
    The slow threshold is copied when the original holds a number; a clone
    of a test whose slow threshold is [undefined] keeps the default.  The
    original is any test that the constructor and the operations of the
    class produce. *)
Theorem clone_is_a_fresh_copy
    (id0 title_ : string) (f : Fn) (ops : list TestOp)
    (newid : string) (this : loc) (h : gmap loc Test) :
  let t := applyTestOps ops (new_Test id0 title_ f) in
  h !! this = Some t ->
  exists l c,
    clone newid this h = Some (<[l := c]> h, l) /\
    h !! l = None /\ l <> this /\
    (<[l := c]> h) !! this = Some t /\
    (<[l := c]> h) !! l = Some c /\
    (forall l', l' <> l -> (<[l := c]> h) !! l' = h !! l') /\
    title (t_base c) = title (t_base t) /\
    fn (t_base c) = fn (t_base t) /\
    body (t_base c) = fn_toString (fn (t_base t)) /\
    _timeout (t_base c) = _timeout (t_base t) /\
    (forall n, _slow (t_base t) = Some n -> _slow (t_base c) = _slow (t_base t)) /\
    (_slow (t_base t) = None -> _slow (t_base c) = Some (Num 75)) /\
    _retries (t_base c) = _retries (t_base t) /\
    _currentRetry (t_base c) = _currentRetry (t_base t) /\
    _allowedGlobals (t_base c) = _allowedGlobals (t_base t) /\
    parent (t_base c) = parent (t_base t) /\
    file (t_base c) = file (t_base t) /\
    ctx (t_base c) = ctx (t_base t) /\
    _retriedTest c = Some (match _retriedTest t with Some l0 => l0 | None => this end) /\
    type_ (t_base c) = Some "test" /\
    id (t_base c) = newid /\
    state (t_base c) = None /\
    err (t_base c) = None /\
    timedOut (t_base c) = false /\
    duration (t_base c) = None /\
    timer (t_base c) = NoTimer /\
    callback (t_base c) = false.
Proof.
  intros t Hl.
  assert (HT : thresholdFor (Some (_timeout (t_base t))) = _timeout (t_base t)).
  { apply thresholdFor_fixpoint. apply applyTestOps_storable, new_Test_threshold. }
  clearbody t. unfold clone. rewrite Hl.
  set (l := fresh (dom h)).
  assert (Hfresh : h !! l = None).
  { apply not_elem_of_dom. apply is_fresh. }
  assert (Hne : l <> this) by (intros ->; congruence).
  eexists l, _. split; [reflexivity|].
  split; [exact Hfresh|]. split; [exact Hne|].
  split; [rewrite lookup_insert_ne by exact Hne; exact Hl|].
  split; [apply lookup_insert_eq|].
  split; [intros l' Hl'; apply lookup_insert_ne; congruence|].
  unfold upd_base, retriedTest. cbn [t_base _retriedTest speed fst].
  rewrite timeout_untimed by (destruct (_allowedGlobals (t_base t)); reflexivity).
  rewrite HT.
  destruct (_allowedGlobals (t_base t)) as [g|] eqn:HG;
    destruct (_slow (t_base t)) as [n|] eqn:HS;
    repeat split; try reflexivity; try discriminate.
Qed.

Lemma clone_result (newid : string) (this : loc) (h : gmap loc Test) (t : Test) :
  h !! this = Some t ->
  exists c,
    clone newid this h = Some (<[fresh (dom h) := c]> h, fresh (dom h)) /\
    _retriedTest c = Some (match _retriedTest t with Some l0 => l0 | None => this end) /\
    fn (t_base c) = fn (t_base t) /\
    pending (t_base c) = fnFalsy (fn (t_base t)) /\
    allowUncaught (t_base c) = false /\
    asyncOnly (t_base c) = false /\
    speed c = None /\
    h !! fresh (dom h) = None /\
    fresh (dom h) <> this.
Proof.
  intros Hl. unfold clone. rewrite Hl.
  assert (Hfresh : h !! fresh (dom h) = None).
  { apply not_elem_of_dom. apply is_fresh. }
  assert (Hne : fresh (dom h) <> this) by (intros E; rewrite E in Hfresh; congruence).
  eexists. split; [reflexivity|].
  unfold upd_base, retriedTest. cbn [t_base _retriedTest speed fst].
  rewrite timeout_untimed by (destruct (_allowedGlobals (t_base t)); reflexivity).
  destruct (_allowedGlobals (t_base t)); destruct (_slow (t_base t));
    repeat split; try assumption; destruct (fn (t_base t)); reflexivity.
Qed.

(** ** Running a function *)

Lemma evolves_refl (r : Runnable) : evolves r r.
Proof. exists (_timeout r), (timer r), (duration r). destruct r; reflexivity. Qed.

Lemma evolves_trans (a b c : Runnable) : evolves a b -> evolves b c -> evolves a c.
Proof.
  intros (T1 & tm1 & d1 & ->) (T2 & tm2 & d2 & ->).
  exists T2, tm2, d2. destruct a; reflexivity.
Qed.

Lemma evolves_fields (r r' : Runnable) :
  evolves r r' ->
  timedOut r' = timedOut r /\ pending r' = pending r /\
  allowUncaught r' = allowUncaught r /\ asyncOnly r' = asyncOnly r /\
  callback r' = callback r /\ file r' = file r /\ fn r' = fn r /\
  parent r' = parent r /\ type_ r' = type_ r /\ title r' = title r.
Proof. intros (T & tm & d & ->). destruct r; repeat split. Qed.

Lemma evolves_timeout (ms : msArg) (r : Runnable) : evolves r (fst (timeout ms r)).
Proof.
  destruct (timeout_shape ms r) as (T & tm & ->).
  exists T, tm, (duration r). destruct r; reflexivity.
Qed.

Lemma evolves_clearTimeout (r : Runnable) : evolves r (clearTimeout r).
Proof.
  unfold clearTimeout. destruct (timer r) eqn:E; try apply evolves_refl.
  exists (_timeout r), Stale, (duration r). destruct r; reflexivity.
Qed.

Lemma evolves_resetTimeout (r : Runnable) : evolves r (resetTimeout r).
Proof.
  unfold resetTimeout. destruct (strictEq _ _); [apply evolves_refl|].
  eapply evolves_trans; [apply evolves_clearTimeout|].
  exists (_timeout (clearTimeout r)), (Armed (_timeout r)), (duration (clearTimeout r)).
  destruct (clearTimeout r); reflexivity.
Qed.

Lemma evolves_duration (d : option Z) (r : Runnable) : evolves r (with_duration d r).
Proof. exists (_timeout r), (timer r), d. destruct r; reflexivity. Qed.

Lemma evolves_with_timer (tm : Timer) (r : Runnable) : evolves r (with_timer tm r).
Proof. exists (_timeout r), tm, (duration r). destruct r; reflexivity. Qed.

Lemma done_evolves (v : value) (w : World) : evolves (self w) (self (done v w)).
Proof.
  destruct (timedOut (self w)) eqn:HT.
  { rewrite done_timedOut by exact HT. apply evolves_refl. }
  destruct (finished w) eqn:HF.
  { rewrite done_again by assumption. unfold multiple.
    destruct (errorWasHandled w); apply evolves_refl. }
  rewrite done_first by assumption. cbn [self emit set_trace set_finished upd_self set_self].
  eapply evolves_trans; [apply evolves_clearTimeout|apply evolves_duration].
Qed.

Lemma done_start (v : value) (w : World) :
  start (done v w) = start w /\ now (done v w) = now w /\
  doneGiven (done v w) = doneGiven w /\ thenRegistered (done v w) = thenRegistered w /\
  callbackIsDone (done v w) = callbackIsDone w /\ result (done v w) = result w.
Proof.
  destruct (timedOut (self w)) eqn:HT.
  { rewrite done_timedOut by exact HT. repeat split. }
  destruct (finished w) eqn:HF.
  { rewrite done_again by assumption. unfold multiple.
    destruct (errorWasHandled w); repeat split. }
  rewrite done_first by assumption. repeat split.
Qed.

(** A call of [timeout(ms)] throws exactly when the [ms] package does. *)
Lemma exceptionOf_timeout (ms : msArg) (r : Runnable) :
  exceptionOf (snd (timeout ms r)) =
    match toMs ms with ConvThrows e => Some e | ConvValue _ => None end.
Proof.
  destruct (timeout_cases ms r) as [[-> E]|[(e & _ & He & E)|(v & _ & Hv & E)]];
    rewrite E; cbn [snd exceptionOf]; [reflexivity|rewrite He|rewrite Hv]; reflexivity.
Qed.

(** A function that was handed no callback ends early only through a call
    of [timeout(ms)] that throws. *)
Lemma syncActs_snd (l : list action) (w : World) : snd (syncActs l w) = firstThrow l.
Proof.
  revert w. unfold syncActs. induction l as [|a l IH]; intros w; [reflexivity|].
  cbn [perform firstThrow]. destruct a as [dt|v|ms]; cbn [syncAct].
  - apply IH.
  - apply IH.
  - rewrite exceptionOf_timeout. destruct (toMs ms); [reflexivity|apply IH].
Qed.

Lemma syncActs_now (l : list action) (w : World) :
  firstThrow l = None -> now (fst (syncActs l w)) = now w + ticks l.
Proof.
  revert w. unfold syncActs. induction l as [|a l IH]; intros w H;
    [cbn; lia|].
  cbn [perform firstThrow ticks] in *. destruct a as [dt|v|ms]; cbn [syncAct].
  - rewrite IH by exact H. cbn [now tick set_now]. lia.
  - apply IH, H.
  - rewrite exceptionOf_timeout. destruct (toMs ms); [discriminate H|].
    rewrite IH by exact H. reflexivity.
Qed.

(** The synchronous part of a function without callback touches the clock,
    the threshold and the timer only. *)
Lemma syncActs_quiet (l : list action) (w : World) :
  let w' := fst (syncActs l w) in
  trace w' = trace w /\
  finished w' = finished w /\
  errorWasHandled w' = errorWasHandled w /\
  start w' = start w /\
  thenRegistered w' = thenRegistered w /\
  doneGiven w' = doneGiven w /\
  callbackIsDone w' = callbackIsDone w /\
  evolves (self w) (self w') /\
  duration (self w') = duration (self w).
Proof.
  cbv zeta. unfold syncActs.
  apply (perform_keeps
           (fun w' => trace w' = trace w /\ finished w' = finished w /\
                      errorWasHandled w' = errorWasHandled w /\ start w' = start w /\
                      thenRegistered w' = thenRegistered w /\ doneGiven w' = doneGiven w /\
                      callbackIsDone w' = callbackIsDone w /\
                      evolves (self w) (self w') /\ duration (self w') = duration (self w))
           (fun _ => True)).
  - intros a w' _ (H1 & H2 & H3 & H4 & H5 & H6 & H7 & H8 & H9).
    destruct a as [dt|v|ms]; cbn [syncAct fst]; try (repeat split; assumption).
    repeat split; try assumption.
    + eapply evolves_trans; [exact H8|apply (evolves_timeout ms)].
    + rewrite <- H9. cbn [self upd_self set_self].
      destruct (timeout_shape ms (self w')) as (T & tm & ->).
      destruct (self w'); reflexivity.
  - apply Forall_trivial.
  - repeat split. apply evolves_refl.
Qed.

Lemma asyncActs_evolves (l : list action) (w : World) :
  let w' := fst (asyncActs l w) in
  evolves (self w) (self w') /\
  start w' = start w /\
  doneGiven w' = doneGiven w /\
  callbackIsDone w' = callbackIsDone w /\
  (Inv w -> Inv w').
Proof.
  cbv zeta. unfold asyncActs.
  apply (perform_keeps
           (fun w' => evolves (self w) (self w') /\ start w' = start w /\
                      doneGiven w' = doneGiven w /\ callbackIsDone w' = callbackIsDone w /\
                      (Inv w -> Inv w'))
           (fun _ => True)).
  - intros a w' _ (H1 & H2 & H3 & H4 & H5).
    destruct a as [dt|v|ms]; cbn [asyncAct fst].
    + split; [exact H1|]. do 3 (split; [assumption|]).
      intros HI. apply Inv_tick, H5, HI.
    + destruct (userDone_cases v w') as [[x Hx]|[e He]].
      * pose proof (done_start x w') as (S1 & _ & S3 & _ & S5 & _).
        rewrite Hx. cbn [fst].
        split; [eapply evolves_trans; [exact H1|apply done_evolves]|].
        do 3 (split; [congruence|]).
        intros HI. apply Inv_done, H5, HI.
      * rewrite He. cbn [fst]. split; [exact H1|]. do 3 (split; [assumption|]). exact H5.
    + split; [eapply evolves_trans; [exact H1|apply (evolves_timeout ms)]|].
      do 3 (split; [assumption|]).
      intros HI. apply Inv_upd_self, H5, HI.
  - apply Forall_trivial.
  - split; [apply evolves_refl|]. do 3 (split; [reflexivity|]). intros HI; exact HI.
Qed.

Lemma entered_facts (r : Runnable) (t : Z) :
  completions (entered r t) = [] /\ errors (entered r t) = [] /\
  finished (entered r t) = false /\ errorWasHandled (entered r t) = false /\
  self (entered r t) = with_callback true r /\
  start (entered r t) = t /\ now (entered r t) = t /\
  callbackIsDone (entered r t) = true /\
  ~ In OBody (trace (entered r t)).
Proof.
  unfold entered.
  destruct (ctx r) as [c|]; [destruct (hasRunnable c)|]; cbn;
    repeat split; try reflexivity; intros H;
    repeat (destruct H as [H|H]; [discriminate H|]); exact H.
Qed.

(** What [run] amounts to for a runnable that is not pending and has a
    function. *)
Lemma run_function (r : Runnable) (t : Z) (src : string) (len : nat) (b : Body) :
  isPending r = false -> fn r = FnFunction src len b ->
  run (initWorld r t) =
    if asyncTruthy (async r)
    then callFnAsync b (upd_self resetTimeout (entered r t))
    else callFn b (entered r t).
Proof.
  intros HP HF. unfold run. cbn [self initWorld]. rewrite HP.
  fold (entered r t).
  destruct (entered_facts r t) as (_ & _ & _ & _ & HS & _).
  rewrite HS. cbn [fn async with_callback]. rewrite HF. reflexivity.
Qed.

Lemma toValueOrError_truthy (v : value) : truthy (toValueOrError v) = true.
Proof. unfold toValueOrError. destruct (truthy v) eqn:E; [exact E|reflexivity]. Qed.

Lemma completions_same_trace (w w' : World) :
  trace w' = trace w -> completions w' = completions w /\ errors w' = errors w.
Proof. intros H. unfold completions, errors. rewrite H. split; reflexivity. Qed.

Lemma trace_extends (w w' : World) (l : list Out) :
  trace w' = (trace w ++ l)%list ->
  completions w' =
    (completions w ++ omap (fun o => match o with OCompletion v => Some v | _ => None end) l)%list /\
  errors w' =
    (errors w ++ omap (fun o => match o with OError e => Some e | _ => None end) l)%list.
Proof. intros H. unfold completions, errors. rewrite H, !omap_app. split; reflexivity. Qed.

Lemma done_finishes (v : value) (w : World) :
  timedOut (self w) = false -> finished (done v w) = true.
Proof.
  intros HT. destruct (finished w) eqn:HF.
  - rewrite done_again by assumption. unfold multiple.
    destruct (errorWasHandled w); exact HF.
  - rewrite done_first by assumption. reflexivity.
Qed.

(** A first completion without error is a pass, or the timeout error when
    the measured duration exceeds a positive threshold. *)
Lemma outcome_verdict (w : World) :
  outcome VUndefined w = verdict (now w - start w) (_timeout (self w)) (self w).
Proof. reflexivity. Qed.

Lemma asyncActs_without_done (l : list action) (w : World) :
  Forall notDone l -> asyncActs l w = syncActs l w.
Proof.
  intros H. revert w. unfold asyncActs, syncActs.
  induction H as [|a l Ha _ IH]; intros w; [reflexivity|].
  cbn [perform].
  assert (E : asyncAct a w = syncAct a w) by (destruct a; [reflexivity|contradiction|reflexivity]).
  rewrite E. destruct (syncAct a w) as [w' [e|]]; [reflexivity|apply IH].
Qed.

Lemma timeout_keeps_timerLive (ms : msArg) (r : Runnable) :
  timerLive r -> timerLive (fst (timeout ms r)).
Proof.
  intros [Hl Ha].
  destruct (timeout_cases ms r) as [[_ E]|[(e & _ & _ & E)|(v & _ & _ & E)]];
    rewrite E; cbn [fst]; try (split; assumption).
  rewrite stores_eq. unfold timerLive. clear E.
  generalize (thresholdFor v). intros T.
  destruct r as [? ? ? ? ? ? ? ? ? ? ? ? ? ? ? ? ? ? tm ? ? ? ? ?].
  cbn [timer _timeout with_timer with_timeout] in *.
  destruct tm; try contradiction;
    (destruct (strictEq T (Num 0)) eqn:Hz;
     [apply strictEq_spec in Hz|apply strictEq_zero in Hz]);
    split; intros; congruence.
Qed.

Lemma syncActs_timerLive (l : list action) (w : World) :
  timerLive (self w) -> timerLive (self (fst (syncActs l w))).
Proof.
  unfold syncActs.
  apply (perform_keeps (fun w => timerLive (self w)) (fun _ => True));
    [|apply Forall_trivial].
  intros a w' _ H. destruct a as [dt|v|ms]; cbn [syncAct fst]; try exact H.
  cbn [self upd_self set_self]. apply timeout_keeps_timerLive, H.
Qed.

Lemma Inv_entered (r : Runnable) (t : Z) : Inv (entered r t).
Proof.
  destruct (entered_facts r t) as (Hc & He & Hf & _).
  split; left; [split|]; assumption.
Qed.

Lemma bodyStart_facts (r : Runnable) (t : Z) :
  trace (bodyStart r t) = (trace (entered r t) ++ [OBody])%list /\
  completions (bodyStart r t) = [] /\ errors (bodyStart r t) = [] /\
  finished (bodyStart r t) = false /\ errorWasHandled (bodyStart r t) = false /\
  evolves (with_callback true r) (self (bodyStart r t)) /\
  start (bodyStart r t) = t /\ now (bodyStart r t) = t /\
  callbackIsDone (bodyStart r t) = true /\ thenRegistered (bodyStart r t) = false /\
  doneGiven (bodyStart r t) = asyncTruthy (async r) /\
  Inv (bodyStart r t).
Proof.
  destruct (entered_facts r t) as (Hc & He & Hf & Hh & Hs & Hst & Hn & Hcb & _).
  assert (Ht : thenRegistered (entered r t) = false /\ doneGiven (entered r t) = false).
  { unfold entered. destruct (ctx r) as [c|]; [destruct (hasRunnable c)|]; split; reflexivity. }
  destruct Ht as [Ht Hd].
  assert (HT : trace (bodyStart r t) = (trace (entered r t) ++ [OBody])%list).
  { unfold bodyStart. destruct (asyncTruthy (async r)); reflexivity. }
  destruct (trace_extends (entered r t) (bodyStart r t) [OBody] HT) as [C E].
  rewrite Hc in C. rewrite He in E. cbn in C, E.
  assert (HF : finished (bodyStart r t) = false)
    by (unfold bodyStart; destruct (asyncTruthy (async r)); exact Hf).
  split; [exact HT|]. split; [exact C|]. split; [exact E|]. split; [exact HF|].
  split; [unfold bodyStart; destruct (asyncTruthy (async r)); exact Hh|].
  split.
  { unfold bodyStart. destruct (asyncTruthy (async r));
      cbn [self set_doneGiven emit set_trace upd_self set_self]; rewrite Hs;
      [apply evolves_resetTimeout|apply evolves_refl]. }
  split; [unfold bodyStart; destruct (asyncTruthy (async r)); exact Hst|].
  split; [unfold bodyStart; destruct (asyncTruthy (async r)); exact Hn|].
  split; [unfold bodyStart; destruct (asyncTruthy (async r)); exact Hcb|].
  split; [unfold bodyStart; destruct (asyncTruthy (async r)); exact Ht|].
  split; [unfold bodyStart; destruct (asyncTruthy (async r)); [reflexivity|exact Hd]|].
  split; [left; split; assumption|left; exact E].
Qed.

(** [run] on a runnable that is not pending and whose function does not call
    back while it executes: the call ends by the exception of a throwing
    [timeout(ms)], or the way the function ends. *)
Lemma run_quiet_function
    (r : Runnable) (t : Z) (src : string) (len : nat) (l : list action) (e : ending) :
  isPending r = false ->
  fn r = FnFunction src len {| acts := l; fin := e |} ->
  asyncTruthy (async r) = false \/ Forall notDone l ->
  run (initWorld r t) =
    let w := fst (syncActs l (bodyStart r t)) in
    if asyncTruthy (async r)
    then match ended (firstThrow l) e with
         | EReturn res => set_result (Some res) w
         | EThrow v => caught v w
         | ESkip => set_errorWasHandled true (done VUndefined (upd_self (with_pending true) w))
         end
    else match ended (firstThrow l) e with
         | EReturn (RThenable sync raises) => thenCalled sync raises w
         | EReturn (RPlain _) =>
             if asyncOnly (self w)
             then done (newError
               "--async-only option in use without declaring `done()` or returning a promise") w
             else done VUndefined w
         | EThrow v => caught v w
         | ESkip => done VUndefined (set_errorWasHandled true (upd_self (with_pending true) w))
         end.
Proof.
  intros HP HF HL. rewrite (run_function r t src len _ HP HF).
  unfold bodyStart. destruct (asyncTruthy (async r)) eqn:HA.
  - destruct HL as [HL|HL]; [discriminate HL|].
    unfold callFnAsync. cbn [acts fin]. cbv zeta.
    rewrite asyncActs_without_done by exact HL.
    rewrite syncActs_snd. reflexivity.
  - unfold callFn. cbn [acts fin]. cbv zeta. rewrite syncActs_snd. reflexivity.
Qed.

(** After the quiet part of a function the runnable is as it was, up to
    threshold and timer, and nothing was reported. *)
Lemma quiet_body_facts (r : Runnable) (t : Z) (l : list action) :
  let w := fst (syncActs l (bodyStart r t)) in
  trace w = (trace (entered r t) ++ [OBody])%list /\
  completions w = [] /\ errors w = [] /\
  finished w = false /\ errorWasHandled w = false /\
  evolves (with_callback true r) (self w) /\
  start w = t /\ callbackIsDone w = true /\ thenRegistered w = false /\
  (firstThrow l = None -> now w = t + ticks l).
Proof.
  cbv zeta.
  destruct (bodyStart_facts r t) as (B1 & B2 & B3 & B4 & B5 & B6 & B7 & B8 & B9 & B10 & _).
  destruct (syncActs_quiet l (bodyStart r t)) as (Q1 & Q2 & Q3 & Q4 & Q5 & Q6 & Q7 & Q8 & _).
  destruct (completions_same_trace (bodyStart r t) _ Q1) as [C E].
  split; [congruence|]. split; [congruence|]. split; [congruence|].
  split; [congruence|]. split; [congruence|].
  split; [eapply evolves_trans; eassumption|].
  split; [congruence|]. split; [congruence|]. split; [congruence|].
  intros H. rewrite syncActs_now by exact H. congruence.
Qed.

(** What the first [done] of a call does. *)
Lemma first_done_facts (v : value) (w : World) :
  timedOut (self w) = false -> finished w = false ->
  completions (done v w) = (completions w ++ [outcome v w])%list /\
  errors (done v w) = errors w /\
  finished (done v w) = true /\
  errorWasHandled (done v w) = errorWasHandled w /\
  evolves (self w) (self (done v w)) /\
  thenRegistered (done v w) = thenRegistered w /\
  duration (self (done v w)) = Some (now w - start w) /\
  _timeout (self (done v w)) = _timeout (self w).
Proof.
  intros HT HF.
  destruct (trace_extends w (done v w) [OCompletion (outcome v w)]
              (done_first_trace v w HT HF)) as [C E].
  cbn in C, E. rewrite app_nil_r in E.
  split; [exact C|]. split; [exact E|].
  split; [apply done_finishes, HT|].
  split; [rewrite done_first by assumption; reflexivity|].
  split; [apply done_evolves|].
  rewrite done_first by assumption.
  split; [reflexivity|]. split; [reflexivity|].
  cbn [self emit set_trace set_finished upd_self set_self].
  unfold clearTimeout. destruct (self w) as [? ? ? ? ? ? ? ? ? ? ? ? ? ? ? ? ? ? tm ? ? ? ? ?].
  destruct tm; reflexivity.
Qed.

(** Once the callback was invoked and an error was handled, nothing is
    reported any more. *)
Lemma sealed_done (v : value) (w : World) : sealed w -> done v w = w.
Proof.
  intros [HF HE]. unfold done. destruct (timedOut (self w)); [reflexivity|].
  rewrite HF. unfold multiple. rewrite HE. reflexivity.
Qed.

Lemma sealed_step (w : World) (e : event) :
  sealed w -> sealed (step w e) /\ trace (step w e) = trace w.
Proof.
  intros HS. destruct e as [dt|v| |reason| |ms]; cbn [step].
  - split; [exact HS|reflexivity].
  - destruct (doneGiven w); [|split; [exact HS|reflexivity]].
    destruct (userDone_cases v w) as [[x ->]|[e ->]]; cbn [fst];
      rewrite ?sealed_done by exact HS; split; try exact HS; reflexivity.
  - destruct (thenRegistered w); [|split; [exact HS|reflexivity]].
    cbn [settled]. rewrite sealed_done by exact HS. split; [exact HS|reflexivity].
  - destruct (thenRegistered w); [|split; [exact HS|reflexivity]].
    cbn [settled]. rewrite sealed_done by exact HS. split; [exact HS|reflexivity].
  - unfold timerFires. destruct (timer (self w)); try (split; [exact HS|reflexivity]).
    set (w1 := upd_self (with_timer Stale) w).
    assert (H1 : sealed w1) by exact HS.
    destruct (strictEq _ _); [split; [exact H1|reflexivity]|].
    destruct (callback (self w1) && callbackIsDone w1);
      rewrite ?sealed_done by exact H1; split; try exact H1; reflexivity.
  - split; [exact HS|reflexivity].
Qed.

Lemma sealed_exec (es : list event) (w : World) :
  sealed w -> trace (exec w es) = trace w.
Proof.
  revert w. induction es as [|e es IH]; intros w HS; [reflexivity|].
  change (exec w (e :: es)) with (exec (step w e) es).
  destruct (sealed_step w e HS) as [H1 H2]. rewrite IH by exact H1. exact H2.
Qed.

Lemma with_pending_fields (b : bool) (r : Runnable) :
  pending (with_pending b r) = b /\
  timedOut (with_pending b r) = timedOut r /\
  _timeout (with_pending b r) = _timeout r /\
  file (with_pending b r) = file r /\
  parent (with_pending b r) = parent r.
Proof. destruct r; repeat split. Qed.

Lemma verdict_file (d : Z) (ms : number) (r r' : Runnable) :
  file r = file r' -> verdict d ms r = verdict d ms r'.
Proof. intros H. unfold verdict. rewrite (timeoutError_file ms r r' H). reflexivity. Qed.

Lemma ended_throw (l : list action) (v : value) :
  ended (firstThrow l) (EThrow v) =
    EThrow (match firstThrow l with Some e => e | None => v end).
Proof. destruct (firstThrow l); reflexivity. Qed.

Lemma done_threshold (v : value) (w : World) :
  _timeout (self (done v w)) = _timeout (self w).
Proof.
  destruct (timedOut (self w)) eqn:HT.
  { rewrite done_timedOut by exact HT. reflexivity. }
  destruct (finished w) eqn:HF.
  { rewrite done_again by assumption. unfold multiple.
    destruct (errorWasHandled w); reflexivity. }
  apply first_done_facts; assumption.
Qed.

(** A further [done] on a finished runnable invokes nothing. *)
Lemma done_after_finish (v : value) (w : World) :
  finished w = true ->
  completions (done v w) = completions w /\ finished (done v w) = true /\
  timedOut (self (done v w)) = timedOut (self w).
Proof.
  intros HF. unfold done. destruct (timedOut (self w)) eqn:HT; [auto|].
  rewrite HF. unfold multiple. destruct (errorWasHandled w); [auto|].
  rewrite completions_emit, app_nil_r. auto.
Qed.

(** X4: a function that throws before it has called back fails the runnable:
    the completion callback is invoked once, with the thrown value if that is
    truthy and otherwise with an ERR_MOCHA_INVALID_EXCEPTION error that keeps
    the value and its type; never without an error.  The thrown value is the
    function's own, or the exception of a call of [timeout(ms)] that threw
    before.  Nothing is reported afterwards. *)
Theorem thrown_value_fails_the_runnable
    (r : Runnable) (t : Z) (src : string) (len : nat) (l : list action) (v : value) :
  isPending r = false ->
  timedOut r = false ->
  allowUncaught r = false ->
  fn r = FnFunction src len {| acts := l; fin := EThrow v |} ->
  Forall notDone l ->
  let w := run (initWorld r t) in
  let x := match firstThrow l with Some e => e | None => v end in
  completions w = [toValueOrError x] /\
  truthy (toValueOrError x) = true /\
  (truthy x = true -> toValueOrError x = x) /\
  (truthy x = false ->
     code (toValueOrError x) = Some "ERR_MOCHA_INVALID_EXCEPTION" /\
     info (toValueOrError x) = InfoValue (typeof x) x) /\
  errors w = [] /\
  errorWasHandled w = true /\
  forall es, trace (exec w es) = trace w.
Proof.
  intros HP HT HU HF HL w x. subst w.
  rewrite (run_quiet_function r t src len l _ HP HF (or_intror HL)). cbv zeta.
  rewrite ended_throw. fold x.
  destruct (quiet_body_facts r t l) as (Q1 & Q2 & Q3 & Q4 & Q5 & Q6 & _).
  set (w1 := fst (syncActs l (bodyStart r t))) in *.
  destruct (evolves_fields _ _ Q6) as (F1 & _ & F3 & _).
  cbn [timedOut allowUncaught with_callback] in F1, F3.
  assert (E : (if asyncTruthy (async r) then caught x w1 else caught x w1) = caught x w1)
    by (destruct (asyncTruthy (async r)); reflexivity).
  rewrite E. clear E.
  unfold caught. cbn [self set_errorWasHandled]. rewrite F3, HU.
  set (w2 := set_errorWasHandled true w1).
  assert (T2 : timedOut (self w2) = false) by (subst w2; cbn [self set_errorWasHandled]; congruence).
  assert (F2 : finished w2 = false) by exact Q4.
  destruct (first_done_facts (toValueOrError x) w2 T2 F2) as (C & E & F & H & _).
  rewrite outcome_truthy in C by apply toValueOrError_truthy.
  change (completions w2) with (completions w1) in C. rewrite Q2 in C.
  change (errors w2) with (errors w1) in E. rewrite Q3 in E.
  split; [exact C|]. split; [apply toValueOrError_truthy|].
  split; [intros Hv; unfold toValueOrError; rewrite Hv; reflexivity|].
  split; [intros Hv; unfold toValueOrError; rewrite Hv; split; reflexivity|].
  split; [exact E|]. split; [exact H|].
  intros es. apply sealed_exec. split; [exact F|exact H].
Qed.

(** X5: with [allowUncaught] set, a function that throws before it has
    called back makes [run] rethrow the value; the completion callback is not
    invoked by [run], the runnable is not finished, and the error is marked
    as handled. *)
Theorem allowUncaught_rethrows
    (r : Runnable) (t : Z) (src : string) (len : nat) (l : list action) (v : value) :
  isPending r = false ->
  allowUncaught r = true ->
  fn r = FnFunction src len {| acts := l; fin := EThrow v |} ->
  Forall notDone l ->
  let w := run (initWorld r t) in
  let x := match firstThrow l with Some e => e | None => v end in
  trace w = (trace (entered r t) ++ [OBody; ORethrow x])%list /\
  completions w = [] /\
  errors w = [] /\
  finished w = false /\
  errorWasHandled w = true.
Proof.
  intros HP HU HF HL w x. subst w.
  rewrite (run_quiet_function r t src len l _ HP HF (or_intror HL)). cbv zeta.
  rewrite ended_throw. fold x.
  destruct (quiet_body_facts r t l) as (Q1 & Q2 & Q3 & Q4 & Q5 & Q6 & _).
  set (w1 := fst (syncActs l (bodyStart r t))) in *.
  destruct (evolves_fields _ _ Q6) as (_ & _ & F3 & _).
  cbn [allowUncaught with_callback] in F3.
  assert (E : (if asyncTruthy (async r) then caught x w1 else caught x w1) = caught x w1)
    by (destruct (asyncTruthy (async r)); reflexivity).
  rewrite E. clear E.
  unfold caught. cbn [self set_errorWasHandled]. rewrite F3, HU.
  assert (D : trace (emit (ORethrow x) (set_errorWasHandled true w1)) =
              (trace w1 ++ [ORethrow x])%list) by reflexivity.
  destruct (trace_extends w1 _ _ D) as [C E]. rewrite Q2 in C. rewrite Q3 in E.
  split; [rewrite D, Q1, <- app_assoc; reflexivity|].
  split; [exact C|]. split; [exact E|]. split; [exact Q4|reflexivity].
Qed.

Lemma resetTimeout_arms (r : Runnable) :
  _timeout r <> Num 0 -> timer (resetTimeout r) = Armed (_timeout r).
Proof.
  intros H. unfold resetTimeout, clearTimeout.
  apply strictEq_zero in H. rewrite H.
  destruct r; cbn. destruct timer0; reflexivity.
Qed.

(** X6: a function that calls [this.skip()] before it has called back, and
    in which no call of [timeout(ms)] has thrown, leaves the runnable pending
    and finished.  The completion callback is invoked
    exactly once: without an error, or with the timeout error when the time
    the function took exceeds a positive threshold.  Nothing is reported
    afterwards, whatever happens. *)
Theorem skip_completes_once_as_pending
    (r : Runnable) (t : Z) (src : string) (len : nat) (l : list action) :
  isPending r = false ->
  timedOut r = false ->
  fn r = FnFunction src len {| acts := l; fin := ESkip |} ->
  Forall notDone l ->
  firstThrow l = None ->
  let w := run (initWorld r t) in
  let T := _timeout (self w) in
  pending (self w) = true /\
  isPending (self w) = true /\
  finished w = true /\
  errorWasHandled w = true /\
  duration (self w) = Some (ticks l) /\
  completions w = [verdict (ticks l) T r] /\
  (exceeds (ticks l) T = false -> completions w = [VUndefined]) /\
  (exceeds (ticks l) T = true -> completions w = [_timeoutError T r]) /\
  errors w = [] /\
  forall es, trace (exec w es) = trace w.
Proof.
  intros HP HT HF HL HN w T.
  destruct (quiet_body_facts r t l) as (_ & Q2 & Q3 & Q4 & _ & Q6 & Q7 & _ & _ & Q10).
  specialize (Q10 HN).
  set (w1 := fst (syncActs l (bodyStart r t))) in *.
  destruct (evolves_fields _ _ Q6) as (QT & _ & _ & _ & _ & QF & _).
  cbn [timedOut file with_callback] in QT, QF. rewrite HT in QT.
  destruct (with_pending_fields true (self w1)) as (P1 & P2 & P3 & P4 & _).
  set (w2 := upd_self (with_pending true) w1).
  assert (G : forall w3, self w3 = self w2 -> trace w3 = trace w1 ->
                finished w3 = false -> now w3 = now w1 -> start w3 = start w1 ->
                let w4 := done VUndefined w3 in
                pending (self w4) = true /\ finished w4 = true /\
                errorWasHandled w4 = errorWasHandled w3 /\
                duration (self w4) = Some (ticks l) /\
                _timeout (self w4) = _timeout (self w1) /\
                completions w4 = [verdict (ticks l) (_timeout (self w1)) r] /\
                errors w4 = []).
  { intros w3 S3 T3 F3 N3 St3 w4.
    assert (TO : timedOut (self w3) = false)
      by (rewrite S3; subst w2; cbn [self upd_self set_self]; congruence).
    destruct (first_done_facts VUndefined w3 TO F3) as (C & E & F & H & Ev & _ & D & Th).
    destruct (completions_same_trace w1 w3 T3) as [C3 E3].
    destruct (evolves_fields _ _ Ev) as (_ & Pn & _).
    assert (S3' : self w3 = with_pending true (self w1)) by exact S3.
    subst w4.
    split; [rewrite Pn, S3'; exact P1|]. split; [exact F|]. split; [exact H|].
    assert (El : now w3 - start w3 = ticks l) by (rewrite N3, St3, Q10, Q7; lia).
    split; [rewrite D, El; reflexivity|].
    split; [rewrite Th, S3'; exact P3|].
    split; [|rewrite E, E3; exact Q3].
    rewrite C, C3, Q2, outcome_verdict, El, S3', P3. cbn [app]. f_equal.
    apply verdict_file. rewrite P4. exact QF. }
  assert (R : w = if asyncTruthy (async r)
                  then set_errorWasHandled true (done VUndefined w2)
                  else done VUndefined (set_errorWasHandled true w2)).
  { subst w. rewrite (run_quiet_function r t src len l _ HP HF (or_intror HL)). cbv zeta.
    rewrite HN. reflexivity. }
  assert (K : pending (self w) = true /\ finished w = true /\ errorWasHandled w = true /\
              duration (self w) = Some (ticks l) /\ _timeout (self w) = _timeout (self w1) /\
              completions w = [verdict (ticks l) (_timeout (self w1)) r] /\ errors w = []).
  { rewrite R. destruct (asyncTruthy (async r)).
    - destruct (G w2 eq_refl eq_refl Q4 eq_refl eq_refl) as (G1 & G2 & _ & G4 & G5 & G6 & G7).
      cbv zeta in *. repeat split; assumption.
    - destruct (G (set_errorWasHandled true w2) eq_refl eq_refl Q4 eq_refl eq_refl)
        as (G1 & G2 & G3 & G4 & G5 & G6 & G7).
      cbv zeta in *. repeat split; assumption. }
  destruct K as (K1 & K2 & K3 & K4 & K5 & K6 & K7).
  subst T. rewrite K5.
  split; [exact K1|]. split; [unfold isPending; rewrite K1; reflexivity|].
  split; [exact K2|]. split; [exact K3|]. split; [exact K4|]. split; [exact K6|].
  split; [intros Hx; rewrite K6; unfold verdict; rewrite Hx; reflexivity|].
  split; [intros Hx; rewrite K6; unfold verdict; rewrite Hx; reflexivity|].
  split; [exact K7|].
  intros es. apply sealed_exec. split; assumption.
Qed.

(** X7: a function without callback that returns a promise, and in which no
    call of [timeout(ms)] has thrown, is not completed by [run]; a timer with the current threshold is armed unless the
    threshold is zero.  A rejection then fails the runnable with the reason,
    or with a default error when the reason is falsy, and never passes it; a
    fulfilment completes it without error, or with the timeout error when
    the time since [run] started exceeds a positive threshold. *)
Theorem returned_thenable_is_awaited
    (r : Runnable) (t : Z) (src : string) (len : nat) (l : list action) :
  isPending r = false ->
  timedOut r = false ->
  asyncTruthy (async r) = false ->
  fn r = FnFunction src len {| acts := l; fin := EReturn promise |} ->
  firstThrow l = None ->
  let w := run (initWorld r t) in
  let T := _timeout (self w) in
  completions w = [] /\
  errors w = [] /\
  finished w = false /\
  (T <> Num 0 -> timer (self w) = Armed T) /\
  (forall reason,
     let x := if truthy reason then reason
              else newError "Promise rejected with no or falsy reason" in
     completions (step w (EvReject reason)) = [x] /\ truthy x = true) /\
  (forall dt,
     let w' := step (step w (EvTick dt)) EvResolve in
     completions w' = [verdict (ticks l + dt) T r] /\
     (exceeds (ticks l + dt) T = false -> completions w' = [VUndefined]) /\
     (exceeds (ticks l + dt) T = true -> completions w' = [_timeoutError T r])).
Proof.
  intros HP HT HA HF HN w T.
  destruct (quiet_body_facts r t l) as (_ & Q2 & Q3 & Q4 & _ & Q6 & Q7 & _ & _ & Q10).
  specialize (Q10 HN).
  set (w1 := fst (syncActs l (bodyStart r t))) in *.
  assert (R : w = set_thenRegistered true (upd_self resetTimeout w1)).
  { subst w. rewrite (run_quiet_function r t src len l _ HP HF (or_introl HA)). cbv zeta.
    rewrite HA, HN. reflexivity. }
  destruct (evolves_fields _ _ (evolves_trans _ _ _ Q6 (evolves_resetTimeout (self w1))))
    as (ET & _ & _ & _ & _ & EF & _).
  cbn [timedOut file with_callback] in ET, EF. rewrite HT in ET.
  assert (S1 : self w = resetTimeout (self w1)) by (rewrite R; reflexivity).
  assert (T1 : timedOut (self w) = false) by (rewrite S1; exact ET).
  assert (F1 : finished w = false) by (rewrite R; exact Q4).
  assert (C1 : completions w = []) by (rewrite R; exact Q2).
  assert (E1 : errors w = []) by (rewrite R; exact Q3).
  assert (TR : thenRegistered w = true) by (rewrite R; reflexivity).
  assert (N1 : now w = t + ticks l /\ start w = t) by (rewrite R; split; assumption).
  destruct N1 as [N1 St1].
  assert (FL : file (self w) = file r) by (rewrite S1; exact EF).
  split; [exact C1|]. split; [exact E1|]. split; [exact F1|]. split.
  { subst T. rewrite S1, resetTimeout_timeout. apply resetTimeout_arms. }
  split.
  - intros reason x.
    assert (Hx : truthy x = true).
    { subst x. destruct (truthy reason) eqn:E; [exact E|reflexivity]. }
    split; [|exact Hx].
    cbn [step settled]. rewrite TR. fold x.
    destruct (first_done_facts x w T1 F1) as (C & _).
    rewrite C, C1, outcome_truthy by exact Hx. reflexivity.
  - intros dt w'.
    assert (C' : completions w' = [verdict (ticks l + dt) T r]).
    { subst w'. cbn [step settled].
      change (thenRegistered (tick dt w)) with (thenRegistered w). rewrite TR.
      destruct (first_done_facts VUndefined (tick dt w) T1 F1) as (C & _).
      rewrite C. change (completions (tick dt w)) with (completions w). rewrite C1.
      rewrite outcome_verdict. cbn [app now start self tick set_now].
      rewrite N1, St1. replace (t + ticks l + dt - t) with (ticks l + dt) by lia.
      f_equal. apply verdict_file, FL. }
    split; [exact C'|].
    split; intros Hx; rewrite C'; unfold verdict; rewrite Hx; reflexivity.
Qed.

(** X28: a thenable whose [then] invokes a handler at once completes the
    runnable inside [run], when the function has no callback parameter and no
    call of [timeout(ms)] in it throws: with the verdict on the time the function took when the
    first handler invoked is the fulfilment handler, with the reason (or the
    default error) when it is the rejection handler.  Whatever the thenable
    does after that does not invoke the completion callback again. *)
Theorem thenable_that_settles_at_once_completes_inside_run
    (r : Runnable) (t : Z) (src : string) (len : nat) (l : list action)
    (s : settle) (sync : list settle) (raises : option value) :
  isPending r = false ->
  timedOut r = false ->
  asyncTruthy (async r) = false ->
  fn r = FnFunction src len {| acts := l; fin := EReturn (RThenable (s :: sync) raises) |} ->
  firstThrow l = None ->
  let w := run (initWorld r t) in
  let T := _timeout (self w) in
  finished w = true /\
  completions w =
    [match s with
     | Fulfil => verdict (ticks l) T r
     | Reject reason =>
         if truthy reason then reason
         else newError "Promise rejected with no or falsy reason"
     end].
Proof.
  intros HP HT HA HF HN w T.
  destruct (quiet_body_facts r t l) as (_ & Q2 & Q3 & Q4 & _ & Q6 & Q7 & _ & _ & Q10).
  specialize (Q10 HN).
  set (w1 := fst (syncActs l (bodyStart r t))) in *.
  set (w0 := set_thenRegistered true (upd_self resetTimeout w1)).
  set (wa := settled s w0).
  set (wb := fold_left (fun w s => settled s w) sync wa).
  assert (R : w = match raises with Some e => caught e wb | None => wb end).
  { subst w. rewrite (run_quiet_function r t src len l _ HP HF (or_introl HA)). cbv zeta.
    rewrite HA, HN. reflexivity. }
  destruct (evolves_fields _ _ (evolves_trans _ _ _ Q6 (evolves_resetTimeout (self w1))))
    as (ET & _ & _ & _ & _ & EF & _).
  cbn [timedOut file with_callback] in ET, EF. rewrite HT in ET.
  assert (T0 : timedOut (self w0) = false) by exact ET.
  assert (F0 : finished w0 = false) by exact Q4.
  assert (A : finished wa = true /\ timedOut (self wa) = false /\
              _timeout (self wa) = _timeout (self w1) /\
              completions wa =
                [match s with
                 | Fulfil => verdict (ticks l) (_timeout (self w1)) r
                 | Reject reason =>
                     if truthy reason then reason
                     else newError "Promise rejected with no or falsy reason"
                 end]).
  { subst wa. destruct s as [|reason]; cbn [settled].
    - destruct (first_done_facts VUndefined w0 T0 F0) as (C & _ & F & _ & Ev & _ & _ & Th).
      destruct (evolves_fields _ _ Ev) as (ET' & _).
      split; [exact F|]. split; [congruence|].
      split; [rewrite Th; apply resetTimeout_timeout|].
      rewrite C. change (completions w0) with (completions w1). rewrite Q2.
      rewrite outcome_verdict. cbn [app]. f_equal.
      change (now w0) with (now w1). change (start w0) with (start w1).
      rewrite Q10, Q7. replace (t + ticks l - t) with (ticks l) by lia.
      change (self w0) with (resetTimeout (self w1)). rewrite resetTimeout_timeout.
      apply verdict_file, EF.
    - set (x := if truthy reason then reason
                else newError "Promise rejected with no or falsy reason").
      assert (Hx : truthy x = true)
        by (subst x; destruct (truthy reason) eqn:E; [exact E|reflexivity]).
      destruct (first_done_facts x w0 T0 F0) as (C & _ & F & _ & Ev & _ & _ & Th).
      destruct (evolves_fields _ _ Ev) as (ET' & _).
      split; [exact F|]. split; [congruence|].
      split; [rewrite Th; apply resetTimeout_timeout|].
      rewrite C, outcome_truthy by exact Hx.
      change (completions w0) with (completions w1). rewrite Q2. reflexivity. }
  assert (B : forall ss wx, finished wx = true ->
              let wy := fold_left (fun w s => settled s w) ss wx in
              finished wy = true /\ completions wy = completions wx /\
              _timeout (self wy) = _timeout (self wx)).
  { induction ss as [|s' ss IH]; intros wx Hx; [repeat split; exact Hx|].
    cbn [fold_left]. cbv zeta.
    assert (Hs : finished (settled s' wx) = true /\
                 completions (settled s' wx) = completions wx /\
                 _timeout (self (settled s' wx)) = _timeout (self wx)).
    { destruct s'; cbn [settled];
        match goal with |- context [done ?v wx] =>
          destruct (done_after_finish v wx Hx) as (D1 & D2 & _)
        end; (split; [assumption|]); (split; [assumption|]); apply done_threshold. }
    destruct Hs as (S1 & S2 & S3).
    destruct (IH (settled s' wx) S1) as (I1 & I2 & I3). cbv zeta in *.
    split; [exact I1|]. split; congruence. }
  destruct A as (A1 & A2 & A3 & A4).
  destruct (B sync wa A1) as (B1 & B2 & B3). cbv zeta in *. fold wb in B1, B2, B3.
  assert (K : finished w = true /\ completions w = completions wb /\
              _timeout (self w) = _timeout (self wb)).
  { rewrite R. destruct raises as [e|]; [|auto].
    unfold caught. cbn [self set_errorWasHandled].
    destruct (allowUncaught (self wb)).
    - split; [exact B1|]. split; [|reflexivity].
      rewrite completions_emit, app_nil_r. reflexivity.
    - destruct (done_after_finish (toValueOrError e) (set_errorWasHandled true wb) B1)
        as (D1 & D2 & _).
      split; [exact D2|]. split; [exact D1|].
      apply (done_threshold (toValueOrError e) (set_errorWasHandled true wb)). }
  destruct K as (K1 & K2 & K3).
  split; [exact K1|]. subst T. rewrite K2, B2, A4, K3, B3, A3. reflexivity.
Qed.

(** X8: a function without callback that returns anything but a thenable,
    and in which no call of [timeout(ms)] has thrown, completes the runnable
    at once: with the async-only error when
    [asyncOnly] is set, and otherwise without error, or with the timeout error
    when the time the function took exceeds a positive threshold.  The
    returned value is not looked at, and nothing is awaited. *)
Theorem synchronous_return_completes_at_once
    (r : Runnable) (t : Z) (src : string) (len : nat) (l : list action) (x : value) :
  isPending r = false ->
  timedOut r = false ->
  asyncTruthy (async r) = false ->
  fn r = FnFunction src len {| acts := l; fin := EReturn (RPlain x) |} ->
  firstThrow l = None ->
  let w := run (initWorld r t) in
  let T := _timeout (self w) in
  (asyncOnly r = true ->
     completions w =
       [newError "--async-only option in use without declaring `done()` or returning a promise"]) /\
  (asyncOnly r = false ->
     completions w = [verdict (ticks l) T r] /\
     (exceeds (ticks l) T = false -> completions w = [VUndefined]) /\
     (exceeds (ticks l) T = true -> completions w = [_timeoutError T r])) /\
  duration (self w) = Some (ticks l) /\
  errors w = [] /\
  finished w = true /\
  thenRegistered w = false.
Proof.
  intros HP HT HA HF HN w T.
  destruct (quiet_body_facts r t l) as (_ & Q2 & Q3 & Q4 & _ & Q6 & Q7 & _ & Q9 & Q10).
  specialize (Q10 HN).
  set (w1 := fst (syncActs l (bodyStart r t))) in *.
  destruct (evolves_fields _ _ Q6) as (QT & _ & _ & QA & _ & QF & _).
  cbn [timedOut asyncOnly file with_callback] in QT, QA, QF. rewrite HT in QT.
  assert (R : w = if asyncOnly r
                  then done (newError
                    "--async-only option in use without declaring `done()` or returning a promise") w1
                  else done VUndefined w1).
  { subst w. rewrite (run_quiet_function r t src len l _ HP HF (or_introl HA)). cbv zeta.
    rewrite HA, HN. cbn [ended]. fold w1. rewrite QA. reflexivity. }
  assert (El : now w1 - start w1 = ticks l) by (rewrite Q10, Q7; lia).
  subst T. destruct (asyncOnly r) eqn:HO.
  - destruct (first_done_facts
                (newError "--async-only option in use without declaring `done()` or returning a promise")
                w1 QT Q4) as (C & E & F & _ & _ & TR & D & _).
    rewrite R. split.
    + intros _. rewrite C, Q2, outcome_truthy by reflexivity. reflexivity.
    + split; [discriminate|]. split; [rewrite D, El; reflexivity|].
      split; [congruence|]. split; [exact F|congruence].
  - destruct (first_done_facts VUndefined w1 QT Q4) as (C & E & F & _ & _ & TR & D & Th).
    rewrite R. split; [discriminate|].
    assert (C' : completions (done VUndefined w1) =
                 [verdict (ticks l) (_timeout (self (done VUndefined w1))) r]).
    { rewrite C, Q2, outcome_verdict, El, Th. cbn [app]. f_equal.
      apply verdict_file, QF. }
    split.
    + intros _. split; [exact C'|].
      split; intros Hx; rewrite C'; unfold verdict; rewrite Hx; reflexivity.
    + split; [rewrite D, El; reflexivity|].
      split; [congruence|]. split; [exact F|congruence].
Qed.

(** X9: a runnable whose [fn] is a truthy value without a [call] method
    fails with the dedicated [TypeError]; the value is never called and no
    timer is armed for it. *)
Theorem non_callable_function_fails
    (r : Runnable) (t : Z) (s : string) (len : option nat) :
  isPending r = false ->
  timedOut r = false ->
  fn r = FnNotCallable s len ->
  let w := run (initWorld r t) in
  completions w =
    [newTypeError "A runnable must be passed a function as its second argument."] /\
  errors w = [] /\
  ~ In OBody (trace w) /\
  (forall ms, timer (self w) = Armed ms -> False).
Proof.
  intros HP HT HF w.
  destruct (entered_facts r t) as (Hc & He & Hf & _ & Hs & _ & _ & _ & Hb).
  assert (R : w = done (newTypeError
                  "A runnable must be passed a function as its second argument.")
                  (entered r t)).
  { subst w. unfold run. cbn [self initWorld]. rewrite HP. fold (entered r t).
    rewrite Hs. cbn [fn with_callback]. rewrite HF. reflexivity. }
  assert (T1 : timedOut (self (entered r t)) = false) by (rewrite Hs; exact HT).
  destruct (first_done_facts
              (newTypeError "A runnable must be passed a function as its second argument.")
              (entered r t) T1 Hf) as (C & E & _).
  rewrite R. split; [rewrite C, Hc, outcome_truthy by reflexivity; reflexivity|].
  split; [congruence|]. split.
  - rewrite done_first_trace by assumption. intros Hin.
    apply in_app_or in Hin. destruct Hin as [Hin|[Hin|[]]]; [exact (Hb Hin)|].
    discriminate Hin.
  - intros ms. rewrite done_first by assumption.
    cbn [self emit set_trace set_finished upd_self set_self].
    unfold clearTimeout. destruct (self (entered r t)) as [? ? ? ? ? ? ? ? ? ? ? ? ? ? ? ? ? ? tm ? ? ? ? ?].
    cbn. destruct tm; cbn; discriminate.
Qed.

(** X29: a runnable without a function that is not pending, has not timed
    out and does not allow uncaught errors fails with the [TypeError] of the
    call [fn.call(ctx)], caught as if the function had
    thrown it: nothing is called, and nothing is reported afterwards. *)
Theorem missing_function_fails (r : Runnable) (t : Z) :
  isPending r = false ->
  timedOut r = false ->
  allowUncaught r = false ->
  fn r = FnAbsent ->
  let w := run (initWorld r t) in
  completions w = [callOfUndefined] /\
  isErrorLike callOfUndefined = true /\
  errors w = [] /\
  ~ In OBody (trace w) /\
  errorWasHandled w = true /\
  forall es, trace (exec w es) = trace w.
Proof.
  intros HP HT HU HF w.
  destruct (entered_facts r t) as (Hc & He & Hf & _ & Hs & _ & _ & _ & Hb).
  set (w0 := if asyncTruthy (async r) then upd_self resetTimeout (entered r t)
             else entered r t).
  assert (R : w = caught callOfUndefined w0).
  { subst w w0. unfold run. cbn [self initWorld]. rewrite HP. fold (entered r t).
    rewrite Hs. cbn [fn async with_callback]. rewrite HF.
    destruct (asyncTruthy (async r)); reflexivity. }
  assert (K : trace w0 = trace (entered r t) /\ finished w0 = false /\
              evolves (with_callback true r) (self w0)).
  { subst w0. destruct (asyncTruthy (async r)).
    - split; [reflexivity|]. split; [exact Hf|].
      cbn [self upd_self set_self]. rewrite Hs. apply evolves_resetTimeout.
    - split; [reflexivity|]. split; [exact Hf|]. rewrite Hs. apply evolves_refl. }
  destruct K as (K1 & K2 & K3).
  destruct (evolves_fields _ _ K3) as (F1 & _ & F3 & _).
  cbn [timedOut allowUncaught with_callback] in F1, F3.
  destruct (completions_same_trace _ _ K1) as [C0 E0].
  set (w2 := set_errorWasHandled true w0).
  assert (T2 : timedOut (self w2) = false) by (subst w2; cbn [self set_errorWasHandled]; congruence).
  destruct (first_done_facts (toValueOrError callOfUndefined) w2 T2 K2)
    as (C & E & F & H & _).
  assert (R' : w = done callOfUndefined w2).
  { rewrite R. unfold caught. cbn [self set_errorWasHandled]. rewrite F3, HU. reflexivity. }
  rewrite R'. change (toValueOrError callOfUndefined) with callOfUndefined in *.
  rewrite outcome_truthy in C by reflexivity.
  split; [rewrite C; change (completions w2) with (completions w0); rewrite C0, Hc; reflexivity|].
  split; [reflexivity|].
  split; [rewrite E; change (errors w2) with (errors w0); rewrite E0; exact He|].
  split.
  - rewrite done_first_trace by assumption. intros Hin.
    apply in_app_or in Hin. destruct Hin as [Hin|[Hin|[]]].
    + change (trace w2) with (trace w0) in Hin. rewrite K1 in Hin. exact (Hb Hin).
    + rewrite outcome_truthy in Hin by reflexivity. discriminate Hin.
  - split; [exact H|]. intros es. apply sealed_exec. split; [exact F|exact H].
Qed.

(** ** Timers *)

Lemma timerFires_armed (w : World) (ms : number) :
  timer (self w) = Armed ms ->
  _timeout (self w) <> Num 0 ->
  callback (self w) = true -> callbackIsDone w = true ->
  timerFires w =
    upd_self (with_timedOut true)
      (done (_timeoutError ms (self w)) (upd_self (with_timer Stale) w)).
Proof.
  intros Ha Hn Hc Hd. unfold timerFires. rewrite Ha.
  cbn [self upd_self set_self callbackIsDone].
  replace (_timeout (with_timer Stale (self w))) with (_timeout (self w))
    by (destruct (self w); reflexivity).
  replace (callback (with_timer Stale (self w))) with (callback (self w))
    by (destruct (self w); reflexivity).
  apply strictEq_zero in Hn. rewrite Hn.
  rewrite Hc, Hd. cbn [andb].
  rewrite (timeoutError_file ms (with_timer Stale (self w)) (self w))
    by (destruct (self w); reflexivity).
  reflexivity.
Qed.

(** [timeout(ms)] does not give a timer handle to a runnable that has none,
    and neither does the quiet part of a function. *)
Lemma timeout_untimed_stays (ms : msArg) (r : Runnable) :
  timer r = NoTimer -> timer (fst (timeout ms r)) = NoTimer.
Proof.
  intros H.
  destruct (timeout_cases ms r) as [[_ E]|[(e & _ & _ & E)|(v & _ & _ & E)]];
    rewrite E; cbn [fst]; try exact H.
  rewrite stores_eq. destruct r; cbn in *. rewrite H. reflexivity.
Qed.

Lemma syncActs_untimed (l : list action) (w : World) :
  timer (self w) = NoTimer -> timer (self (fst (syncActs l w))) = NoTimer.
Proof.
  unfold syncActs.
  apply (perform_keeps (fun w => timer (self w) = NoTimer) (fun _ => True));
    [|apply Forall_trivial].
  intros a w' _ H. destruct a as [dt|v|ms]; cbn [syncAct fst]; try exact H.
  cbn [self upd_self set_self]. apply timeout_untimed_stays, H.
Qed.

(** X10: an explicit-async function that returns without having called
    back, and in which no call of [timeout(ms)] has thrown, leaves the
    runnable waiting.  When the threshold was not zero at the
    start, a timer is armed at the current threshold unless that is zero,
    and when that timer fires the runnable fails with the timeout error for
    that threshold, once, and is marked as timed out.  When the threshold
    was zero at the start and the runnable held no timer handle, no timer
    exists, whatever thresholds the function has set: the runnable waits
    without a limit. *)
Theorem unanswered_callback_times_out
    (r : Runnable) (t : Z) (src : string) (len : nat) (l : list action) (res : retval) :
  isPending r = false ->
  timedOut r = false ->
  asyncTruthy (async r) = true ->
  fn r = FnFunction src len {| acts := l; fin := EReturn res |} ->
  Forall notDone l ->
  firstThrow l = None ->
  let w := run (initWorld r t) in
  let T := _timeout (self w) in
  completions w = [] /\
  finished w = false /\
  (_timeout r <> Num 0 -> T <> Num 0 ->
     timer (self w) = Armed T /\
     completions (step w EvTimer) = [_timeoutError T r] /\
     code (_timeoutError T r) = Some "ERR_MOCHA_TIMEOUT" /\
     errors (step w EvTimer) = [] /\
     timedOut (self (step w EvTimer)) = true) /\
  (_timeout r = Num 0 -> timer r = NoTimer ->
     timer (self w) = NoTimer /\ step w EvTimer = w).
Proof.
  intros HP HT HA HF HL HN w T.
  assert (R : w = set_result (Some res) (fst (syncActs l (bodyStart r t)))).
  { subst w. rewrite (run_quiet_function r t src len l _ HP HF (or_intror HL)). cbv zeta.
    rewrite HA, HN. reflexivity. }
  destruct (quiet_body_facts r t l) as (_ & Q2 & Q3 & Q4 & _ & Q6 & _ & Q8 & _).
  destruct (entered_facts r t) as (_ & _ & _ & _ & Hs & _).
  set (w1 := fst (syncActs l (bodyStart r t))) in *.
  destruct (evolves_fields _ _ Q6) as (QT & _ & _ & _ & QC & QF & _).
  cbn [timedOut callback file with_callback] in QT, QC, QF. rewrite HT in QT.
  subst T. rewrite R. cbn [self set_result].
  split; [exact Q2|]. split; [exact Q4|]. split.
  - intros H0 HTn.
    assert (L : timerLive (self w1)).
    { subst w1. apply syncActs_timerLive. unfold bodyStart. rewrite HA.
      cbn [self set_doneGiven emit set_trace upd_self set_self]. rewrite Hs.
      assert (Hn : _timeout (with_callback true r) <> Num 0) by exact H0.
      split.
      - rewrite (resetTimeout_arms _ Hn). discriminate.
      - intros _. rewrite resetTimeout_timeout. apply resetTimeout_arms, Hn. }
    destruct L as [_ La]. specialize (La HTn).
    split; [exact La|].
    assert (S : step (set_result (Some res) w1) EvTimer =
                upd_self (with_timedOut true)
                  (done (_timeoutError (_timeout (self w1)) (self w1))
                     (upd_self (with_timer Stale) (set_result (Some res) w1)))).
    { exact (timerFires_armed (set_result (Some res) w1) (_timeout (self w1)) La HTn QC Q8). }
    rewrite S.
    set (w2 := upd_self (with_timer Stale) (set_result (Some res) w1)).
    assert (T2 : timedOut (self w2) = false).
    { subst w2. cbn [self upd_self set_self set_result].
      destruct (self w1); exact QT. }
    assert (F2 : finished w2 = false) by exact Q4.
    destruct (first_done_facts (_timeoutError (_timeout (self w1)) (self w1)) w2 T2 F2)
      as (C & E & _).
    rewrite (timeoutError_file _ (self w1) r) in * by exact QF.
    split.
    { change (completions (upd_self ?f ?x)) with (completions x).
      rewrite C. change (completions w2) with (completions w1). rewrite Q2.
      rewrite outcome_truthy by reflexivity. reflexivity. }
    split; [reflexivity|]. split.
    { change (errors (upd_self ?f ?x)) with (errors x). rewrite E. exact Q3. }
    reflexivity.
  - intros H0 Htm.
    assert (N : timer (self w1) = NoTimer).
    { subst w1. apply syncActs_untimed. unfold bodyStart. rewrite HA.
      cbn [self set_doneGiven emit set_trace upd_self set_self]. rewrite Hs.
      unfold resetTimeout. cbn [_timeout with_callback]. rewrite H0. cbn [strictEq Z.eqb].
      destruct r; exact Htm. }
    split; [exact N|]. cbn [step]. unfold timerFires. cbn [self set_result].
    rewrite N. reflexivity.
Qed.

(** X11: disabling the timeout while a timer is armed does not cancel the
    timer, it makes it harmless: when it fires, the runnable is neither
    completed nor marked as timed out. *)
Theorem disabled_threshold_defuses_the_timer (w : World) (ms : number) (n : Z) :
  timer (self w) = Armed ms ->
  n <= 0 \/ INT_MAX <= n ->
  let w1 := step w (EvTimeout (MsNum (Num n))) in
  let w2 := step w1 EvTimer in
  _timeout (self w1) = Num 0 /\
  timer (self w1) = Armed ms /\
  trace w2 = trace w /\
  finished w2 = finished w /\
  timedOut (self w2) = timedOut (self w) /\
  timer (self w2) = Stale.
Proof.
  intros Ha Hn w1 w2.
  assert (TF : thresholdFor (Some (Num n)) = Num 0).
  { unfold thresholdFor. cbn [clamp fst snd].
    rewrite decide_True by (unfold INT_MAX in *; lia). reflexivity. }
  assert (S1 : self w1 = stores (Some (Num n)) (self w)).
  { subst w1. cbn [step self upd_self set_self].
    destruct (timeout_stores (MsNum (Num n)) (Some (Num n)) (self w)) as [E _];
      [discriminate|reflexivity|]. rewrite E. reflexivity. }
  assert (E1 : _timeout (self w1) = Num 0) by (rewrite S1, stores_timeout; exact TF).
  assert (T1 : timer (self w1) = Armed ms).
  { rewrite S1, stores_eq, TF. destruct (self w); cbn in *. rewrite Ha. reflexivity. }
  split; [exact E1|]. split; [exact T1|].
  assert (S : w2 = upd_self (with_timer Stale) w1).
  { subst w2. cbn [step]. unfold timerFires. rewrite T1.
    cbn [self upd_self set_self].
    replace (_timeout (with_timer Stale (self w1))) with (_timeout (self w1))
      by (destruct (self w1); reflexivity).
    rewrite E1. reflexivity. }
  rewrite S. split; [reflexivity|]. split; [reflexivity|]. split.
  - cbn [self upd_self set_self]. rewrite S1, stores_eq.
    destruct (self w); reflexivity.
  - cbn [self upd_self set_self]. destruct (self w1); reflexivity.
Qed.

(** X12: [timeout(ms)] on a runnable that has already completed re-arms a
    timer, because the handle of the cleared timer is still there.  When that
    timer fires the completion callback is not invoked again: the timeout
    error is reported as a multiple-done error, and the runnable is marked as
    timed out. *)
Theorem timeout_after_completion_reports_multiple_done (w : World) (n : Z) :
  finished w = true ->
  timedOut (self w) = false ->
  errorWasHandled w = false ->
  callback (self w) = true -> callbackIsDone w = true ->
  timer (self w) <> NoTimer ->
  0 < n < INT_MAX ->
  let w1 := step w (EvTimeout (MsNum (Num n))) in
  let w2 := step w1 EvTimer in
  timer (self w1) = Armed (Num n) /\
  completions w2 = completions w /\
  errors w2 =
    (errors w ++ [createMultipleDoneError (self w1) (_timeoutError (Num n) (self w1))])%list /\
  timedOut (self w2) = true.
Proof.
  intros HF HT HE HC HD HN Hn w1 w2.
  assert (TF : thresholdFor (Some (Num n)) = Num n).
  { apply thresholdFor_fixpoint. cbn [storable]. lia. }
  assert (S1 : self w1 = stores (Some (Num n)) (self w)).
  { subst w1. cbn [step self upd_self set_self].
    destruct (timeout_stores (MsNum (Num n)) (Some (Num n)) (self w)) as [E _];
      [discriminate|reflexivity|]. rewrite E. reflexivity. }
  assert (S : _timeout (self w1) = Num n) by (rewrite S1, stores_timeout; exact TF).
  assert (A : timer (self w1) = Armed (Num n)).
  { rewrite S1, stores_eq, TF. cbn [strictEq].
    destruct (Z.eqb_spec n 0); [lia|].
    destruct (self w) as [? ? ? ? ? ? ? ? ? ? ? ? ? ? ? ? ? ? tm ? ? ? ? ?]; cbn in *.
    destruct tm; [contradiction|reflexivity|reflexivity]. }
  assert (C1 : callback (self w1) = true /\ timedOut (self w1) = false).
  { rewrite S1, stores_eq. destruct (self w); split; assumption. }
  destruct C1 as [C1 T1].
  split; [exact A|].
  assert (R : w2 = upd_self (with_timedOut true)
                     (done (_timeoutError (Num n) (self w1)) (upd_self (with_timer Stale) w1))).
  { assert (Sn : _timeout (self w1) <> Num 0) by (rewrite S; intros [= E]; lia).
    exact (timerFires_armed w1 (Num n) A Sn C1 HD). }
  set (w1' := upd_self (with_timer Stale) w1) in *.
  assert (T1' : timedOut (self w1') = false).
  { subst w1'. cbn [self upd_self set_self]. destruct (self w1); exact T1. }
  assert (F1' : finished w1' = true) by exact HF.
  assert (D : done (_timeoutError (Num n) (self w1)) w1' =
              emit (OError (createMultipleDoneError (self w1') (_timeoutError (Num n) (self w1))))
                   (set_errorWasHandled true w1')).
  { rewrite done_again by assumption. unfold multiple.
    change (errorWasHandled w1') with (errorWasHandled w). rewrite HE. reflexivity. }
  assert (M : createMultipleDoneError (self w1') (_timeoutError (Num n) (self w1)) =
              createMultipleDoneError (self w1) (_timeoutError (Num n) (self w1))).
  { subst w1'. cbn [self upd_self set_self]. destruct (self w1); reflexivity. }
  rewrite R, D, M.
  split; [|split]; [| |reflexivity].
  - change (completions (upd_self ?f ?x)) with (completions x).
    rewrite completions_emit, app_nil_r. reflexivity.
  - change (errors (upd_self ?f ?x)) with (errors x).
    rewrite errors_emit. reflexivity.
Qed.

(** ** A completion value that cannot be converted to text *)

Lemma perform_app (act : action -> World -> World * option value)
    (l l' : list action) (w : World) :
  perform act (l ++ l') w =
    match perform act l w with
    | (w', Some e) => (w', Some e)
    | (w', None) => perform act l' w'
    end.
Proof.
  revert w. induction l as [|a l IH]; intros w; cbn [app perform]; [reflexivity|].
  destruct (act a w) as [w' [e|]]; [reflexivity|apply IH].
Qed.

Lemma userDone_raises (v x : value) (w : World) :
  isErrorLike v = false -> truthy v = true -> textOf v = Raises x ->
  userDone v w = (w, Some x).
Proof.
  intros H1 H2 H3. unfold userDone, textOf in *. rewrite H1, H2.
  destruct (isPlainObject v); rewrite H3; reflexivity.
Qed.

(** X30: the completion function builds the message of the non-error failure
    with [JSON.stringify(err)] or ['' + err] before it completes anything.  For a
    truthy value that is no error and whose conversion throws (an object
    with a cycle, a symbol), the completion function throws that exception
    into its caller and the runnable is not completed by the call.  When the
    call is made by the function itself, which does not catch it, [run]
    catches the exception: the runnable fails with it, once, and the rest of
    the function is not executed. *)
Theorem completion_with_unconvertible_value_throws
    (r : Runnable) (t : Z) (src : string) (len : nat)
    (l l' : list action) (e : ending) (v x : value) :
  isPending r = false ->
  timedOut r = false ->
  allowUncaught r = false ->
  asyncTruthy (async r) = true ->
  fn r = FnFunction src len {| acts := l ++ ADone v :: l'; fin := e |} ->
  Forall notDone l ->
  firstThrow l = None ->
  isErrorLike v = false -> truthy v = true -> textOf v = Raises x ->
  let w := run (initWorld r t) in
  (forall w0, userDone v w0 = (w0, Some x)) /\
  (forall w0, doneGiven w0 = true ->
     step w0 (EvDone v) = w0 /\ raised w0 (EvDone v) = Some x) /\
  completions w = [toValueOrError x] /\
  truthy (toValueOrError x) = true /\
  errors w = [] /\
  finished w = true /\
  errorWasHandled w = true /\
  forall es, trace (exec w es) = trace w.
Proof.
  intros HP HT HU HA HF HL HN V1 V2 V3 w.
  assert (U : forall w0, userDone v w0 = (w0, Some x))
    by (intros w0; apply userDone_raises; assumption).
  split; [exact U|].
  split; [intros w0 Hd; cbn [step raised]; rewrite Hd, U; split; reflexivity|].
  destruct (quiet_body_facts r t l) as (Q1 & Q2 & Q3 & Q4 & Q5 & Q6 & _).
  set (w1 := fst (syncActs l (bodyStart r t))) in *.
  assert (R : w = caught x w1).
  { subst w. rewrite (run_function r t src len _ HP HF), HA.
    unfold callFnAsync. cbn [acts fin]. cbv zeta.
    assert (B : set_doneGiven true (emit OBody (upd_self resetTimeout (entered r t))) =
                bodyStart r t) by (unfold bodyStart; rewrite HA; reflexivity).
    rewrite B.
    unfold asyncActs. rewrite perform_app.
    fold asyncActs. rewrite (asyncActs_without_done l _ HL).
    pose proof (syncActs_snd l (bodyStart r t)) as S. rewrite HN in S.
    destruct (syncActs l (bodyStart r t)) as [wq oq] eqn:Eq. cbn [snd] in S. subst oq.
    unfold asyncActs. cbn [perform asyncAct]. rewrite U. cbn [fst snd ended].
    subst w1. reflexivity. }
  destruct (evolves_fields _ _ Q6) as (F1 & _ & F3 & _).
  cbn [timedOut allowUncaught with_callback] in F1, F3.
  rewrite R. unfold caught. cbn [self set_errorWasHandled]. rewrite F3, HU.
  set (w2 := set_errorWasHandled true w1).
  assert (T2 : timedOut (self w2) = false) by (subst w2; cbn [self set_errorWasHandled]; congruence).
  assert (F2 : finished w2 = false) by exact Q4.
  destruct (first_done_facts (toValueOrError x) w2 T2 F2) as (C & E & F & H & _).
  rewrite outcome_truthy in C by apply toValueOrError_truthy.
  change (completions w2) with (completions w1) in C. rewrite Q2 in C.
  change (errors w2) with (errors w1) in E. rewrite Q3 in E.
  split; [exact C|]. split; [apply toValueOrError_truthy|].
  split; [exact E|]. split; [exact F|]. split; [exact H|].
  intros es. apply sealed_exec. split; [exact F|exact H].
Qed.

(** X26: an execution attempt keeps the threshold storable: a runnable that
    enters [run] with a threshold that is a number in [0, 2^31-1) or [NaN]
    has such a threshold after [run] and after every later event.  The
    threshold stays in the range [0, 2^31-1) when it was there and no call
    of [timeout(ms)], by the function or later, receives an argument that
    converts to [NaN] or [undefined]. *)
Theorem attempt_keeps_the_threshold_in_range (r : Runnable) (t : Z) (es : list event) :
  (thresholdOk r -> thresholdOk (self (attempt r t es))) /\
  (okFn clean (fn r) -> Forall (okEvent clean) es ->
   inRange (_timeout r) -> inRange (_timeout (self (attempt r t es)))).
Proof.
  split; [apply attempt_storable|apply attempt_inRange].
Qed.

(** ** The stats collector *)

Lemma collect_counts (c : Collector) (tev : Z * RunnerEvent) :
  let b (p : RunnerEvent -> bool) := if p (snd tev) then 1%nat else 0%nat in
  st_suites (stats (collect c tev)) = (st_suites (stats c) + b isSuiteBegin)%nat /\
  st_tests (stats (collect c tev)) = (st_tests (stats c) + b isTestEnd)%nat /\
  st_passes (stats (collect c tev)) = (st_passes (stats c) + b isTestPass)%nat /\
  st_pending (stats (collect c tev)) = (st_pending (stats c) + b isTestPending)%nat /\
  st_failures (stats (collect c tev)) = (st_failures (stats c) + b isTestFail)%nat.
Proof.
  destruct tev as [t e]. unfold collect. cbn [snd fst].
  destruct e as [|s| | | | | |]; cbn;
    try (destruct (onRunBegin c)); try (destruct (onRunEnd c));
    try (destruct (s_root s)); cbn; repeat split; lia.
Qed.

Lemma collectAll_counts (evs : list (Z * RunnerEvent)) (c : Collector) :
  st_suites (stats (collectAll evs c)) = (st_suites (stats c) + countEvents isSuiteBegin evs)%nat /\
  st_tests (stats (collectAll evs c)) = (st_tests (stats c) + countEvents isTestEnd evs)%nat /\
  st_passes (stats (collectAll evs c)) = (st_passes (stats c) + countEvents isTestPass evs)%nat /\
  st_pending (stats (collectAll evs c)) = (st_pending (stats c) + countEvents isTestPending evs)%nat /\
  st_failures (stats (collectAll evs c)) = (st_failures (stats c) + countEvents isTestFail evs)%nat.
Proof.
  revert c. induction evs as [|tev evs IH]; intros c.
  - unfold countEvents. cbn. repeat split; lia.
  - change (collectAll (tev :: evs) c) with (collectAll evs (collect c tev)).
    destruct (IH (collect c tev)) as (H1 & H2 & H3 & H4 & H5).
    destruct (collect_counts c tev) as (K1 & K2 & K3 & K4 & K5). cbv zeta in *.
    rewrite H1, H2, H3, H4, H5, K1, K2, K3, K4, K5.
    unfold countEvents. cbn [List.filter].
    destruct (isSuiteBegin (snd tev)), (isTestEnd (snd tev)), (isTestPass (snd tev)),
      (isTestPending (snd tev)), (isTestFail (snd tev)); cbn [length]; repeat split; lia.
Qed.

(** X13: whatever events the runner emits, the collector's counters are the
    numbers of the events of each kind: [passes], [failures] and [pending]
    count the pass, fail and pending events, [tests] counts the test-end
    events, and [suites] counts the suite-begin events of suites other than
    the root. *)
Theorem stats_count_the_events (evs : list (Z * RunnerEvent)) :
  let s := stats (collectAll evs createStatsCollector) in
  st_suites s = countEvents isSuiteBegin evs /\
  st_tests s = countEvents isTestEnd evs /\
  st_passes s = countEvents isTestPass evs /\
  st_pending s = countEvents isTestPending evs /\
  st_failures s = countEvents isTestFail evs.
Proof.
  cbv zeta.
  destruct (collectAll_counts evs createStatsCollector) as (H1 & H2 & H3 & H4 & H5).
  rewrite H1, H2, H3, H4, H5. cbn. repeat split; reflexivity.
Qed.

Lemma collectAll_app (a b : list (Z * RunnerEvent)) (c : Collector) :
  collectAll (a ++ b) c = collectAll b (collectAll a c).
Proof. unfold collectAll. apply fold_left_app. Qed.

(** Events other than the first run-begin and the first run-end leave the
    clock readings and the listeners alone. *)
Lemma collectAll_keeps_times (evs : list (Z * RunnerEvent)) (c : Collector) :
  (onRunBegin c = false \/ countEvents isRunBegin evs = 0%nat) ->
  (onRunEnd c = false \/ countEvents isRunEnd evs = 0%nat) ->
  st_start (stats (collectAll evs c)) = st_start (stats c) /\
  st_end (stats (collectAll evs c)) = st_end (stats c) /\
  st_duration (stats (collectAll evs c)) = st_duration (stats c) /\
  onRunBegin (collectAll evs c) = onRunBegin c /\
  onRunEnd (collectAll evs c) = onRunEnd c.
Proof.
  revert c. induction evs as [|[t e] evs IH]; intros c HB HE; [repeat split|].
  change (collectAll ((t, e) :: evs) c) with (collectAll evs (collect c (t, e))).
  assert (K : st_start (stats (collect c (t, e))) = st_start (stats c) /\
              st_end (stats (collect c (t, e))) = st_end (stats c) /\
              st_duration (stats (collect c (t, e))) = st_duration (stats c) /\
              onRunBegin (collect c (t, e)) = onRunBegin c /\
              onRunEnd (collect c (t, e)) = onRunEnd c).
  { unfold collect. cbn [snd fst].
    destruct e as [|s| | | | | |]; try (repeat split; fail).
    - destruct HB as [HB|HB]; [rewrite HB; repeat split; exact HB|].
      unfold countEvents in HB. simpl in HB. discriminate HB.
    - destruct (s_root s); repeat split.
    - destruct HE as [HE|HE]; [rewrite HE; repeat split; exact HE|].
      unfold countEvents in HE. simpl in HE. discriminate HE. }
  destruct K as (K1 & K2 & K3 & K4 & K5).
  destruct (IH (collect c (t, e))) as (H1 & H2 & H3 & H4 & H5).
  - rewrite K4. destruct HB as [HB|HB]; [left; exact HB|right].
    unfold countEvents in *. cbn [List.filter snd] in HB.
    destruct (isRunBegin e); [discriminate HB|exact HB].
  - rewrite K5. destruct HE as [HE|HE]; [left; exact HE|right].
    unfold countEvents in *. cbn [List.filter snd] in HE.
    destruct (isRunEnd e); [discriminate HE|exact HE].
  - repeat split; congruence.
Qed.

(** X14: the collector reads the clock at the first run-begin and at the
    first run-end only.  When the first run-begin comes at [t1] and the first
    run-end after it at [t2], then [start] is [t1], [end] is [t2] and
    [duration] is [t2 - t1], whatever other events surround them, further
    run-begin and run-end events included. *)
Theorem stats_duration_is_end_minus_start
    (pre mid post : list (Z * RunnerEvent)) (t1 t2 : Z) :
  countEvents isRunBegin pre = 0%nat ->
  countEvents isRunEnd pre = 0%nat ->
  countEvents isRunEnd mid = 0%nat ->
  let evs := (pre ++ (t1, EVENT_RUN_BEGIN) :: mid ++ (t2, EVENT_RUN_END) :: post)%list in
  let s := stats (collectAll evs createStatsCollector) in
  st_start s = Some t1 /\
  st_end s = Some t2 /\
  st_duration s = Some (Num (t2 - t1)).
Proof.
  intros HB HE HM evs s. subst s evs.
  rewrite collectAll_app.
  destruct (collectAll_keeps_times pre createStatsCollector (or_intror HB) (or_intror HE))
    as (P1 & P2 & P3 & P4 & P5).
  set (c0 := collectAll pre createStatsCollector) in *.
  change (collectAll ((t1, EVENT_RUN_BEGIN) :: mid ++ (t2, EVENT_RUN_END) :: post) c0)
    with (collectAll (mid ++ (t2, EVENT_RUN_END) :: post) (collect c0 (t1, EVENT_RUN_BEGIN))).
  set (c1 := collect c0 (t1, EVENT_RUN_BEGIN)).
  assert (C1 : st_start (stats c1) = Some t1 /\ onRunBegin c1 = false /\
               onRunEnd c1 = true /\ st_end (stats c1) = None).
  { subst c1. unfold collect. cbn [snd fst]. rewrite P4. cbn.
    repeat split; [exact P5|exact P2]. }
  destruct C1 as (S1 & B1 & E1 & N1).
  rewrite collectAll_app.
  destruct (collectAll_keeps_times mid c1 (or_introl B1) (or_intror HM))
    as (M1 & M2 & M3 & M4 & M5).
  set (c2 := collectAll mid c1) in *.
  change (collectAll ((t2, EVENT_RUN_END) :: post) c2)
    with (collectAll post (collect c2 (t2, EVENT_RUN_END))).
  set (c3 := collect c2 (t2, EVENT_RUN_END)).
  assert (C3 : st_start (stats c3) = Some t1 /\ st_end (stats c3) = Some t2 /\
               st_duration (stats c3) = Some (Num (t2 - t1)) /\
               onRunBegin c3 = false /\ onRunEnd c3 = false).
  { subst c3. unfold collect. cbn [snd fst]. rewrite M5, E1. cbn.
    rewrite M1, S1. repeat split. congruence. }
  destruct C3 as (S3 & E3 & D3 & B3 & R3).
  destruct (collectAll_keeps_times post c3 (or_introl B3) (or_introl R3))
    as (F1 & F2 & F3 & _).
  repeat split; congruence.
Qed.

(** ** Errors and warnings *)


Lemma deprecate_cases (msg : string) (s : Warnings) :
  (deprecate msg s = s /\
   (msg = "" \/ inherited msg = true \/ msg ∈ cache s)) \/
  (msg <> "" /\ inherited msg = false /\ (msg ∉ cache s) /\
   cache (deprecate msg s) = ({[ msg ]} ∪ cache s) /\
   emitted (deprecate msg s) = (emitted s ++ [("DeprecationWarning", msg)])%list).
Proof.
  unfold deprecate.
  destruct (String.eqb_spec msg "") as [->|Hne]; cbn [negb andb].
  { left. split; [reflexivity|left; reflexivity]. }
  destruct (inherited msg) eqn:Hi; cbn [orb negb].
  { left. split; [reflexivity|right; left; reflexivity]. }
  destruct (bool_decide (msg ∈ cache s)) eqn:Hc; cbn [negb].
  { left. split; [reflexivity|right; right]. apply bool_decide_eq_true in Hc. exact Hc. }
  right. apply bool_decide_eq_false in Hc. repeat split; assumption.
Qed.

(** What [deprecate] keeps: a deprecation warning was emitted exactly for
    the own keys of the cache, each once. *)
Lemma deprecate_invariant (msgs : list string) (s : Warnings) :
  NoDup (emitted s) ->
  (forall m, ("DeprecationWarning", m) ∈ emitted s <-> m ∈ cache s) ->
  let s' := fold_left (fun s m => deprecate m s) msgs s in
  NoDup (emitted s') /\
  (forall m, ("DeprecationWarning", m) ∈ emitted s' <-> m ∈ cache s') /\
  (forall m, m ∈ cache s' <->
     m ∈ cache s \/ (m ∈ msgs /\ m <> "" /\ inherited m = false)) /\
  (forall x, x ∈ emitted s' -> x ∈ emitted s \/ fst x = "DeprecationWarning").
Proof.
  revert s. induction msgs as [|a msgs IH]; intros s Hnd Hc; cbn zeta.
  - cbn [fold_left]. split; [exact Hnd|]. split; [exact Hc|]. split.
    + intros m. split; [auto|]. intros [H|[H _]]; [exact H|]. inversion H.
    + auto.
  - cbn [fold_left].
    destruct (deprecate_cases a s) as [[E Hwhy]|(Hne & Hi & Hn & Ec & Ee)].
    + rewrite E. destruct (IH s Hnd Hc) as (I1 & I2 & I3 & I4).
      split; [exact I1|]. split; [exact I2|]. split; [|exact I4].
      intros m. rewrite I3. split.
      * intros [H|(H & H1 & H2)]; [left; exact H|right].
        split; [right; exact H|auto].
      * intros [H|(H & H1 & H2)]; [left; exact H|].
        apply elem_of_cons in H. destruct H as [->|H]; [|right; auto].
        destruct Hwhy as [->|[Hw|Hw]]; [contradiction|congruence|left; exact Hw].
    + assert (Hnd' : NoDup (emitted (deprecate a s))).
      { rewrite Ee. apply NoDup_app. split; [exact Hnd|]. split.
        - intros x Hx Hx'. apply list_elem_of_singleton in Hx'. subst x.
          apply Hc in Hx. contradiction.
        - apply NoDup_singleton. }
      assert (Hc' : forall m, ("DeprecationWarning", m) ∈ emitted (deprecate a s)
                              <-> m ∈ cache (deprecate a s)).
      { intros m. rewrite Ee, Ec, elem_of_app, list_elem_of_singleton, Hc.
        rewrite elem_of_union, elem_of_singleton. split.
        - intros [H|H]; [right; exact H|left; congruence].
        - intros [H|H]; [right; congruence|left; exact H]. }
      destruct (IH (deprecate a s) Hnd' Hc') as (I1 & I2 & I3 & I4).
      split; [exact I1|]. split; [exact I2|]. split.
      * intros m. rewrite I3, Ec, elem_of_union, elem_of_singleton. split.
        -- intros [[->|H]|(H & H1 & H2)].
           ++ right. split; [left|auto].
           ++ left. exact H.
           ++ right. split; [right; exact H|auto].
        -- intros [H|(H & H1 & H2)]; [left; right; exact H|].
           apply elem_of_cons in H. destruct H as [->|H]; [left; left; reflexivity|].
           right. auto.
      * intros x Hx. destruct (I4 x Hx) as [H|H]; [|right; exact H].
        rewrite Ee in H. apply elem_of_app in H. destruct H as [H|H]; [left; exact H|].
        apply list_elem_of_singleton in H. subst x. right. reflexivity.
Qed.

(** X16: over any sequence of calls, [deprecate] shows each distinct message
    once: the warnings emitted are pairwise distinct deprecation warnings,
    one for every message of the sequence that is not empty and not a key
    that the cache object inherits, and for no other message. *)
Theorem deprecate_shows_each_message_once (msgs : list string) :
  let s := fold_left (fun s m => deprecate m s) msgs noWarnings in
  NoDup (emitted s) /\
  (forall x, x ∈ emitted s -> fst x = "DeprecationWarning") /\
  (forall m, ("DeprecationWarning", m) ∈ emitted s <->
     m ∈ msgs /\ m <> "" /\ inherited m = false).
Proof.
  cbv zeta.
  destruct (deprecate_invariant msgs noWarnings) as (I1 & I2 & I3 & I4).
  - apply NoDup_nil. constructor.
  - intros m. cbn. split; intros H; [inversion H|]. apply elem_of_empty in H. contradiction.
  - cbv zeta in *. split; [exact I1|]. split.
    + intros x Hx. destruct (I4 x Hx) as [H|H]; [inversion H|exact H].
    + intros m. rewrite I2, I3. split.
      * intros [H|H]; [apply elem_of_empty in H; contradiction|exact H].
      * intros H. right. exact H.
Qed.

(** ** The suite DSL: the stack of suites *)

(** X17: when [create] throws for a suite without callback (the
    missing-callback error, or the rejection of a forbidden pending suite),
    the suite it had pushed stays on top of the stack: the failure path does
    not pop. *)
Theorem failed_create_leaves_the_suite_on_the_stack
    (m : MochaOptions) (newid : string) (opts : CommonOptions) (d : Dsl)
    (top : Suite) (rest : list Suite) (v : value) :
  suites d = top :: rest ->
  o_fn opts = SfUndefined ->
  fst (create m newid opts d) = Thrown v ->
  let suite := MkSuite (o_title opts) (toBoolean (o_pending opts)) false newid
                 (o_file opts) (Parent top) in
  suites (snd (create m newid opts d)) = suite :: top :: rest /\
  (toBoolean (o_pending opts) = false \/
   (forbidPending m = true /\ shouldBeTested m suite = true)).
Proof.
  intros Hs Hf. unfold create. rewrite Hs, Hf.
  unfold Suite_create. cbn [s_title s_root s_id s_parent s_pending].
  set (suite := MkSuite (o_title opts) (toBoolean (o_pending opts)) false newid
                  (o_file opts) (Parent top)).
  destruct (toBoolean (o_pending opts)) eqn:Hp; subst suite; cbn [andb negb s_pending].
  - destruct (forbidPending m) eqn:Hfp; cbn [andb].
    + destruct (shouldBeTested m _) eqn:Hsb.
      * intros _. split; [|right; split; reflexivity].
        destruct (toBoolean (o_isOnly opts)); reflexivity.
      * destruct (toBoolean (o_isOnly opts)); cbn [fst]; discriminate.
    + destruct (toBoolean (o_isOnly opts)); cbn [fst]; discriminate.
  - intros _. split; [|left; reflexivity].
    destruct (toBoolean (o_isOnly opts)); reflexivity.
Qed.

(** X18: [create] with a callback first rejects a forbidden pending suite
    (pending, with [forbidPending] set, and selected by grep): it throws the
    unsupported error and the callback is not run.  Otherwise it runs the
    callback with the new suite on top of the stack.  When the callback
    returns, [create] pops one suite and returns the new one, so a callback
    that leaves the stack as it found it gives the original stack back; when
    the callback throws, the exception leaves [create] and nothing is
    popped. *)
Theorem create_runs_the_callback_inside_the_suite
    (m : MochaOptions) (newid : string) (opts : CommonOptions) (d : Dsl)
    (top : Suite) (rest : list Suite) (f : Dsl -> Dsl * option value) :
  suites d = top :: rest ->
  o_fn opts = SfFunction f ->
  let suite := MkSuite (o_title opts) (toBoolean (o_pending opts)) false newid
                 (o_file opts) (Parent top) in
  let inside := {| suites := suite :: top :: rest;
                   onlySuites := if toBoolean (o_isOnly opts)
                                 then (onlySuites d ++ [newid])%list
                                 else onlySuites d |} in
  if s_pending suite && forbidPending m && shouldBeTested m suite
  then create m newid opts d =
         (Thrown (createUnsupportedError "Pending test forbidden"), inside) /\
       code (createUnsupportedError "Pending test forbidden") = Some "ERR_MOCHA_UNSUPPORTED"
  else match f inside with
       | (d', None) =>
           create m newid opts d =
             (Returned suite, {| suites := tail (suites d'); onlySuites := onlySuites d' |}) /\
           (suites d' = suites inside ->
            suites (snd (create m newid opts d)) = suites d)
       | (d', Some v) => create m newid opts d = (Thrown v, d')
       end.
Proof.
  intros Hs Hf suite inside.
  assert (R : create m newid opts d =
              if s_pending suite && forbidPending m && shouldBeTested m suite
              then (Thrown (createUnsupportedError "Pending test forbidden"), inside)
              else match f inside with
                   | (d', Some v) => (Thrown v, d')
                   | (d', None) =>
                       (Returned suite,
                        {| suites := tail (suites d'); onlySuites := onlySuites d' |})
                   end).
  { unfold create. rewrite Hs, Hf.
    unfold Suite_create. cbn [s_title s_root s_id s_parent].
    fold suite. subst inside.
    destruct (toBoolean (o_isOnly opts)); cbn [suites onlySuites s_id]; reflexivity. }
  rewrite R. destruct (s_pending suite && forbidPending m && shouldBeTested m suite).
  - split; reflexivity.
  - destruct (f inside) as [d' [v|]]; [reflexivity|].
    split; [reflexivity|].
    intros Hd'. cbn [snd suites]. rewrite Hd', Hs. reflexivity.
Qed.

Lemma create_marks_only
    (m : MochaOptions) (newid : string) (opts : CommonOptions) (d : Dsl)
    (top : Suite) (rest : list Suite) :
  suites d = top :: rest ->
  toBoolean (o_isOnly opts) = true ->
  (forall f, o_fn opts <> SfFunction f) ->
  onlySuites (snd (create m newid opts d)) = (onlySuites d ++ [newid])%list.
Proof.
  intros Hs Ho Hf. unfold create. rewrite Hs, Ho.
  unfold Suite_create. cbn [s_title s_root s_id s_parent s_pending suites onlySuites].
  destruct (_ && _ && _); [reflexivity|].
  destruct (o_fn opts) as [| |f]; [| |exfalso; exact (Hf f eq_refl)].
  - destruct (negb _); reflexivity.
  - destruct (toBoolean (o_pending opts)); reflexivity.
Qed.

(** X19: [suite.only] under [forbidOnly] throws the forbidden-exclusivity
    error and creates nothing: the stack and the marks are as before.
    Otherwise, for a suite without callback, the new suite is marked
    exclusive whatever [create] does afterwards, a throw included. *)
Theorem only_is_forbidden_or_marks_the_suite
    (m : MochaOptions) (isWorker : bool) (newid : string) (opts : CommonOptions)
    (d : Dsl) (top : Suite) (rest : list Suite) :
  suites d = top :: rest ->
  (forall f, o_fn opts <> SfFunction f) ->
  (forbidOnly m = true ->
     only m isWorker newid opts d =
       (Thrown (createForbiddenExclusivityError isWorker), d) /\
     code (createForbiddenExclusivityError isWorker) =
       Some "ERR_MOCHA_FORBIDDEN_EXCLUSIVITY") /\
  (forbidOnly m = false ->
     onlySuites (snd (only m isWorker newid opts d)) = (onlySuites d ++ [newid])%list).
Proof.
  intros Hs Hf. split; intros Ho; unfold only; rewrite Ho.
  - split; reflexivity.
  - apply (create_marks_only m newid _ d top rest Hs); [reflexivity|exact Hf].
Qed.

(** X20: a test declared inside a pending suite is created without its
    function: it is pending by its own flag, has no body text, and running it
    only reports completion; the function that was passed is never called.
    Outside a pending suite the function is kept, and the test is pending
    exactly when no function was passed. *)
Theorem test_declared_in_pending_suite_has_no_function
    (newid title_ file_ : string) (f : Fn) (d : Dsl) (top : Suite) (rest : list Suite) :
  suites d = top :: rest ->
  exists t,
    declareTest newid title_ f file_ d = Some t /\
    file (t_base t) = Some file_ /\
    title (t_base t) = title_ /\
    (suite_isPending top = true ->
       fn (t_base t) = FnAbsent /\ pending (t_base t) = true /\
       body (t_base t) = "" /\
       forall t0 es, trace (attempt (t_base t) t0 es) = [OCompletion VUndefined]) /\
    (suite_isPending top = false ->
       fn (t_base t) = f /\ pending (t_base t) = fnFalsy f).
Proof.
  intros Hs. unfold declareTest. rewrite Hs.
  eexists. split; [reflexivity|].
  destruct (suite_isPending top); cbn.
  - repeat split; try discriminate.
    intros t0 es. unfold attempt. rewrite exec_closed; [reflexivity|].
    repeat split; reflexivity.
  - repeat split; try discriminate; destruct f; reflexivity.
Qed.

(** ** Titles, states and resets *)

Lemma join_sp_snoc (l : list string) (x : string) :
  join_sp (l ++ [x]) =
    match l with [] => x | _ => join_sp l +:+ " " +:+ x end.
Proof.
  induction l as [|a l IH]; [reflexivity|].
  destruct l as [|b l].
  - reflexivity.
  - change (join_sp ((a :: b :: l) ++ [x]))
      with (a +:+ " " +:+ join_sp ((b :: l) ++ [x])).
    rewrite IH.
    change (join_sp (a :: b :: l)) with (a +:+ " " +:+ join_sp (b :: l)).
    rewrite !append_assoc. reflexivity.
Qed.

(** X21: the title path of a runnable is the title path of its parent
    followed by its own title, so it is never empty and ends with the title;
    the full title is the title alone when there is no parent or the parent
    contributes no title, and otherwise the parent's path joined by spaces, a
    space, and the title. *)
Theorem fullTitle_extends_the_parent_path (r : Runnable) :
  let path := match parent r with Some p => suite_titlePath p | None => [] end in
  titlePath r = (path ++ [title r])%list /\
  last (titlePath r) = Some (title r) /\
  length (titlePath r) = S (length path) /\
  fullTitle r = match path with
                | [] => title r
                | _ => join_sp path +:+ " " +:+ title r
                end.
Proof.
  cbv zeta. unfold fullTitle, titlePath.
  set (path := match parent r with Some p => suite_titlePath p | None => [] end).
  split; [reflexivity|]. split; [apply last_snoc|].
  split; [rewrite length_app; cbn; lia|apply join_sp_snoc].
Qed.

(** X22: a runnable is never both failed and passed, and a pending runnable
    is neither, whatever its [state] field holds. *)
Theorem failed_and_passed_exclude_each_other (r : Runnable) :
  (isFailed r && isPassed r = false) /\
  (isPending r = true -> isFailed r = false /\ isPassed r = false) /\
  (isFailed r = true -> state r = Some STATE_FAILED /\ isPending r = false) /\
  (isPassed r = true -> state r = Some STATE_PASSED /\ isPending r = false).
Proof.
  unfold isFailed, isPassed.
  destruct (isPending r); destruct (state r) as [[| |]|]; cbn;
    repeat split; try discriminate; reflexivity.
Qed.

(** X23: [Test.prototype.reset] brings a test back to its state at
    declaration: not timed out, retry counter 0, no state and no error, and
    pending exactly when it has no function, so a test that was skipped
    while it ran is runnable again.  Thresholds, retry budget, parent and
    the retried-from reference are kept, and resetting twice is resetting
    once. *)
Theorem test_reset_restores_the_declared_state (t : Test) :
  let t' := test_reset t in
  pending (t_base t') = fnFalsy (fn (t_base t)) /\
  timedOut (t_base t') = false /\
  _currentRetry (t_base t') = 0 /\
  state (t_base t') = None /\
  err (t_base t') = None /\
  _timeout (t_base t') = _timeout (t_base t) /\
  _slow (t_base t') = _slow (t_base t) /\
  _retries (t_base t') = _retries (t_base t) /\
  parent (t_base t') = parent (t_base t) /\
  fn (t_base t') = fn (t_base t) /\
  _retriedTest t' = _retriedTest t /\
  test_reset t' = t'.
Proof.
  destruct t as [[] ? ?]. vm_compute.
  do 11 (split; [reflexivity|]). reflexivity.
Qed.

(** ** Cloning, again *)

(** X24: every retry points to the first attempt.  Cloning a clone yields a
    test whose retried-from reference is the one of the first clone: the
    original test, or the test the original was itself retried from.  The
    three tests are distinct objects, and the original is left as it was. *)
Theorem clones_point_to_the_first_attempt
    (id1 id2 : string) (this : loc) (h : gmap loc Test) (t : Test) :
  h !! this = Some t ->
  let root := match _retriedTest t with Some l0 => l0 | None => this end in
  exists h1 l1 h2 l2 c1 c2,
    clone id1 this h = Some (h1, l1) /\
    clone id2 l1 h1 = Some (h2, l2) /\
    h2 !! this = Some t /\ h2 !! l1 = Some c1 /\ h2 !! l2 = Some c2 /\
    _retriedTest c1 = Some root /\
    _retriedTest c2 = Some root /\
    l1 <> this /\ l2 <> this /\ l2 <> l1.
Proof.
  intros Hl root.
  destruct (clone_result id1 this h t Hl) as (c1 & E1 & R1 & _ & _ & _ & _ & _ & F1 & N1).
  set (l1 := fresh (dom h)) in *. set (h1 := <[l1 := c1]> h) in *.
  assert (H1 : h1 !! l1 = Some c1) by apply lookup_insert_eq.
  destruct (clone_result id2 l1 h1 c1 H1) as (c2 & E2 & R2 & _ & _ & _ & _ & _ & F2 & N2).
  set (l2 := fresh (dom h1)) in *. set (h2 := <[l2 := c2]> h1) in *.
  assert (N3 : l2 <> this).
  { intros E. rewrite E in F2. subst h1.
    rewrite lookup_insert_ne in F2 by exact N1. congruence. }
  exists h1, l1, h2, l2, c1, c2.
  split; [exact E1|]. split; [exact E2|].
  split.
  { subst h2 h1. rewrite lookup_insert_ne by exact N3.
    rewrite lookup_insert_ne by exact N1. exact Hl. }
  split; [subst h2; rewrite lookup_insert_ne by exact N2; exact H1|].
  split; [apply lookup_insert_eq|].
  split; [exact R1|]. split; [rewrite R2, R1; reflexivity|].
  repeat split; assumption.
Qed.

(** X25: what [clone] does not copy: the clone is pending exactly when it
    has no function, whatever the original's flag (a runtime skip is not
    inherited), and its [allowUncaught], [asyncOnly] and [speed] are those of
    a newly constructed test. *)
Theorem clone_does_not_copy_run_flags
    (newid : string) (this : loc) (h : gmap loc Test) (t : Test) :
  h !! this = Some t ->
  exists h' l c,
    clone newid this h = Some (h', l) /\
    h' !! l = Some c /\
    pending (t_base c) = fnFalsy (fn (t_base t)) /\
    allowUncaught (t_base c) = false /\
    asyncOnly (t_base c) = false /\
    speed c = None.
Proof.
  intros Hl.
  destruct (clone_result newid this h t Hl) as (c & E & _ & _ & P & A & O & S & _).
  exists (<[fresh (dom h) := c]> h), (fresh (dom h)), c.
  split; [exact E|]. split; [apply lookup_insert_eq|]. auto.
Qed.

End Mocha.

(** ** The theorems at concrete runnables *)

(** C1, as stated, fails: the function of [throwingTest] throws after handing
    [done] to a timer; [run] completes with the thrown error, the runnable has
    not timed out, and the second [done] that the timer delivers is dropped
    without any multiple-done error. *)
Lemma second_done_after_throw_is_silent :
  let w := thrownWorld parseMs formatText in
  completions w = [newError "boom"] /\
  finished w = true /\
  timedOut (self w) = false /\
  doneGiven w = true /\
  errors (step parseMs formatText w (EvDone VUndefined)) = [] /\
  step parseMs formatText w (EvDone VUndefined) = w.
Proof. vm_compute. repeat split. Qed.

Lemma second_done_is_reported_once_witness :
  let w := finishedWorld parseMs formatText in
  finished w = true /\ timedOut (self w) = false /\ errorWasHandled w = false /\
  trace (done formatText (VStr "late") w) =
    (trace w ++ [OError (createMultipleDoneError formatText (self w) (VStr "late"))])%list.
Proof.
  cbv zeta.
  assert (H1 : finished (finishedWorld parseMs formatText) = true)
    by (vm_compute; reflexivity).
  assert (H2 : timedOut (self (finishedWorld parseMs formatText)) = false)
    by (vm_compute; reflexivity).
  assert (H3 : errorWasHandled (finishedWorld parseMs formatText) = false)
    by (vm_compute; reflexivity).
  split; [exact H1|]. split; [exact H2|]. split; [exact H3|].
  pose proof (second_done_is_reported_once parseMs formatText silentTest 0
                [EvDone VUndefined] (VStr "late")
                (finishedWorld parseMs formatText)) as (_ & _ & H).
  destruct (H H1 H2) as (_ & H' & _).
  destruct (H' H3) as (Ht & _). exact Ht.
Defined.

(** C2, as stated, fails: the 50 ms timer of [silentTest] fires and fails the
    test with the timeout error; the completion that arrives afterwards
    leaves no trace at all, and no multiple-done error in particular. *)
Lemma completion_after_timeout_is_not_reported :
  let w := timedOutWorld parseMs formatText in
  timedOut (self w) = true /\
  completions w = [_timeoutError (Num 50) silentTest] /\
  errors (step parseMs formatText w (EvDone VUndefined)) = [] /\
  trace (step parseMs formatText w (EvDone VUndefined)) = trace w.
Proof. vm_compute. repeat split. Qed.

Lemma completion_after_timeout_is_dropped_witness :
  let w := timedOutWorld parseMs formatText in
  timedOut (self w) = true /\ step parseMs formatText w (EvDone VUndefined) = w.
Proof.
  cbv zeta.
  assert (H : timedOut (self (timedOutWorld parseMs formatText)) = true)
    by (vm_compute; reflexivity).
  split; [exact H|].
  destruct (completion_after_timeout_is_dropped parseMs formatText VUndefined
              (timedOutWorld parseMs formatText) H) as (_ & Hstep & _).
  exact Hstep.
Defined.

(** C3 at [timeout('abc')]: the [ms] package makes nothing of the string,
    and the threshold that is stored is [NaN]: not a value of the range
    [0, 2^31-1], and not the zero that disables timeouts. *)
Lemma timeout_of_unparsable_argument_stores_NaN_witness :
  MsStr "abc" <> MsUndefined /\
  toMs parseMs (MsStr "abc") = ConvValue None /\
  snd (timeout parseMs (MsStr "abc") silentTest) = This /\
  _timeout (fst (timeout parseMs (MsStr "abc") silentTest)) = NaN /\
  ~ inRange (_timeout (fst (timeout parseMs (MsStr "abc") silentTest))) /\
  _timeout (fst (timeout parseMs (MsStr "abc") silentTest)) <> Num 0.
Proof.
  assert (H1 : MsStr "abc" <> MsUndefined) by discriminate.
  assert (H2 : toMs parseMs (MsStr "abc") = ConvValue None) by reflexivity.
  split; [exact H1|]. split; [exact H2|].
  destruct (timeout_of_unparsable_argument_stores_NaN parseMs (MsStr "abc") silentTest
              H1 (or_introl H2)) as (A & B & C & D & _).
  split; [exact A|]. split; [exact B|]. split; [exact C|exact D].
Defined.

(** The same from end to end: the function of [unparsableTimeoutTest] calls
    [this.timeout('abc')] and returns; the timer that [run] had armed is
    armed again with [NaN], and when it fires the test fails with the timeout
    error for [NaN] milliseconds.  The empty string and [NaN] itself: the
    [ms] package throws on the former, and the latter is stored as it is. *)
Lemma unparsable_timeout_fails_the_test :
  let w := unparsableTimeoutWorld parseMs formatText in
  _timeout (self w) = NaN /\
  timer (self w) = Armed NaN /\
  completions w = [] /\
  completions (step parseMs formatText w EvTimer) = [_timeoutError NaN unparsableTimeoutTest] /\
  info (_timeoutError NaN unparsableTimeoutTest) = InfoTimeout NaN "test/math.spec.js" /\
  (exists e, timeout parseMs (MsStr EmptyString) silentTest = (silentTest, Throws e)) /\
  _timeout (fst (timeout parseMs (MsNum NaN) silentTest)) = NaN.
Proof.
  cbv zeta. do 5 (split; [vm_compute; reflexivity|]).
  split; [eexists; vm_compute; reflexivity|vm_compute; reflexivity].
Qed.

Lemma pending_runnable_is_not_executed_witness :
  let r := h_base legacyHook in
  (exists p a, parent r = Some p /\ In a (suite_chain p) /\ s_pending a = true) /\
  trace (run parseMs formatText (initWorld r 0)) = [OCompletion VUndefined].
Proof.
  cbv zeta.
  assert (H : exists p a, parent (h_base legacyHook) = Some p /\
                          In a (suite_chain p) /\ s_pending a = true).
  { exists legacySuite, legacySuite.
    split; [vm_compute; reflexivity|]. split; [left; reflexivity|reflexivity]. }
  split; [exact H|].
  apply (pending_runnable_is_not_executed parseMs formatText (h_base legacyHook) 0).
  right. exact H.
Defined.

(** C5, as stated, fails: the function of [overspecifiedTest] calls [done()]
    and then returns a promise; when the callback runs the return value does
    not exist yet, so the test passes instead of failing with the
    overspecified-resolution error. *)
Lemma done_before_returning_a_promise_passes :
  let w := attempt parseMs formatText overspecifiedTest 0 [] in
  result w = Some promise /\
  trace w = [OBody; OCompletion VUndefined] /\
  timedOut (self w) = false.
Proof. vm_compute. repeat split. Qed.

Lemma explicit_async_completion_witness :
  let w := waitingWorld parseMs formatText in
  timedOut (self w) = false /\ finished w = false /\
  textOf (VStr "oops") = Text "oops" /\
  userDone formatText (VStr "oops") w =
    (done formatText (newError "done() invoked with non-Error: oops") w, None) /\
  trace (done formatText (newError "done() invoked with non-Error: oops") w) =
    (trace w ++ [OCompletion (newError "done() invoked with non-Error: oops")])%list.
Proof.
  cbv zeta.
  assert (H1 : timedOut (self (waitingWorld parseMs formatText)) = false)
    by (vm_compute; reflexivity).
  assert (H2 : finished (waitingWorld parseMs formatText) = false)
    by (vm_compute; reflexivity).
  assert (H3 : textOf (VStr "oops") = Text "oops") by reflexivity.
  split; [exact H1|]. split; [exact H2|]. split; [exact H3|].
  destruct (explicit_async_completion formatText (VStr "oops")
              (waitingWorld parseMs formatText) H1 H2) as (_ & K & _).
  destruct (K eq_refl eq_refl "oops" H3) as (A & B & _).
  split; [exact A|exact B].
Defined.

(** C6 at a test whose slow threshold was set by [slow('abc')]: the slot of
    the test holds [undefined], [clone] passes that to [slow], which then
    only reads, and the clone is left with the 75 ms of the constructor. *)
Lemma clone_is_a_fresh_copy_witness :
  unparsedSlowStore parseMs formatText !! 0%nat = Some (unparsedSlowTest parseMs formatText) /\
  _slow (t_base (unparsedSlowTest parseMs formatText)) = None /\
  exists l c,
    clone parseMs "t2" 0%nat (unparsedSlowStore parseMs formatText) =
      Some (<[l := c]> (unparsedSlowStore parseMs formatText), l) /\
    l <> 0%nat /\
    _retriedTest c = Some 0%nat /\
    _timeout (t_base c) = _timeout (t_base (unparsedSlowTest parseMs formatText)) /\
    _slow (t_base c) = Some (Num 75) /\
    _slow (t_base c) <> _slow (t_base (unparsedSlowTest parseMs formatText)).
Proof.
  assert (H1 : unparsedSlowStore parseMs formatText !! 0%nat =
               Some (unparsedSlowTest parseMs formatText)) by apply lookup_singleton_eq.
  assert (H2 : _slow (t_base (unparsedSlowTest parseMs formatText)) = None)
    by (vm_compute; reflexivity).
  split; [exact H1|]. split; [exact H2|].
  destruct (clone_is_a_fresh_copy parseMs formatText "t1" "adds"
              (FnFunction "function (done) { }" 1 silentBody)
              [ToRunnable (RoSlow (MsStr "abc"))] "t2" 0%nat
              (unparsedSlowStore parseMs formatText) H1)
    as (l & c & Hc & _ & Hne & _ & _ & _ & _ & _ & _ & Ht & _ & Hs & _ & _ & _ & _ & _ & _
        & Hr & _).
  exists l, c.
  split; [exact Hc|]. split; [exact Hne|]. split; [exact Hr|]. split; [exact Ht|].
  split; [exact (Hs H2)|].
  rewrite (Hs H2). fold (unparsedSlowTest parseMs formatText). rewrite H2. discriminate.
Defined.

(** C7, as stated, fails: [error(null)] empties a slot that holds an error,
    and it is neither a read nor [reset()]. *)
Lemma storing_null_empties_the_slot :
  slotFull failedHook = true /\
  slotFull (hook_apply (OpError (Some VNull)) failedHook) = false /\
  _error (hook_apply (OpError (Some VNull)) failedHook) = VNull /\
  OpError (Some VNull) <> OpError None /\
  OpError (Some VNull) <> OpReset.
Proof.
  split; [vm_compute; reflexivity|]. split; [vm_compute; reflexivity|].
  split; [vm_compute; reflexivity|]. split; discriminate.
Qed.

Lemma hook_error_slot_witness :
  slotFull failedHook = true /\
  slotFull (hook_apply (OpError None) failedHook) = false /\
  (OpError None = OpError None \/ OpError None = OpReset \/
   exists x, OpError None = OpError (Some x) /\ isErrorLike x = false).
Proof.
  assert (H1 : slotFull failedHook = true) by (vm_compute; reflexivity).
  assert (H2 : slotFull (hook_apply (OpError None) failedHook) = false)
    by (vm_compute; reflexivity).
  split; [exact H1|]. split; [exact H2|].
  apply (hook_error_slot failedHook VNull (OpError None)); assumption.
Defined.

(** C8, as stated, fails: with [--forbid-pending], [describe.skip('legacy')]
    without a callback raises the unsupported error instead of creating a
    pending suite. *)
Lemma forbidden_pending_suite_raises :
  o_fn skipWithoutCallback = SfUndefined /\
  toBoolean (o_pending skipWithoutCallback) = true /\
  (exists v, fst (create forbidPendingOptions "s3" skipWithoutCallback topLevel) = Thrown v) /\
  fst (create forbidPendingOptions "s3" skipWithoutCallback topLevel) =
    Thrown (createUnsupportedError "Pending test forbidden") /\
  code (createUnsupportedError "Pending test forbidden") = Some "ERR_MOCHA_UNSUPPORTED".
Proof.
  split; [reflexivity|]. split; [reflexivity|].
  split; [eexists; vm_compute; reflexivity|].
  split; vm_compute; reflexivity.
Qed.

Lemma create_without_callback_witness :
  suites topLevel = [rootSuite] /\
  o_fn describeWithoutCallback = SfUndefined /\
  toBoolean (o_pending describeWithoutCallback) = false /\
  exists e,
    fst (create defaultOptions "s3" describeWithoutCallback topLevel) = Thrown e /\
    code e = Some "ERR_MOCHA_INVALID_ARG_TYPE".
Proof.
  split; [reflexivity|]. split; [reflexivity|]. split; [reflexivity|].
  destruct (create_without_callback defaultOptions "s3" describeWithoutCallback
              topLevel rootSuite [] eq_refl eq_refl) as [H _].
  destruct (H eq_refl) as (e & He & Hv & _).
  exists e. split; [exact He|]. rewrite Hv. reflexivity.
Defined.

(** C9, as stated, fails: the snapshot of a retried test holds the live
    predecessor, with its function, in [$$retriedTest]; the snapshot of a
    failed test holds the live error object, with its methods, in [err]; and
    the [$$isPending] of a hook declared in a skipped suite is [true] while
    its own [pending] is [false]. *)
Lemma snapshot_of_a_retry_holds_a_function :
  holdsFunction retryStore (test_serialize retryTest) /\
  liveRefs (test_serialize retryTest) = [RefTest 0%nat] /\
  holdsFunction retryStore (test_serialize failedTest) /\
  liveRefs (test_serialize failedTest) =
    [RefValue (VError ClsError "expected 1 to equal 2" None (InfoCustom true))] /\
  hs_isPending (hook_serialize legacyHook) = true /\
  pending (h_base legacyHook) = false.
Proof.
  split.
  { exists (RefTest 0%nat). split; [vm_compute; left|].
    exists originalTest. do 3 eexists.
    split; [apply lookup_singleton_eq|vm_compute; reflexivity]. }
  split; [vm_compute; reflexivity|]. split.
  { exists (RefValue (VError ClsError "expected 1 to equal 2" None (InfoCustom true))).
    split; [vm_compute; left|reflexivity]. }
  split; [vm_compute; reflexivity|]. split; vm_compute; reflexivity.
Qed.

Lemma serialize_summary_witness :
  _retriedTest originalTest = None /\
  err (t_base originalTest) = None /\
  liveRefs (test_serialize originalTest) = [] /\
  ~ holdsFunction retryStore (test_serialize originalTest).
Proof.
  assert (H1 : _retriedTest originalTest = None) by reflexivity.
  assert (H2 : err (t_base originalTest) = None) by reflexivity.
  split; [exact H1|]. split; [exact H2|].
  destruct (serialize_summary originalTest legacyHook retryStore)
    as (_ & (_ & _ & _ & _ & Hiff & Hno) & _).
  assert (Hnil : liveRefs (test_serialize originalTest) = []).
  { apply Hiff. split; [exact H1|]. intros v Hv. rewrite H2 in Hv. discriminate Hv. }
  split; [exact Hnil|exact (Hno Hnil)].
Defined.

Lemma late_success_becomes_timeout_witness :
  let w := overrunWorld in
  timedOut (self w) = false /\ finished w = false /\
  _timeout (self w) = Num 2000 /\ 0 < 2000 /\ 2000 < now w - start w /\
  trace (done formatText VUndefined w) =
    (trace w ++ [OCompletion (_timeoutError (Num 2000) slowSyncTest)])%list.
Proof.
  cbv zeta.
  assert (H0 : _timeout (self overrunWorld) = Num 2000) by (vm_compute; reflexivity).
  assert (H1 : 0 < 2000) by reflexivity.
  assert (H2 : 2000 < now overrunWorld - start overrunWorld) by (vm_compute; reflexivity).
  assert (H3 : timedOut (self overrunWorld) = false) by (vm_compute; reflexivity).
  assert (H4 : finished overrunWorld = false) by (vm_compute; reflexivity).
  split; [exact H3|]. split; [exact H4|]. split; [exact H0|].
  split; [exact H1|]. split; [exact H2|].
  apply (late_success_becomes_timeout formatText VUndefined overrunWorld 2000
           H3 H4 eq_refl H0 H1 H2).
Defined.

(** The same overrun from end to end: the synchronous test takes 3000 ms
    against a threshold of 2000 ms; no timer was ever armed, and the test
    fails with the timeout error. *)
Lemma overrun_without_timer :
  let w := attempt parseMs formatText slowSyncTest 0 [] in
  trace w = [OBody; OCompletion (_timeoutError (Num 2000) slowSyncTest)] /\
  timer (self w) = NoTimer /\
  timedOut (self w) = false /\
  duration (self w) = Some 3000.
Proof. vm_compute. repeat split. Qed.

(** ** The further theorems at concrete inputs *)

Lemma timeout_clamps_numeric_arguments_witness :
  toMs parseMs (MsStr "2s") = ConvValue (Some (Num 2000)) /\
  _timeout (fst (timeout parseMs (MsStr "2s") silentTest)) = Num 2000 /\
  snd (timeout parseMs (MsStr "2s") silentTest) = This.
Proof.
  assert (H : toMs parseMs (MsStr "2s") = ConvValue (Some (Num 2000)))
    by (vm_compute; reflexivity).
  split; [exact H|].
  destruct (timeout_clamps_numeric_arguments parseMs (MsStr "2s") silentTest) as (_ & K & _).
  destruct (K 2000 H) as (_ & _ & _ & _ & _ & _ & _ & S & _ & T).
  split; [|exact T]. apply S; discriminate.
Defined.

Lemma timeout_is_idempotent_witness :
  snd (timeout parseMs (MsStr "2s") silentTest) = This /\
  let r' := fst (timeout parseMs (MsStr "2s") silentTest) in
  _timeout (fst (timeout parseMs (MsNum (_timeout r')) r')) = _timeout r'.
Proof.
  assert (H : snd (timeout parseMs (MsStr "2s") silentTest) = This)
    by (vm_compute; reflexivity).
  split; [exact H|].
  exact (timeout_is_idempotent parseMs (MsStr "2s") silentTest H).
Defined.

Lemma timeout_touches_threshold_and_timer_only_witness :
  MsNum (Num 300) <> MsUndefined /\
  (timer silentTest = NoTimer ->
   timer (fst (timeout parseMs (MsNum (Num 300)) silentTest)) = NoTimer).
Proof.
  assert (H : MsNum (Num 300) <> MsUndefined) by discriminate.
  split; [exact H|].
  destruct (timeout_touches_threshold_and_timer_only parseMs (MsNum (Num 300)) silentTest H)
    as (_ & H1 & _).
  exact H1.
Defined.

Lemma thrown_value_fails_the_runnable_witness :
  isPending falsyThrowTest = false /\ timedOut falsyThrowTest = false /\
  allowUncaught falsyThrowTest = false /\
  completions (run parseMs formatText (initWorld falsyThrowTest 0)) =
    [toValueOrError VUndefined] /\
  code (toValueOrError VUndefined) = Some "ERR_MOCHA_INVALID_EXCEPTION".
Proof.
  assert (H1 : isPending falsyThrowTest = false) by (vm_compute; reflexivity).
  assert (H2 : timedOut falsyThrowTest = false) by (vm_compute; reflexivity).
  assert (H3 : allowUncaught falsyThrowTest = false) by (vm_compute; reflexivity).
  assert (H4 : fn falsyThrowTest =
               FnFunction "function () { ... }" 0
                 {| acts := [ATick 5]; fin := EThrow VUndefined |})
    by (vm_compute; reflexivity).
  assert (H5 : Forall notDone [ATick 5]) by (repeat constructor).
  split; [exact H1|]. split; [exact H2|]. split; [exact H3|].
  destruct (thrown_value_fails_the_runnable parseMs formatText falsyThrowTest 0
              _ _ _ _ H1 H2 H3 H4 H5) as (C & _ & _ & K & _).
  split; [exact C|]. apply K. reflexivity.
Defined.

Lemma allowUncaught_rethrows_witness :
  isPending uncaughtTest = false /\ allowUncaught uncaughtTest = true /\
  completions (run parseMs formatText (initWorld uncaughtTest 0)) = [].
Proof.
  assert (H1 : isPending uncaughtTest = false) by (vm_compute; reflexivity).
  assert (H2 : allowUncaught uncaughtTest = true) by (vm_compute; reflexivity).
  assert (H4 : fn uncaughtTest =
               FnFunction "function () { ... }" 0
                 {| acts := [ATick 5]; fin := EThrow VUndefined |})
    by (vm_compute; reflexivity).
  assert (H5 : Forall notDone [ATick 5]) by (repeat constructor).
  split; [exact H1|]. split; [exact H2|].
  destruct (allowUncaught_rethrows parseMs formatText uncaughtTest 0
              _ _ _ _ H1 H2 H4 H5) as (_ & C & _).
  exact C.
Defined.

Lemma skip_completes_once_as_pending_witness :
  isPending skippingTest = false /\ timedOut skippingTest = false /\
  pending (self (run parseMs formatText (initWorld skippingTest 0))) = true /\
  completions (run parseMs formatText (initWorld skippingTest 0)) = [VUndefined].
Proof.
  assert (H1 : isPending skippingTest = false) by (vm_compute; reflexivity).
  assert (H2 : timedOut skippingTest = false) by (vm_compute; reflexivity).
  assert (H3 : fn skippingTest =
               FnFunction "function () { this.skip(); }" 0 {| acts := []; fin := ESkip |})
    by (vm_compute; reflexivity).
  split; [exact H1|]. split; [exact H2|].
  destruct (skip_completes_once_as_pending parseMs formatText skippingTest 0
              _ _ _ H1 H2 H3 (Forall_nil_2 _) eq_refl) as (P & _ & _ & _ & _ & _ & C & _).
  split; [exact P|]. apply C. vm_compute. reflexivity.
Defined.

Lemma returned_thenable_is_awaited_witness :
  isPending promiseTest = false /\ timedOut promiseTest = false /\
  asyncTruthy (async promiseTest) = false /\
  completions (run parseMs formatText (initWorld promiseTest 0)) = [] /\
  completions (step parseMs formatText
                 (step parseMs formatText (run parseMs formatText (initWorld promiseTest 0))
                    (EvTick 2500)) EvResolve) = [_timeoutError (Num 2000) promiseTest].
Proof.
  assert (H1 : isPending promiseTest = false) by (vm_compute; reflexivity).
  assert (H2 : timedOut promiseTest = false) by (vm_compute; reflexivity).
  assert (H3 : asyncTruthy (async promiseTest) = false) by (vm_compute; reflexivity).
  assert (H4 : fn promiseTest =
               FnFunction "function () { return ... }" 0
                 {| acts := [ATick 1]; fin := EReturn promise |})
    by (vm_compute; reflexivity).
  split; [exact H1|]. split; [exact H2|]. split; [exact H3|].
  destruct (returned_thenable_is_awaited parseMs formatText promiseTest 0
              _ _ _ H1 H2 H3 H4 eq_refl) as (C & _ & _ & _ & _ & F).
  split; [exact C|].
  destruct (F 2500) as (_ & _ & T).
  assert (E : _timeout (self (run parseMs formatText (initWorld promiseTest 0))) = Num 2000)
    by (vm_compute; reflexivity).
  rewrite E in T. apply T. vm_compute. reflexivity.
Defined.

Lemma thenable_that_settles_at_once_completes_inside_run_witness :
  isPending eagerThenableTest = false /\ timedOut eagerThenableTest = false /\
  asyncTruthy (async eagerThenableTest) = false /\
  finished (run parseMs formatText (initWorld eagerThenableTest 0)) = true.
Proof.
  assert (H1 : isPending eagerThenableTest = false) by (vm_compute; reflexivity).
  assert (H2 : timedOut eagerThenableTest = false) by (vm_compute; reflexivity).
  assert (H3 : asyncTruthy (async eagerThenableTest) = false) by (vm_compute; reflexivity).
  assert (H4 : fn eagerThenableTest =
               FnFunction "function () { return { then: ... }; }" 0
                 {| acts := [ATick 3]; fin := EReturn (RThenable [Fulfil] None) |})
    by (vm_compute; reflexivity).
  split; [exact H1|]. split; [exact H2|]. split; [exact H3|].
  destruct (thenable_that_settles_at_once_completes_inside_run parseMs formatText
              eagerThenableTest 0 _ _ _ _ _ _ H1 H2 H3 H4 eq_refl) as (F & _).
  exact F.
Defined.

Lemma synchronous_return_completes_at_once_witness :
  isPending slowSyncTest = false /\ timedOut slowSyncTest = false /\
  asyncTruthy (async slowSyncTest) = false /\ asyncOnly slowSyncTest = false /\
  completions (run parseMs formatText (initWorld slowSyncTest 0)) =
    [_timeoutError (Num 2000) slowSyncTest].
Proof.
  assert (H1 : isPending slowSyncTest = false) by (vm_compute; reflexivity).
  assert (H2 : timedOut slowSyncTest = false) by (vm_compute; reflexivity).
  assert (H3 : asyncTruthy (async slowSyncTest) = false) by (vm_compute; reflexivity).
  assert (H4 : fn slowSyncTest =
               FnFunction "function () { ... }" 0
                 {| acts := [ATick 3000]; fin := EReturn (RPlain VUndefined) |})
    by (vm_compute; reflexivity).
  assert (H5 : asyncOnly slowSyncTest = false) by (vm_compute; reflexivity).
  split; [exact H1|]. split; [exact H2|]. split; [exact H3|]. split; [exact H5|].
  destruct (synchronous_return_completes_at_once parseMs formatText slowSyncTest 0
              _ _ _ _ H1 H2 H3 H4 eq_refl) as (_ & C & _).
  destruct (C H5) as (_ & _ & T).
  assert (E : _timeout (self (run parseMs formatText (initWorld slowSyncTest 0))) = Num 2000)
    by (vm_compute; reflexivity).
  rewrite E in T. apply T. vm_compute. reflexivity.
Defined.

Lemma non_callable_function_fails_witness :
  isPending notAFunctionTest = false /\ timedOut notAFunctionTest = false /\
  fn notAFunctionTest = FnNotCallable "42" None /\
  completions (run parseMs formatText (initWorld notAFunctionTest 0)) =
    [newTypeError "A runnable must be passed a function as its second argument."].
Proof.
  assert (H1 : isPending notAFunctionTest = false) by (vm_compute; reflexivity).
  assert (H2 : timedOut notAFunctionTest = false) by (vm_compute; reflexivity).
  assert (H3 : fn notAFunctionTest = FnNotCallable "42" None) by (vm_compute; reflexivity).
  split; [exact H1|]. split; [exact H2|]. split; [exact H3|].
  destruct (non_callable_function_fails parseMs formatText notAFunctionTest 0
              _ _ H1 H2 H3) as (C & _).
  exact C.
Defined.

Lemma missing_function_fails_witness :
  isPending emptyHook = false /\ timedOut emptyHook = false /\
  allowUncaught emptyHook = false /\ fn emptyHook = FnAbsent /\
  completions (run parseMs formatText (initWorld emptyHook 0)) = [callOfUndefined] /\
  ~ In OBody (trace (run parseMs formatText (initWorld emptyHook 0))).
Proof.
  assert (H1 : isPending emptyHook = false) by (vm_compute; reflexivity).
  assert (H2 : timedOut emptyHook = false) by (vm_compute; reflexivity).
  assert (H3 : allowUncaught emptyHook = false) by (vm_compute; reflexivity).
  assert (H4 : fn emptyHook = FnAbsent) by (vm_compute; reflexivity).
  split; [exact H1|]. split; [exact H2|]. split; [exact H3|]. split; [exact H4|].
  destruct (missing_function_fails parseMs formatText emptyHook 0 H1 H2 H3 H4)
    as (C & _ & _ & B & _).
  split; [exact C|exact B].
Defined.

(** X10 at a test that is entered with threshold zero and whose function
    sets a threshold of 100 ms: the threshold is stored, and no timer exists
    that could enforce it. *)
Lemma unanswered_callback_times_out_witness :
  isPending untimedTest = false /\ timedOut untimedTest = false /\
  asyncTruthy (async untimedTest) = true /\
  _timeout untimedTest = Num 0 /\ timer untimedTest = NoTimer /\
  let w := run parseMs formatText (initWorld untimedTest 0) in
  completions w = [] /\ finished w = false /\
  _timeout (self w) = Num 100 /\
  timer (self w) = NoTimer /\
  step parseMs formatText w EvTimer = w.
Proof.
  assert (H1 : isPending untimedTest = false) by (vm_compute; reflexivity).
  assert (H2 : timedOut untimedTest = false) by (vm_compute; reflexivity).
  assert (H3 : asyncTruthy (async untimedTest) = true) by (vm_compute; reflexivity).
  assert (H4 : fn untimedTest =
               FnFunction "function (done) { this.timeout(100); }" 1
                 {| acts := [ATimeout (MsNum (Num 100))];
                    fin := EReturn (RPlain VUndefined) |})
    by (vm_compute; reflexivity).
  assert (H5 : Forall notDone [ATimeout (MsNum (Num 100))]) by (repeat constructor).
  assert (H6 : _timeout untimedTest = Num 0) by (vm_compute; reflexivity).
  assert (H7 : timer untimedTest = NoTimer) by (vm_compute; reflexivity).
  split; [exact H1|]. split; [exact H2|]. split; [exact H3|].
  split; [exact H6|]. split; [exact H7|]. cbv zeta.
  destruct (unanswered_callback_times_out parseMs formatText untimedTest 0
              _ _ _ _ H1 H2 H3 H4 H5 eq_refl) as (C & F & _ & N).
  destruct (N H6 H7) as (N1 & N2).
  split; [exact C|]. split; [exact F|].
  split; [vm_compute; reflexivity|]. split; [exact N1|exact N2].
Defined.

(** The same function in a test that is entered with a threshold of 50 ms:
    the timer is re-armed at 100 ms, and its firing fails the test. *)
Lemma unanswered_callback_with_a_timer :
  let r := with_timeout (Num 50) untimedTest in
  let w := run parseMs formatText (initWorld r 0) in
  timer (self w) = Armed (Num 100) /\
  completions (step parseMs formatText w EvTimer) = [_timeoutError (Num 100) r].
Proof. vm_compute. split; reflexivity. Qed.

Lemma disabled_threshold_defuses_the_timer_witness :
  let w := waitingWorld parseMs formatText in
  timer (self w) = Armed (Num 50) /\
  trace (step parseMs formatText
           (step parseMs formatText w (EvTimeout (MsNum (Num 0)))) EvTimer)
    = trace w.
Proof.
  cbv zeta.
  assert (H1 : timer (self (waitingWorld parseMs formatText)) = Armed (Num 50))
    by (vm_compute; reflexivity).
  split; [exact H1|].
  destruct (disabled_threshold_defuses_the_timer parseMs formatText
              (waitingWorld parseMs formatText) (Num 50) 0 H1 (or_introl (Z.le_refl 0)))
    as (_ & _ & T & _).
  exact T.
Defined.

Lemma timeout_after_completion_reports_multiple_done_witness :
  let w := finishedWorld parseMs formatText in
  finished w = true /\ timedOut (self w) = false /\ errorWasHandled w = false /\
  timer (self w) <> NoTimer /\
  timedOut (self (step parseMs formatText
                    (step parseMs formatText w (EvTimeout (MsNum (Num 100)))) EvTimer)) = true.
Proof.
  cbv zeta.
  assert (H1 : finished (finishedWorld parseMs formatText) = true)
    by (vm_compute; reflexivity).
  assert (H2 : timedOut (self (finishedWorld parseMs formatText)) = false)
    by (vm_compute; reflexivity).
  assert (H3 : errorWasHandled (finishedWorld parseMs formatText) = false)
    by (vm_compute; reflexivity).
  assert (H4 : callback (self (finishedWorld parseMs formatText)) = true)
    by (vm_compute; reflexivity).
  assert (H5 : callbackIsDone (finishedWorld parseMs formatText) = true)
    by (vm_compute; reflexivity).
  assert (H6 : timer (self (finishedWorld parseMs formatText)) <> NoTimer)
    by (vm_compute; discriminate).
  assert (H7 : 0 < 100 < INT_MAX) by (vm_compute; split; reflexivity).
  split; [exact H1|]. split; [exact H2|]. split; [exact H3|]. split; [exact H6|].
  destruct (timeout_after_completion_reports_multiple_done parseMs formatText
              (finishedWorld parseMs formatText) 100 H1 H2 H3 H4 H5 H6 H7)
    as (_ & _ & _ & T).
  exact T.
Defined.

(** The completion function at a symbol: the test of [symbolDoneTest] calls
    [done(Symbol('x'))]; the conversion of the symbol to text throws, and
    the test fails with that [TypeError]. *)
Lemma completion_with_unconvertible_value_throws_witness :
  isPending symbolDoneTest = false /\ timedOut symbolDoneTest = false /\
  allowUncaught symbolDoneTest = false /\ asyncTruthy (async symbolDoneTest) = true /\
  textOf (VSymbol "x") = Raises (newTypeError "Cannot convert a Symbol value to a string") /\
  completions (run parseMs formatText (initWorld symbolDoneTest 0)) =
    [newTypeError "Cannot convert a Symbol value to a string"].
Proof.
  assert (H1 : isPending symbolDoneTest = false) by (vm_compute; reflexivity).
  assert (H2 : timedOut symbolDoneTest = false) by (vm_compute; reflexivity).
  assert (H3 : allowUncaught symbolDoneTest = false) by (vm_compute; reflexivity).
  assert (H4 : asyncTruthy (async symbolDoneTest) = true) by (vm_compute; reflexivity).
  assert (H5 : fn symbolDoneTest =
               FnFunction "function (done) { done(Symbol('x')); }" 1
                 {| acts := [] ++ ADone (VSymbol "x") :: [];
                    fin := EReturn (RPlain VUndefined) |})
    by (vm_compute; reflexivity).
  assert (H6 : textOf (VSymbol "x") =
               Raises (newTypeError "Cannot convert a Symbol value to a string"))
    by reflexivity.
  split; [exact H1|]. split; [exact H2|]. split; [exact H3|]. split; [exact H4|].
  split; [exact H6|].
  destruct (completion_with_unconvertible_value_throws parseMs formatText symbolDoneTest 0
              _ _ [] [] _ (VSymbol "x") _ H1 H2 H3 H4 H5 (Forall_nil_2 _) eq_refl
              eq_refl eq_refl H6) as (_ & _ & C & _).
  exact C.
Defined.

Lemma attempt_keeps_the_threshold_in_range_witness :
  thresholdOk silentTest /\
  thresholdOk (self (attempt parseMs formatText silentTest 0
                       [EvTimeout (MsStr "abc"); EvTick 50; EvTimer])) /\
  _timeout (self (attempt parseMs formatText silentTest 0
                    [EvTimeout (MsStr "abc"); EvTick 50; EvTimer])) = NaN.
Proof.
  assert (H : thresholdOk silentTest) by (vm_compute; split; [discriminate|reflexivity]).
  split; [exact H|].
  destruct (attempt_keeps_the_threshold_in_range parseMs formatText silentTest 0
              [EvTimeout (MsStr "abc"); EvTick 50; EvTimer]) as [K _].
  split; [exact (K H)|vm_compute; reflexivity].
Defined.

Lemma stats_duration_is_end_minus_start_witness :
  st_duration (stats (collectAll smallRun createStatsCollector)) = Some (Num 7).
Proof.
  destruct (stats_duration_is_end_minus_start
              [(0, EVENT_OTHER)]
              [(11, EVENT_SUITE_BEGIN rootSuite); (12, EVENT_SUITE_BEGIN mathSuite);
               (15, EVENT_TEST_PASS); (15, EVENT_TEST_END)]
              [(20, EVENT_RUN_END)] 10 17 eq_refl eq_refl eq_refl) as (_ & _ & D).
  exact D.
Defined.


Lemma failed_create_leaves_the_suite_on_the_stack_witness :
  suites topLevel = [rootSuite] /\
  o_fn describeWithoutCallback = SfUndefined /\
  length (suites (snd (create defaultOptions "s3" describeWithoutCallback topLevel))) = 2%nat.
Proof.
  split; [reflexivity|]. split; [reflexivity|].
  assert (H : fst (create defaultOptions "s3" describeWithoutCallback topLevel) =
              Thrown (createMissingArgumentError
                        (missingCallbackMessage
                           (MkSuite "legacy" false false "s3"
                              (Some "test/math.spec.js") (Parent rootSuite)))
                        "callback" "function")) by (vm_compute; reflexivity).
  destruct (failed_create_leaves_the_suite_on_the_stack defaultOptions "s3"
              describeWithoutCallback topLevel rootSuite [] _ eq_refl eq_refl H) as (S & _).
  rewrite S. reflexivity.
Defined.

(** X18 at [describe.skip('legacy', function () { })] under
    [--forbid-pending]: the callback is not run, and [create] throws. *)
Lemma create_runs_the_callback_inside_the_suite_witness :
  suites topLevel = [rootSuite] /\
  fst (create forbidPendingOptions "s3" skipWithCallback topLevel) =
    Thrown (createUnsupportedError "Pending test forbidden").
Proof.
  split; [reflexivity|].
  pose proof (create_runs_the_callback_inside_the_suite forbidPendingOptions "s3"
                skipWithCallback topLevel rootSuite [] (fun d => (d, None))
                eq_refl eq_refl) as H.
  cbv zeta in H. cbn [s_pending toBoolean o_pending skipWithCallback forbidPending
                      forbidPendingOptions shouldBeTested grep andb] in H.
  destruct H as [H _]. rewrite H. reflexivity.
Defined.

(** And at [describe('legacy', function () { })]: the stack is as before. *)
Lemma create_with_callback_restores_the_stack :
  create defaultOptions "s3" describeWithCallback topLevel =
    (Returned (MkSuite "legacy" false false "s3" (Some "test/math.spec.js") (Parent rootSuite)),
     topLevel).
Proof. vm_compute. reflexivity. Qed.

Lemma only_is_forbidden_or_marks_the_suite_witness :
  suites topLevel = [rootSuite] /\
  forbidOnly defaultOptions = false /\
  onlySuites (snd (only defaultOptions false "s3" describeWithoutCallback topLevel)) = ["s3"].
Proof.
  split; [reflexivity|]. split; [reflexivity|].
  assert (Hf : forall f, o_fn describeWithoutCallback <> SfFunction f) by (intros f; discriminate).
  destruct (only_is_forbidden_or_marks_the_suite defaultOptions false "s3"
              describeWithoutCallback topLevel rootSuite [] eq_refl Hf) as (_ & H).
  exact (H eq_refl).
Defined.

Lemma test_declared_in_pending_suite_has_no_function_witness :
  suites insideLegacy = [legacySuite; rootSuite] /\
  suite_isPending legacySuite = true /\
  exists t,
    declareTest "t9" "still works" (FnFunction "function () { }" 0 silentBody)
      "test/math.spec.js" insideLegacy = Some t /\
    fn (t_base t) = FnAbsent.
Proof.
  split; [reflexivity|]. split; [reflexivity|].
  destruct (test_declared_in_pending_suite_has_no_function parseMs formatText
              "t9" "still works" "test/math.spec.js"
              (FnFunction "function () { }" 0 silentBody)
              insideLegacy legacySuite [rootSuite] eq_refl)
    as (t & E & _ & _ & P & _).
  exists t. split; [exact E|]. apply P. reflexivity.
Defined.

Lemma failed_and_passed_exclude_each_other_witness :
  isPending (h_base legacyHook) = true /\ isFailed (h_base legacyHook) = false.
Proof.
  assert (H : isPending (h_base legacyHook) = true) by (vm_compute; reflexivity).
  split; [exact H|].
  destruct (failed_and_passed_exclude_each_other (h_base legacyHook)) as (_ & K & _).
  apply K. exact H.
Defined.

Lemma clones_point_to_the_first_attempt_witness :
  retryStore !! 0%nat = Some originalTest /\
  exists h1 l1 h2 l2 c2,
    clone parseMs "t2" 0%nat retryStore = Some (h1, l1) /\
    clone parseMs "t3" l1 h1 = Some (h2, l2) /\
    h2 !! l2 = Some c2 /\ _retriedTest c2 = Some 0%nat.
Proof.
  assert (H1 : retryStore !! 0%nat = Some originalTest) by apply lookup_singleton_eq.
  split; [exact H1|].
  destruct (clones_point_to_the_first_attempt parseMs "t2" "t3" 0%nat retryStore
              originalTest H1)
    as (h1 & l1 & h2 & l2 & c1 & c2 & E1 & E2 & _ & _ & L2 & _ & R2 & _).
  exists h1, l1, h2, l2, c2. repeat split; assumption.
Defined.

Lemma clone_does_not_copy_run_flags_witness :
  retryStore !! 0%nat = Some originalTest /\
  exists h' l c,
    clone parseMs "t2" 0%nat retryStore = Some (h', l) /\
    h' !! l = Some c /\ allowUncaught (t_base c) = false.
Proof.
  assert (H1 : retryStore !! 0%nat = Some originalTest) by apply lookup_singleton_eq.
  split; [exact H1|].
  destruct (clone_does_not_copy_run_flags parseMs "t2" 0%nat retryStore originalTest H1)
    as (h' & l & c & E & L & _ & A & _).
  exists h', l, c. repeat split; assumption.
Defined.
